(** * Startup-funding pipeline: cleaning, aggregation and upload checks

    A shallow embedding of [scripts/clean_data.py], [scripts/analyze.py] and
    of [app.py] (its loading prefix, its filters, its indicators and the
    rows of its map), with the properties of the pipeline stated and proved
    over it.

    Conventions of the embedding.
    - Text is ASCII text, held in [string]; the Python string methods the
      scripts call are written out in [PyStr].
    - A Python float is a [pyfloat]: a finite value, an infinity or nan.  A
      finite value is held as the exact rational its decimal literal
      denotes; the binary64 rounding of a literal and of the product by
      [1e6], overflow and underflow are outside the model.
    - The amounts of the analysis are finite numbers, held as rationals.
      The sum pandas takes of a group is a parameter, [sum], of which
      nothing is assumed: it is applied to the amounts of the group in row
      order, so no statement relies on how binary64 addition rounds.
    - A pandas DataFrame is a list of column names and a list of rows, each
      row a finite map from column name to [cell].  [read_csv] yields text
      cells and nan for a missing value; the numeric dtype pandas would infer
      for an all-numeric column is not modelled, which leaves [str(val)] of
      such a cell read back by [float] at the same value.
    - [pd.to_datetime] and [pd.to_numeric] are library parsers.  The cleaner
      and the upload prefix take them as parameters, and every statement
      holds for any parser; [Dates] holds sample parsers, used to run the
      examples only. *)

From Stdlib Require Import ZArith QArith Qpower String Ascii List Lia Lra.
From Stdlib Require Import Permutation Sorted.
From stdpp Require Import base option list gmap strings.
Import ListNotations.

Local Open Scope string_scope.
Local Open Scope list_scope.

(** ** Python string methods (ASCII) *)

Module PyStr.

Definition code (c : ascii) : nat := nat_of_ascii c.

(** [str.isspace] on one ASCII character: tab to carriage return, the
    four separators 0x1c-0x1f, and the space. *)
Definition isspace (c : ascii) : bool :=
  let n := code c in
  ((9 <=? n)%nat && (n <=? 13)%nat) || ((28 <=? n)%nat && (n <=? 32)%nat).

Definition isdigit (c : ascii) : bool :=
  let n := code c in (48 <=? n)%nat && (n <=? 57)%nat.

Definition isupper (c : ascii) : bool :=
  let n := code c in (65 <=? n)%nat && (n <=? 90)%nat.

Definition islower (c : ascii) : bool :=
  let n := code c in (97 <=? n)%nat && (n <=? 122)%nat.

Definition isalpha (c : ascii) : bool := isupper c || islower c.

Definition upper_char (c : ascii) : ascii :=
  if islower c then ascii_of_nat (code c - 32) else c.

Definition lower_char (c : ascii) : ascii :=
  if isupper c then ascii_of_nat (code c + 32) else c.

Fixpoint upper (s : string) : string :=
  match s with
  | EmptyString => EmptyString
  | String c s' => String (upper_char c) (upper s')
  end.

Fixpoint lower (s : string) : string :=
  match s with
  | EmptyString => EmptyString
  | String c s' => String (lower_char c) (lower s')
  end.

Fixpoint lstrip (s : string) : string :=
  match s with
  | EmptyString => EmptyString
  | String c s' => if isspace c then lstrip s' else s
  end.

Fixpoint rstrip (s : string) : string :=
  match s with
  | EmptyString => EmptyString
  | String c s' =>
      match rstrip s' with
      | EmptyString => if isspace c then EmptyString else String c EmptyString
      | r => String c r
      end
  end.

(** [s.strip()] *)
Definition strip (s : string) : string := rstrip (lstrip s).

(** [s.title()]: a letter that follows a letter is lowered, any other
    letter is raised. *)
Fixpoint title_from (previous_is_cased : bool) (s : string) : string :=
  match s with
  | EmptyString => EmptyString
  | String c s' =>
      String (if previous_is_cased then lower_char c else upper_char c)
             (title_from (isalpha c) s')
  end.

Definition title (s : string) : string := title_from false s.

(** [s.replace(old, new)] for a one-character [old], the only use the
    scripts make of it. *)
Fixpoint replace (old : ascii) (new : string) (s : string) : string :=
  match s with
  | EmptyString => EmptyString
  | String c s' =>
      if Ascii.eqb c old then new ++ replace old new s'
      else String c (replace old new s')
  end.

(** [s.endswith(suffix)] *)
Fixpoint endswith (s suffix : string) : bool :=
  if String.eqb s suffix then true
  else match s with
       | EmptyString => false
       | String _ s' => endswith s' suffix
       end.

(** [s.startswith(prefix)] *)
Definition startswith (s pre : string) : bool := String.prefix pre s.

(** [s[:-1]] *)
Fixpoint drop_last (s : string) : string :=
  match s with
  | EmptyString => EmptyString
  | String c EmptyString => EmptyString
  | String c s' => String c (drop_last s')
  end.

(** [s.split(sep)] for a one-character separator: one more piece than
    there are separators, empty pieces included. *)
Fixpoint split (sep : ascii) (s : string) : list string :=
  match s with
  | EmptyString => [EmptyString]
  | String c s' =>
      if Ascii.eqb c sep then EmptyString :: split sep s'
      else match split sep s' with
           | piece :: pieces => String c piece :: pieces
           | [] => [String c EmptyString]
           end
  end.

End PyStr.

(** ** Python floats *)

Module PyFloat.
Import PyStr.

Inductive pyfloat :=
| Fin (q : Q)
| Inf (negative : bool)
| Nan.

Definition is_nan (f : pyfloat) : bool :=
  match f with Nan => true | _ => false end.

(** [f * g] for a finite positive [g] (the script multiplies by [1e6]). *)
Definition scale (f : pyfloat) (g : Q) : pyfloat :=
  match f with
  | Fin q => Fin (q * g)
  | Inf n => Inf n
  | Nan => Nan
  end.

Definition digit_val (c : ascii) : option Z :=
  if isdigit c then Some (Z.of_nat (code c - 48)) else None.

(** The rest of a [digitpart] once a digit has been read:
    [(["_"] digit)*], longest match. *)
Fixpoint more_digits (s : string) : list Z * string :=
  match s with
  | EmptyString => ([], EmptyString)
  | String c s' =>
      match digit_val c with
      | Some d => let '(ds, r) := more_digits s' in (d :: ds, r)
      | None =>
          if Ascii.eqb c "_" then
            match s' with
            | String c2 s'' =>
                match digit_val c2 with
                | Some d => let '(ds, r) := more_digits s'' in (d :: ds, r)
                | None => ([], s)
                end
            | EmptyString => ([], s)
            end
          else ([], s)
      end
  end.

(** [digitpart ::= digit (["_"] digit)*] *)
Definition digitpart (s : string) : option (list Z * string) :=
  match s with
  | String c s' =>
      match digit_val c with
      | Some d => let '(ds, r) := more_digits s' in Some (d :: ds, r)
      | None => None
      end
  | EmptyString => None
  end.

Definition digits_value (ds : list Z) : Z :=
  fold_left (fun acc d => (10 * acc + d)%Z) ds 0%Z.

(** [number ::= [digitpart] "." digitpart | digitpart ["."]]: the integer
    digits, the fraction digits and the rest. *)
Definition number (s : string) : option (list Z * list Z * string) :=
  match digitpart s with
  | Some (ip, r) =>
      match r with
      | String "." r' =>
          match digitpart r' with
          | Some (fp, r'') => Some (ip, fp, r'')
          | None => Some (ip, [], r')
          end
      | _ => Some (ip, [], r)
      end
  | None =>
      match s with
      | String "." r' =>
          match digitpart r' with
          | Some (fp, r'') => Some ([], fp, r'')
          | None => None
          end
      | _ => None
      end
  end.

(** An optional sign: whether it is a minus, and the rest. *)
Definition sign (s : string) : bool * string :=
  match s with
  | String "-" r => (true, r)
  | String "+" r => (false, r)
  | _ => (false, s)
  end.

(** [exponent ::= ("e" | "E") [sign] digitpart], or nothing; the whole
    rest of the literal has to be consumed. *)
Definition exponent (s : string) : option Z :=
  match s with
  | EmptyString => Some 0%Z
  | String c r =>
      if Ascii.eqb c "e" || Ascii.eqb c "E" then
        let '(neg, r') := sign r in
        match digitpart r' with
        | Some (ds, EmptyString) =>
            Some (if neg then (- digits_value ds)%Z else digits_value ds)
        | _ => None
        end
      else None
  end.

Definition apply_sign (neg : bool) (q : Q) : Q := if neg then (- q)%Q else q.

(** The blanks [float] skips around a literal: tab to carriage return and
    the space, not the separators 0x1c-0x1f that [str.strip] removes. *)
Definition blank (c : ascii) : bool :=
  let n := code c in ((9 <=? n)%nat && (n <=? 13)%nat) || (n =? 32)%nat.

Fixpoint skip_blanks (s : string) : string :=
  match s with
  | EmptyString => EmptyString
  | String c s' => if blank c then skip_blanks s' else s
  end.

Fixpoint drop_trailing_blanks (s : string) : string :=
  match s with
  | EmptyString => EmptyString
  | String c s' =>
      match drop_trailing_blanks s' with
      | EmptyString => if blank c then EmptyString else String c EmptyString
      | r => String c r
      end
  end.

(** [float(s)] on text: [None] stands for the [ValueError] Python raises. *)
Definition float (s : string) : option pyfloat :=
  let '(neg, body) := sign (drop_trailing_blanks (skip_blanks s)) in
  let name := lower body in
  if String.eqb name "inf" || String.eqb name "infinity" then Some (Inf neg)
  else if String.eqb name "nan" then Some Nan
  else
    match number body with
    | Some (ip, fp, r) =>
        match exponent r with
        | Some e =>
            let mantissa := digits_value (ip ++ fp) in
            let k := (e - Z.of_nat (length fp))%Z in
            Some (Fin (apply_sign neg (inject_Z mantissa * (10 # 1) ^ k)))
        | None => None
        end
    | None => None
    end.

End PyFloat.

(** ** The pandas objects the scripts handle *)

Module Pandas.
Import PyStr PyFloat.

(** A calendar date, as a [Timestamp] at midnight holds it. *)
Record date := mkdate { year : Z; month : Z; day : Z }.

(** What a cell of a frame can hold in these scripts.  [Float Nan] is
    [np.nan], the missing value [read_csv] produces. *)
Inductive cell :=
| Str (s : string)
| Float (f : pyfloat)
| PdNA
| Timestamp (d : date)
| NaT
| Period (y m : Z).

(** [pd.isna] on one cell. *)
Definition isna (c : cell) : bool :=
  match c with
  | Float Nan | PdNA | NaT => true
  | _ => false
  end.

Record DataFrame := mkframe {
  columns : list string;
  rows : list (gmap string cell)
}.

(** The cell of row [r] under column [c]; a row shorter than the header
    is padded with nan. *)
Definition cell_at (r : gmap string cell) (c : string) : cell :=
  default (Float Nan) (r !! c).

Definition has_column (df : DataFrame) (c : string) : bool :=
  bool_decide (c ∈ columns df).

(** The outcome of a script step: a value, or the [KeyError] raised by
    the access to an absent column. *)
Inductive result (A : Type) :=
| Ok (a : A)
| KeyError (col : string).
Arguments Ok {A} a.
Arguments KeyError {A} col.

Definition bind {A B} (x : result A) (k : A -> result B) : result B :=
  match x with
  | Ok a => k a
  | KeyError c => KeyError c
  end.

(** A CSV file after tokenising: the header line and the data lines. *)
Record CsvFile := mkcsv {
  header : list string;
  records : list (list string)
}.

(** The tokens [read_csv] takes for a missing value by default. *)
Definition STR_NA_VALUES : list string :=
  [""; "#N/A"; "#N/A N/A"; "#NA"; "-1.#IND"; "-1.#QNAN"; "-NaN"; "-nan";
   "1.#IND"; "1.#QNAN"; "<NA>"; "N/A"; "NA"; "NULL"; "NaN"; "None";
   "n/a"; "nan"; "null"].

Definition read_cell (token : string) : cell :=
  if bool_decide (token ∈ STR_NA_VALUES) then Float Nan else Str token.

Definition read_record (hdr : list string) (tokens : list string)
  : gmap string cell :=
  list_to_map (zip hdr (map read_cell tokens)).

(** [pd.read_csv(path)] *)
Definition read_csv (csv : CsvFile) : DataFrame :=
  {| columns := header csv;
     rows := map (read_record (header csv)) (records csv) |}.

(** [df[dst] = f(df[src])], cell by cell. *)
Definition assign (dst src : string) (f : cell -> cell) (df : DataFrame)
  : result DataFrame :=
  if has_column df src then
    Ok {| columns := if has_column df dst then columns df
                     else columns df ++ [dst];
          rows := map (fun r => <[dst := f (cell_at r src)]> r) (rows df) |}
  else KeyError src.

Definition complete (subset : list string) (r : gmap string cell) : bool :=
  forallb (fun c => negb (isna (cell_at r c))) subset.

(** [df.dropna(subset=...)] *)
Definition dropna (subset : list string) (df : DataFrame)
  : result DataFrame :=
  match List.filter (fun c => negb (has_column df c)) subset with
  | c :: _ => KeyError c
  | [] => Ok {| columns := columns df;
                rows := List.filter (complete subset) (rows df) |}
  end.

(** [df.loc[:, ~df.columns.str.contains('^Unnamed')]] *)
Definition drop_unnamed (df : DataFrame) : DataFrame :=
  {| columns := List.filter (fun c => negb (startswith c "Unnamed"))
                            (columns df);
     rows := map (filter (fun kv : string * cell =>
                            startswith kv.1 "Unnamed" = false))
                 (rows df) |}.

(** The [.str] methods answer nan on a cell that is not text. *)
Definition str_method (f : string -> string) (c : cell) : cell :=
  match c with
  | Str s => Str (f s)
  | _ => Float Nan
  end.

(** [Series.replace(old, new)]: whole-value match. *)
Definition replace_value (old new : string) (c : cell) : cell :=
  match c with
  | Str s => if String.eqb s old then Str new else c
  | _ => c
  end.

(** [Series.dt.to_period('M')] *)
Definition to_period_M (c : cell) : cell :=
  match c with
  | Timestamp d => Period (year d) (month d)
  | _ => NaT
  end.

End Pandas.

(** ** scripts/clean_data.py *)

Module CleanData.
Import PyStr PyFloat Pandas.

(** The [try] block of [clean_amount]; [None] is any exception.  A float
    cell prints as its [repr], which has no comma, dollar or M and which
    [float] reads back as the same value. *)
Definition clean_amount_try (val : cell) : option pyfloat :=
  match val with
  | Str sv =>
      let s := replace "$" "" (replace "," "" sv) in
      if endswith (upper s) "M"
      then option_map (fun f => scale f (1000000 # 1)) (float (drop_last s))
      else float s
  | Float f => Some f
  | _ => None
  end.

Definition clean_amount (val : cell) : cell :=
  match clean_amount_try val with
  | Some f => Float f
  | None => PdNA
  end.

(** What is left of a token once ['$'] and [','] are stripped, and what
    it means for that remainder not to be a number: [float] fails on it,
    or on what precedes its final M. *)
Definition remainder (token : string) : string :=
  replace "$" "" (replace "," "" token).

Definition unparseable (token : string) : Prop :=
  (if endswith (upper (remainder token)) "M"
   then float (drop_last (remainder token))
   else float (remainder token)) = None.

Section Main.
(** What [pd.to_datetime(df['Date'], errors='coerce', dayfirst=True)]
    makes of a token of the column at hand; [None] is [NaT].  pandas
    settles on one format for the whole column, so within one file a
    token has one reading, and this parameter is that reading. *)
Variable to_datetime : string -> option date.

Definition to_datetime_cell (c : cell) : cell :=
  match c with
  | Str s => match to_datetime s with
             | Some d => Timestamp d
             | None => NaT
             end
  | Timestamp d => Timestamp d
  | _ => NaT
  end.

Definition critical : list string :=
  ["Date"; "Startup"; "Industry"; "Location"; "Amount"].

(** [main], from the tokens of the raw CSV to the frame it saves. *)
Definition main (csv : CsvFile) : result DataFrame :=
  let df := read_csv csv in
  let df := drop_unnamed df in
  bind (assign "Date" "Date" to_datetime_cell df) (fun df =>
  bind (assign "Amount" "Amount" clean_amount df) (fun df =>
  bind (dropna critical df) (fun df =>
  bind (assign "Industry" "Industry"
          (fun c => str_method title (str_method strip c)) df) (fun df =>
  bind (assign "Type" "Type"
          (fun c => str_method title (replace_value "Unknown" "Other" c))
          df) (fun df =>
  bind (assign "YearMonth" "Date" to_period_M df) (fun df =>
  Ok df)))))).
End Main.

(** *** The column side and the row side of [main]

    Whether a step raises depends on the column names alone; what it
    does to a row depends on that row alone. *)

Definition assign_cols (dst src : string) (cols : list string)
  : result (list string) :=
  if bool_decide (src ∈ cols)
  then Ok (if bool_decide (dst ∈ cols) then cols else cols ++ [dst])
  else KeyError src.

Definition dropna_cols (subset cols : list string) : result (list string) :=
  match List.filter (fun c => negb (bool_decide (c ∈ cols))) subset with
  | c :: _ => KeyError c
  | [] => Ok cols
  end.

(** The columns [main] reads. *)
Definition cleaner_columns : list string :=
  ["Date"; "Startup"; "Industry"; "Location"; "Amount"; "Type"].

(** The columns [main] ends with, or the [KeyError] it raises. *)
Definition main_cols (hdr : list string) : result (list string) :=
  let cols := List.filter (fun c => negb (startswith c "Unnamed")) hdr in
  bind (assign_cols "Date" "Date" cols) (fun cols =>
  bind (assign_cols "Amount" "Amount" cols) (fun cols =>
  bind (dropna_cols critical cols) (fun cols =>
  bind (assign_cols "Industry" "Industry" cols) (fun cols =>
  bind (assign_cols "Type" "Type" cols) (fun cols =>
  bind (assign_cols "YearMonth" "Date" cols) (fun cols =>
  Ok cols)))))).

Definition unnamed_dropped (r : gmap string cell) : gmap string cell :=
  filter (fun kv : string * cell => startswith kv.1 "Unnamed" = false) r.

Section Rows.
Variable to_datetime : string -> option date.

(** What [main] has made of a row when it reaches [dropna]. *)
Definition prepared (r : gmap string cell) : gmap string cell :=
  let r := unnamed_dropped r in
  let r :=
    <["Date" := to_datetime_cell to_datetime (cell_at r "Date")]> r in
  <["Amount" := clean_amount (cell_at r "Amount")]> r.

(** What [main] makes of a row that passed [dropna]. *)
Definition standardized (r : gmap string cell) : gmap string cell :=
  let r :=
    <["Industry" :=
        str_method title (str_method strip (cell_at r "Industry"))]> r in
  let r :=
    <["Type" :=
        str_method title
          (replace_value "Unknown" "Other" (cell_at r "Type"))]> r in
  <["YearMonth" := to_period_M (cell_at r "Date")]> r.

Definition cleaned_rows (hdr : list string) (recs : list (list string))
  : list (gmap string cell) :=
  map standardized
    (List.filter (complete critical)
       (map prepared (map (read_record hdr) recs))).
End Rows.

End CleanData.

(** ** Sample date parsers

    The parsers the examples are run with.  They read one token at a time
    and one shape each, and are no model of [pd.to_datetime], which reads
    a whole column at once: they stand for it on the sample columns only,
    whose dates are all of one shape. *)

Module Dates.
Import PyStr PyFloat Pandas.

Definition is_leap (y : Z) : bool :=
  ((y mod 4 =? 0) && negb (y mod 100 =? 0) || (y mod 400 =? 0))%Z.

Definition days_in_month (y m : Z) : Z :=
  if (m =? 2)%Z then (if is_leap y then 29 else 28)%Z
  else if ((m =? 4) || (m =? 6) || (m =? 9) || (m =? 11))%Z then 30%Z
  else 31%Z.

(** [datetime(y, m, d)]; [None] is the [ValueError] of an impossible
    date. *)
Definition datetime (y m d : Z) : option date :=
  if ((1 <=? y) && (y <=? 9999) && (1 <=? m) && (m <=? 12)
      && (1 <=? d) && (d <=? days_in_month y m))%Z
  then Some (mkdate y m d) else None.

Definition number2 (a b : ascii) : option Z :=
  match digit_val a, digit_val b with
  | Some x, Some y => Some (10 * x + y)%Z
  | _, _ => None
  end.

Definition number4 (a b c d : ascii) : option Z :=
  match number2 a b, number2 c d with
  | Some x, Some y => Some (100 * x + y)%Z
  | _, _ => None
  end.

(** The fields of a token of shape [YYYY-MM-DD]: year, month, day. *)
Definition iso_fields (s : string) : option (Z * Z * Z) :=
  match s with
  | String y1 (String y2 (String y3 (String y4 (String "-"
      (String m1 (String m2 (String "-"
        (String d1 (String d2 EmptyString))))))))) =>
      match number4 y1 y2 y3 y4, number2 m1 m2, number2 d1 d2 with
      | Some y, Some m, Some d => Some (y, m, d)
      | _, _, _ => None
      end
  | _ => None
  end.

(** The fields of a token of shape [NN/NN/NNNN], left to right. *)
Definition delimited_fields (s : string) : option (Z * Z * Z) :=
  match s with
  | String a1 (String a2 (String "/" (String b1 (String b2 (String "/"
      (String y1 (String y2 (String y3 (String y4 EmptyString))))))))) =>
      match number2 a1 a2, number2 b1 b2, number4 y1 y2 y3 y4 with
      | Some a, Some b, Some y => Some (a, b, y)
      | _, _, _ => None
      end
  | _ => None
  end.

(** A date written day/month/year. *)
Definition day_month_year (token : string) : option date :=
  match delimited_fields token with
  | Some (d, m, y) => datetime y m d
  | None => None
  end.

(** A date written month/day/year. *)
Definition month_day_year (token : string) : option date :=
  match delimited_fields token with
  | Some (m, d, y) => datetime y m d
  | None => None
  end.

(** A date written year-month-day. *)
Definition year_month_day (token : string) : option date :=
  match iso_fields token with
  | Some (y, m, d) => datetime y m d
  | None => None
  end.

(** The sample parser of the cleaner, for raw files whose dates are all
    written day/month/year. *)
Definition to_datetime_dayfirst (token : string) : option date :=
  day_month_year token.

End Dates.

(** ** scripts/analyze.py *)

Module Analyze.
Import PyStr.

(** A row of the cleaned CSV as [read_csv] gives it back: text columns
    hold text or nan ([None]), [Amount] is a finite number, held as the
    rational it is, and [YearMonth], after [astype(str)], is always text.
    [Date] is not read by any rollup and is left out. *)
Record FundingRecord := mkrecord {
  Startup : option string;
  Industry : option string;
  Location : option string;
  Amount : Q;
  Type_ : option string;
  YearMonth : string;
  Investor : option string
}.

(** *** groupby(key)[value] *)

(** The running table of groups, kept in ascending key order; a group
    holds the values of its rows in row order. *)
Fixpoint add_to_group (k : string) (v : Q) (tbl : list (string * list Q))
  : list (string * list Q) :=
  match tbl with
  | [] => [(k, [v])]
  | (k', vs) :: rest =>
      match String.compare k k' with
      | Lt => (k, [v]) :: tbl
      | Eq => (k', vs ++ [v]) :: rest
      | Gt => (k', vs) :: add_to_group k v rest
      end
  end.

Definition add_row (tbl : list (string * list Q)) (kv : option string * Q)
  : list (string * list Q) :=
  match kv.1 with
  | Some k => add_to_group k kv.2 tbl
  | None => tbl
  end.

(** Rows whose key is nan are left out; the groups are indexed by the
    sorted keys. *)
Definition groups (series : list (option string * Q))
  : list (string * list Q) :=
  fold_left add_row series [].

Section Sum.
(** [.sum()] on one group: the binary64 sum pandas takes of the values of
    the group, in row order.  Nothing is assumed of it. *)
Variable sum : list Q -> Q.

Definition groupby_sum (series : list (option string * Q))
  : list (string * Q) :=
  map (fun g : string * list Q => (g.1, sum g.2)) (groups series).
End Sum.

(** *** Series.nlargest(n), keep='first' *)

Section NLargest.
Context {M : Type}.
Variable le : M -> M -> bool.

(** [x] goes before the first entry that is not larger than it. *)
Fixpoint insert_desc (x : string * M) (l : list (string * M))
  : list (string * M) :=
  match l with
  | [] => [x]
  | y :: l' => if le y.2 x.2 then x :: l else y :: insert_desc x l'
  end.

Definition sort_desc (l : list (string * M)) : list (string * M) :=
  fold_right insert_desc [] l.

Definition nlargest (n : nat) (l : list (string * M))
  : list (string * M) :=
  firstn n (sort_desc l).
End NLargest.

(** *** Series.value_counts() *)

Fixpoint count_key (k : string) (tbl : list (string * nat))
  : list (string * nat) :=
  match tbl with
  | [] => [(k, 1%nat)]
  | (k', n) :: rest =>
      if String.eqb k k' then (k', S n) :: rest
      else (k', n) :: count_key k rest
  end.

Definition count_cell (tbl : list (string * nat)) (c : option string)
  : list (string * nat) :=
  match c with
  | Some k => count_key k tbl
  | None => tbl
  end.

(** The counts in order of first appearance, nan left out. *)
Definition counts (column : list (option string)) : list (string * nat) :=
  fold_left count_cell column [].

(** *** Exploding the investor column *)

(** [Series.str.split(sep)] *)
Definition str_split (sep : ascii) (c : option string)
  : option (list string) :=
  option_map (split sep) c.

(** [DataFrame.explode]: one row per list element; a nan or an empty
    list keeps one row, with nan. *)
Definition explode (df : list (FundingRecord * option (list string)))
  : list (FundingRecord * option string) :=
  flat_map (fun rl : FundingRecord * option (list string) =>
              match rl.2 with
              | Some (n :: names) =>
                  map (fun x => (rl.1, Some x)) (n :: names)
              | _ => [(rl.1, None)]
              end) df.

(** [df_in]: the exploded frame with [InvestorName] stripped. *)
Definition df_in (df : list FundingRecord)
  : list (FundingRecord * option string) :=
  map (fun rn : FundingRecord * option string =>
         (rn.1, option_map strip rn.2))
      (explode (map (fun r => (r, str_split "," (Investor r))) df)).

Definition InvestorName (rn : FundingRecord * option string)
  : option string := rn.2.

(** The exploded frame as [groupby('InvestorName')['Amount']] sees it. *)
Definition investor_series (df : list FundingRecord)
  : list (option string * Q) :=
  map (fun rn => (InvestorName rn, Amount rn.1)) (df_in df).

(** The names one investor field stands for: the pieces between commas,
    each stripped. *)
Definition investor_names (field : string) : list string :=
  map strip (split "," field).

(** Whether a column holds text at all.  A column of the cleaned CSV
    without any is read as numbers, and its [.str] raises. *)
Definition has_text (column : list (option string)) : bool :=
  existsb (fun c : option string =>
             match c with
             | Some _ => true
             | None => false
             end) column.

(** The CSV files [main] writes, each with its table. *)
Inductive file :=
| funding_by_yearmonth (tbl : list (string * Q))
| top_industries (tbl : list (string * Q))
| top_startups_csv (tbl : list (string * Q))
| funding_counts_by_type (tbl : list (string * nat))
| top_locations (tbl : list (string * nat))
| top_investors_by_funding (tbl : list (string * Q))
| top_investors_by_rounds (tbl : list (string * nat)).

(** The exceptions that end [main] before its last line. *)
Inductive error := TypeError | AttributeError.

Section Main.
Variable sum : list Q -> Q.
(** [sort_values(ascending=False)] inside [value_counts]: pandas sorts
    the counts with an unstable sort, so the order among equal counts
    is left to this parameter. *)
Variable sort_values : list (string * nat) -> list (string * nat).

Definition value_counts (column : list (option string))
  : list (string * nat) :=
  sort_values (counts column).

Definition by_ym (df : list FundingRecord) : list (string * Q) :=
  groupby_sum sum (map (fun r => (Some (YearMonth r), Amount r)) df).

Definition by_ind (df : list FundingRecord) : list (string * Q) :=
  nlargest Qle_bool 10
    (groupby_sum sum (map (fun r => (Industry r, Amount r)) df)).

Definition top_startups (df : list FundingRecord) : list (string * Q) :=
  nlargest Qle_bool 10
    (groupby_sum sum (map (fun r => (Startup r, Amount r)) df)).

Definition by_type (df : list FundingRecord) : list (string * nat) :=
  value_counts (map Type_ df).

Definition by_loc (df : list FundingRecord) : list (string * nat) :=
  nlargest Nat.leb 10 (value_counts (map Location df)).

(** The investor sums before [nlargest] cuts them. *)
Definition investor_sums (df : list FundingRecord) : list (string * Q) :=
  groupby_sum sum (investor_series df).

Definition inv_funding (df : list FundingRecord) : list (string * Q) :=
  nlargest Qle_bool 10 (investor_sums df).

Definition inv_rounds (df : list FundingRecord) : list (string * nat) :=
  nlargest Nat.leb 10 (value_counts (map InvestorName (df_in df))).

(** [main]: the files written, in order, and the exception that ended
    the run, if any.  [investor_column] is ['Investor' in df.columns].
    On a frame without rows the sums are no numbers and the first
    [nlargest] raises [TypeError]; on an investor column without text
    [.str.split] raises [AttributeError]. *)
Definition main (investor_column : bool) (df : list FundingRecord)
  : list file * option error :=
  let first := [funding_by_yearmonth (by_ym df)] in
  match df with
  | [] => (first, Some TypeError)
  | _ :: _ =>
      let five :=
        first ++ [top_industries (by_ind df);
                  top_startups_csv (top_startups df);
                  funding_counts_by_type (by_type df);
                  top_locations (by_loc df)] in
      if investor_column then
        if has_text (map Investor df) then
          (five ++ [top_investors_by_funding (inv_funding df);
                    top_investors_by_rounds (inv_rounds df)], None)
        else (five, Some AttributeError)
      else (five, None)
  end.
End Main.

(** A stable descending sort of the counts, one admissible
    [sort_values]. *)
Definition stable_sort_values (l : list (string * nat))
  : list (string * nat) := sort_desc Nat.leb l.

(** [str(Period(y, m))], the text [to_csv] writes under [YearMonth], for
    a year of four digits. *)
Definition digit_char (d : Z) : ascii := ascii_of_nat (48 + Z.to_nat d).

Definition period_str (y m : Z) : string :=
  String (digit_char (y / 1000))
    (String (digit_char (y / 100 mod 10))
      (String (digit_char (y / 10 mod 10))
        (String (digit_char (y mod 10))
          (String "-"
            (String (digit_char (m / 10))
              (String (digit_char (m mod 10)) EmptyString)))))).

(** The key of six decimal digits, four of the year and two of the
    month; [period_str] is this key at the digits of the year and month. *)
Definition key6 (a b c d e f : Z) : string :=
  String (digit_char a) (String (digit_char b) (String (digit_char c)
    (String (digit_char d) (String "-"
      (String (digit_char e) (String (digit_char f) EmptyString)))))).

Definition digit (a : Z) : Prop := (0 <= a <= 9)%Z.

(** A period is a year and a month; one period is earlier than another
    in calendar order. *)
Definition valid_period (p : Z * Z) : Prop :=
  (1000 <= p.1 <= 9999)%Z /\ (1 <= p.2 <= 12)%Z.

Definition earlier (p q : Z * Z) : Prop :=
  (p.1 < q.1)%Z \/ (p.1 = q.1 /\ (p.2 < q.2)%Z).

Definition period_key (p : Z * Z) : string := period_str p.1 p.2.

(** *** What the rollups are measured against *)

(** The sum of a column of amounts, as a number: no rounding. *)
Definition total (amounts : list Q) : Q := fold_right Qplus 0%Q amounts.

(** [sum] adds these amounts without rounding. *)
Definition exact (sum : list Q -> Q) (amounts : list Q) : Prop :=
  (sum amounts == total amounts)%Q.

(** The values a table of groups holds for key [k]; none when the key
    has no row. *)
Fixpoint group_for (k : string) (tbl : list (string * list Q)) : list Q :=
  match tbl with
  | [] => []
  | (k', vs) :: rest => if String.eqb k k' then vs else group_for k rest
  end.

(** All the values of a table of groups. *)
Definition entries (tbl : list (string * list Q)) : list Q :=
  concat (map snd tbl).

Definition has_key (k : string) (kv : option string * Q) : bool :=
  match kv.1 with
  | Some k' => String.eqb k k'
  | None => false
  end.

(** Whether a row has a key, that is, is not left out by [groupby]. *)
Definition keyed (kv : option string * Q) : bool :=
  match kv.1 with
  | Some _ => true
  | None => false
  end.

(** The amounts a series holds under key [k], in row order. *)
Definition amounts_under (k : string) (series : list (option string * Q))
  : list Q :=
  map snd (List.filter (has_key k) series).

(** The text keys of a column, nan left out. *)
Definition keys_of {A} (series : list (option string * A)) : list string :=
  omap fst series.

(** The text keys of a column of cells, nan left out. *)
Definition keys_in (column : list (option string)) : list string :=
  omap id column.


(** Key order, as Python compares text. *)
Definition key_lt (a b : string) : Prop := String.compare a b = Lt.

(** A table in strictly ascending key order. *)
Definition ascending {M} (tbl : list (string * M)) : Prop :=
  StronglySorted (fun a b => key_lt a.1 b.1) tbl.

(** A table whose metric never increases from a row to any later row. *)
Definition descending {M} (le : M -> M -> bool) (tbl : list (string * M))
  : Prop :=
  StronglySorted (fun a b => le b.2 a.2 = true) tbl.

(** Rows of equal metric come in ascending key order. *)
Definition ties_by_key {M} (le : M -> M -> bool) (tbl : list (string * M))
  : Prop :=
  StronglySorted
    (fun a b => le a.2 b.2 = true -> le b.2 a.2 = true -> key_lt a.1 b.1)
    tbl.

(** The position at which key [k] first occurs in a column. *)
Fixpoint first_seen (k : string) (column : list (option string)) : nat :=
  match column with
  | [] => 0%nat
  | Some k' :: rest => if String.eqb k k' then 0%nat else S (first_seen k rest)
  | None :: rest => S (first_seen k rest)
  end.

(** Rows of equal metric come in the order their keys first occur in the
    input column. *)
Definition ties_by_first_seen {M} (le : M -> M -> bool)
  (column : list (option string)) (tbl : list (string * M)) : Prop :=
  StronglySorted
    (fun a b => le a.2 b.2 = true -> le b.2 a.2 = true ->
                (first_seen a.1 column < first_seen b.1 column)%nat)
    tbl.

(** Whatever the distinct keys of the input are, the table has a row per
    key and no other row, as long as there are at most [n] of them. *)
Definition all_keys_when_few {M} (n : nat) (keys : list string)
  (tbl : list (string * M)) : Prop :=
  forall distinct : list string,
    List.NoDup distinct ->
    (forall k, In k distinct <-> In k keys) ->
    (length distinct <= n)%nat ->
    length tbl = length distinct /\
    (forall k, In k distinct <-> In k (map fst tbl)).

(** A top-N table: at most [n] rows, one per key, keys taken from the
    input, metric descending, every key present when there are few. *)
Definition top_n {M} (le : M -> M -> bool) (n : nat) (keys : list string)
  (tbl : list (string * M)) : Prop :=
  (length tbl <= n)%nat /\
  List.NoDup (map fst tbl) /\
  (forall k, In k (map fst tbl) -> In k keys) /\
  descending le tbl /\
  all_keys_when_few n keys tbl.

(** What [sort_values(ascending=False)] is known to do: it permutes the
    rows and leaves the counts descending. *)
Definition sorts_descending
  (sort_values : list (string * nat) -> list (string * nat)) : Prop :=
  forall l, Permutation (sort_values l) l /\
            descending Nat.leb (sort_values l).

End Analyze.

(** ** app.py, from the upload to the required-columns check *)

Module App.
Import PyStr PyFloat Pandas.

(** What the script has done to the rows, or shown, in order. *)
Inductive message := NoParsableDate | MissingColumns.

Inductive event :=
| DateParsing
| AmountCoercion
| RowDropping
| ErrorShown (msg : message).

(** How the prefix ends: it goes on to the dashboard with a frame, it
    stops after [st.stop()], or an uncaught [KeyError] ends the run. *)
Inductive outcome (A : Type) :=
| Continue (a : A)
| Stopped
| Raised (col : string).
Arguments Continue {A} a.
Arguments Stopped {A}.
Arguments Raised {A} col.

(** A script step: the events it adds and how it ends. *)
Definition script (A : Type) : Type := list event * outcome A.

Definition ret {A} (a : A) : script A := ([], Continue a).

Definition bind {A B} (m : script A) (k : A -> script B) : script B :=
  match m with
  | (events, Continue a) =>
      match k a with
      | (more, end_) => (events ++ more, end_)
      end
  | (events, Stopped) => (events, Stopped)
  | (events, Raised c) => (events, Raised c)
  end.

Definition tell (e : event) : script unit := ([e], Continue tt).

(** [st.error(msg); st.stop()] *)
Definition error_and_stop {A} (msg : message) : script A :=
  ([ErrorShown msg], Stopped).

(** A frame operation that may raise [KeyError] before it does
    anything. *)
Definition attempt {A} (r : result A) (e : event) : script A :=
  match r with
  | Ok a => ([e], Continue a)
  | KeyError c => ([], Raised c)
  end.

Notation "'let*' x ':=' m 'in' k" := (bind m (fun x => k))
  (at level 10, x name, m at level 100, k at level 200).

Definition required_cols : list string :=
  ["Date"; "Startup"; "Industry"; "Location"; "Amount"; "Type";
   "YearMonth"].

Definition issubset (s cols : list string) : bool :=
  forallb (fun c => bool_decide (c ∈ cols)) s.

Section Load.
(** What [pd.to_datetime(df["Date"], errors="coerce")] and
    [pd.to_numeric(df["Amount"], errors="coerce")] make of a token of the
    uploaded column; [None] is [NaT], respectively nan. *)
Variable to_datetime : string -> option date.
Variable to_numeric : string -> option pyfloat.

Definition to_datetime_cell (c : cell) : cell :=
  match c with
  | Str s => match to_datetime s with
             | Some d => Timestamp d
             | None => NaT
             end
  | Timestamp d => Timestamp d
  | _ => NaT
  end.

Definition to_numeric_cell (c : cell) : cell :=
  match c with
  | Str s => match to_numeric s with
             | Some f => Float f
             | None => Float Nan
             end
  | Float f => Float f
  | _ => Float Nan
  end.

(** Steps 2 to 5 of the script on an uploaded file. *)
Definition load (uploaded_file : CsvFile) : script DataFrame :=
  let df := read_csv uploaded_file in
  let* df := attempt (assign "Date" "Date" to_datetime_cell df)
               DateParsing in
  let* _ := (if forallb (fun r => isna (cell_at r "Date")) (rows df)
             then error_and_stop NoParsableDate else ret tt) in
  let* df := attempt (assign "Amount" "Amount" to_numeric_cell df)
               AmountCoercion in
  let* df := attempt (dropna ["Date"; "Amount"] df) RowDropping in
  let* _ := (if negb (issubset required_cols (columns df))
             then error_and_stop MissingColumns else ret tt) in
  ret df.
End Load.



End App.

(** ** Sample inputs and the properties the rollups are checked against *)

Module Cases.
Import PyStr PyFloat Pandas.

Definition raw_header : list string :=
  ["Date"; "Startup"; "Industry"; "Location"; "Amount"; "Type"].

(** One well-formed record whose amount is negative. *)
Definition negative_amount_csv : CsvFile :=
  mkcsv raw_header
    [["05/01/2020"; "Acme"; "Fintech"; "Pune"; "-5"; "Seed"]].

(** One well-formed record whose industry is three spaces. *)
Definition blank_industry_csv : CsvFile :=
  mkcsv raw_header
    [["05/01/2020"; "Acme"; "   "; "Pune"; "$5M"; "Seed"]].

(** Two records, the second without an industry. *)
Definition missing_industry_csv : CsvFile :=
  mkcsv raw_header
    [["05/01/2020"; "Acme"; "Fintech"; "Pune"; "$5M"; "Seed"];
     ["06/01/2020"; "Beta"; ""; "Delhi"; "7"; "Seed"]].

(** Two records, the second with an amount that is no number. *)
Definition unparseable_amount_csv : CsvFile :=
  mkcsv raw_header
    [["05/01/2020"; "Acme"; "Fintech"; "Pune"; "$5M"; "Seed"];
     ["06/01/2020"; "Beta"; "Health"; "Delhi"; "N/A"; "Seed"]].

(** Every amount of the frame is a finite number that is not negative. *)
Definition amounts_nonnegative (df : DataFrame) : Prop :=
  Forall (fun r : gmap string cell =>
            exists q, cell_at r "Amount" = Float (Fin q) /\ (0 <= q)%Q)
         (rows df).

Definition categories : list string := ["Startup"; "Industry"; "Location"].

(** Every startup, industry and location of the frame is text that is not
    empty once trimmed. *)
Definition categories_nonempty (df : DataFrame) : Prop :=
  Forall (fun r : gmap string cell =>
            forall c, In c categories ->
              exists s, cell_at r c = Str s /\ strip s <> EmptyString)
         (rows df).

(** A record with the given industry, amount, period and investor field. *)
Definition funding (industry : string) (amount : Q) (period : string)
  (investor : option string) : Analyze.FundingRecord :=
  Analyze.mkrecord (Some "Acme") (Some industry) (Some "Pune") amount
    (Some "Seed") period investor.

(** Amount 100, investors X and Y. *)
Definition two_investors : Analyze.FundingRecord :=
  funding "Fintech" (100 # 1) "2020-01" (Some "X,Y").


(** Industries A, B and C with sums 100, 100 and 50, met in the order
    A, B, C and in the order B, A, C. *)
Definition industries_ABC : list Analyze.FundingRecord :=
  [funding "A" (100 # 1) "2020-01" None;
   funding "B" (100 # 1) "2020-01" None;
   funding "C" (50 # 1) "2020-02" None].

Definition industries_BAC : list Analyze.FundingRecord :=
  [funding "B" (100 # 1) "2020-01" None;
   funding "A" (100 # 1) "2020-01" None;
   funding "C" (50 # 1) "2020-02" None].

(** The records of [industries_BAC], with investors: X and Y back the
    first, X the second, and the third names none. *)
Definition backed_BAC : list Analyze.FundingRecord :=
  [funding "B" (100 # 1) "2020-01" (Some "X, Y");
   funding "A" (100 # 1) "2020-01" (Some "X");
   funding "C" (50 # 1) "2020-02" None].

(** The sum of the samples.  Their amounts are whole numbers far below
    2^53, which binary64 adds without rounding, so the sums pandas takes
    of them are the numbers themselves. *)
Definition sample_sum : list Q -> Q := Analyze.total.

(** Three records of two months, the later month first. *)
Definition unordered_months : list Analyze.FundingRecord :=
  [funding "A" (7 # 1) (Analyze.period_str 2020 11) None;
   funding "B" (5 # 1) (Analyze.period_str 2019 12) None;
   funding "C" (1 # 1) (Analyze.period_str 2020 11) None].


(** The sample parsers of the upload path: a date written year-month-day
    or, failing that, month/day/year, and a number as [float] reads it.
    They stand for [pd.to_datetime] and [pd.to_numeric] on the sample
    uploads only. *)
Definition to_datetime_default (token : string) : option date :=
  match Dates.year_month_day token with
  | Some d => Some d
  | None => Dates.month_day_year token
  end.

Definition to_numeric_sample (token : string) : option pyfloat :=
  PyFloat.float token.


End Cases.

(** ** The records the cleaner keeps *)

Module Kept.
Import PyStr PyFloat Pandas CleanData.

Section Survival.
Variable to_datetime : string -> option date.

(** A raw record passes [dropna] when its date parses, its startup,
    industry and location are present and its amount cleans to a number. *)
Definition survives (hdr : list string) (rec : list string) : bool :=
  let raw := read_record hdr rec in
  negb (isna (to_datetime_cell to_datetime (cell_at raw "Date")))
  && negb (isna (cell_at raw "Startup"))
  && negb (isna (cell_at raw "Industry"))
  && negb (isna (cell_at raw "Location"))
  && negb (isna (clean_amount (cell_at raw "Amount"))).

Definition kept_records (csv : CsvFile) : list (list string) :=
  List.filter (survives (header csv)) (records csv).
End Survival.

(** The columns [main] writes to; every other column is left as read. *)
Definition rewritten : list string :=
  ["Date"; "Amount"; "Industry"; "Type"; "YearMonth"].

(** What [main] makes of a type cell. *)
Definition standard_type (c : cell) : cell :=
  match c with
  | Str s => Str (if String.eqb s "Unknown" then "Other" else title s)
  | _ => Float Nan
  end.

(** Whether a text is empty or ends with a character that is no space. *)
Fixpoint ends_nonspace (s : string) : bool :=
  match s with
  | EmptyString => true
  | String c EmptyString => negb (isspace c)
  | String _ s' => ends_nonspace s'
  end.

(** A raw file with an index column and an investor column. *)
Definition indexed_csv : CsvFile :=
  mkcsv ["Unnamed: 0"; "Date"; "Startup"; "Industry"; "Location";
         "Amount"; "Type"; "Investor"]
    [["0"; "05/01/2020"; "Acme"; "Fintech"; "Pune"; "$5M"; "unknown";
      "X, Y"];
     ["1"; "06/01/2020"; "Beta"; "Health"; "Delhi"; "7"; ""; ""]].

End Kept.

(** ** What the rollups of the analysis are measured against *)

Module Tally.
Import PyStr Analyze.

(** Whether a record falls under key [k] of a column. *)
Definition under (key : FundingRecord -> option string) (k : string)
  (r : FundingRecord) : bool :=
  match key r with
  | Some k' => String.eqb k k'
  | None => false
  end.

(** How many cells of a column hold the text [k]. *)
Definition occurrences (k : string) (column : list (option string)) : nat :=
  length (List.filter (fun c : option string =>
                         match c with
                         | Some k' => String.eqb k k'
                         | None => false
                         end) column).

(** The count a table holds for key [k]; zero when the key has no row. *)
Fixpoint count_for (k : string) (tbl : list (string * nat)) : nat :=
  match tbl with
  | [] => 0%nat
  | (k', n) :: rest => if String.eqb k k' then n else count_for k rest
  end.

(** The names a record lists in its investor field, and how many times
    it lists the name [k]. *)
Definition names_of (r : FundingRecord) : list string :=
  match Investor r with
  | Some field => investor_names field
  | None => []
  end.

Definition times_listed (k : string) (r : FundingRecord) : nat :=
  length (List.filter (String.eqb k) (names_of r)).

(** The amounts summed for investor [k], in row order: the amount of
    each record, once per time the record lists [k]. *)
Definition credits (k : string) (df : list FundingRecord) : list Q :=
  flat_map (fun r => repeat (Amount r) (times_listed k r)) df.

(** A record without industry, startup, location and type. *)
Definition bare_record : FundingRecord :=
  mkrecord None None None (7 # 1) None "2020-01" None.

End Tally.

(** ** The records the upload path keeps *)

Module Upload.
Import PyStr PyFloat Pandas App.

Section Accepted.
Variable to_datetime : string -> option date.
Variable to_numeric : string -> option pyfloat.

(** Whether the date of a raw record parses. *)
Definition dated (hdr : list string) (rec : list string) : bool :=
  negb (isna (to_datetime_cell to_datetime
                (cell_at (read_record hdr rec) "Date"))).

(** Whether a raw record gets through [dropna]: its date parses and its
    amount is a number. *)
Definition accepted (hdr : list string) (rec : list string) : bool :=
  dated hdr rec &&
  negb (isna (to_numeric_cell to_numeric
                (cell_at (read_record hdr rec) "Amount"))).

Definition accepted_records (csv : CsvFile) : list (list string) :=
  List.filter (accepted (header csv)) (records csv).

(** A row after steps 3 and 4. *)
Definition converted (r : gmap string cell) : gmap string cell :=
  let r := <["Date" := to_datetime_cell to_datetime (cell_at r "Date")]> r in
  <["Amount" := to_numeric_cell to_numeric (cell_at r "Amount")]> r.
End Accepted.

(** An upload with a header and no record. *)
Definition header_only : CsvFile :=
  mkcsv ["Date"; "Startup"; "Industry"; "Location"; "Amount"; "Type";
         "YearMonth"] [].

(** An upload without the date column. *)
Definition undated_csv : CsvFile :=
  mkcsv ["Startup"; "Amount"] [["Acme"; "5"]].

(** A cleaned file as the dashboard reads it back. *)
Definition cleaned_csv : CsvFile :=
  mkcsv ["Date"; "Startup"; "Industry"; "Location"; "Amount"; "Type";
         "Investor"; "YearMonth"]
    [["2020-01-05"; "Acme"; "Fintech"; "Pune"; "5000000.0"; "Seed";
      "X, Y"; "2020-01"];
     ["2020-02-07"; "Beta"; "Health"; "Delhi"; ""; "Seed"; ""; "2020-02"]].

End Upload.

(** ** The filters, the indicators and the map of the dashboard *)

Module Dashboard.
Import PyStr PyFloat Pandas.

(** [Series.dt.year] on one cell; [None] is nan. *)
Definition dt_year (c : cell) : option Z :=
  match c with
  | Timestamp d => Some (year d)
  | _ => None
  end.

Definition column (c : string) (rows : list (gmap string cell))
  : list cell :=
  map (fun r => cell_at r c) rows.

(** [df["Date"].dt.year.dropna().astype(int)] *)
Definition years (rows : list (gmap string cell)) : list Z :=
  omap dt_year (column "Date" rows).

(** [(int(years.min()), int(years.max()))], the default of the slider;
    [None] is the [ValueError] of the minimum of no year. *)
Definition year_bounds (rows : list (gmap string cell)) : option (Z * Z) :=
  match years rows with
  | [] => None
  | y :: ys => Some (fold_right Z.min y ys, fold_right Z.max y ys)
  end.

(** [Series.between(lo, hi)], both ends included. *)
Definition between (lo hi : Z) (y : option Z) : bool :=
  match y with
  | Some y => (lo <=? y)%Z && (y <=? hi)%Z
  | None => false
  end.

(** Whether two cells hold the same value, as [unique] and [isin] have
    it: nan is the same value as nan. *)
Definition same_cell (a b : cell) : bool :=
  match a, b with
  | Str s, Str t => String.eqb s t
  | Float (Fin p), Float (Fin q) => Qeq_bool p q
  | Float (Inf s), Float (Inf t) => Bool.eqb s t
  | Float Nan, Float Nan => true
  | PdNA, PdNA => true
  | Timestamp d, Timestamp e =>
      (year d =? year e)%Z && (month d =? month e)%Z && (day d =? day e)%Z
  | NaT, NaT => true
  | Period y m, Period y' m' => (y =? y')%Z && (m =? m')%Z
  | _, _ => false
  end.

(** [Series.isin(values)] on one cell. *)
Definition isin (c : cell) (values : list cell) : bool :=
  existsb (same_cell c) values.

(** [Series.unique()]: the values in order of first appearance, nan
    included. *)
Fixpoint unique (column : list cell) : list cell :=
  match column with
  | [] => []
  | c :: rest =>
      c :: List.filter (fun x => negb (same_cell c x)) (unique rest)
  end.

(** Step 8: the rows of the year range, of the selected industries and
    of the selected types. *)
Definition apply_filters (year_sel : Z * Z) (industry_sel type_sel : list cell)
  (rows : list (gmap string cell)) : list (gmap string cell) :=
  List.filter
    (fun r => between year_sel.1 year_sel.2 (dt_year (cell_at r "Date"))
              && isin (cell_at r "Industry") industry_sel
              && isin (cell_at r "Type") type_sel)
    rows.

(** Step 9: [filtered["Startup"].nunique()] and [filtered.shape[0]]. *)
Definition nunique (column : list cell) : nat :=
  length (unique (List.filter (fun c => negb (isna c)) column)).

Definition num_startups (filtered : list (gmap string cell)) : nat :=
  nunique (column "Startup" filtered).

Definition num_rounds (filtered : list (gmap string cell)) : nat :=
  length filtered.

(** Step 17: the cities of the map. *)
Definition coords : list (string * (Q * Q)) :=
  [("Bangalore", (129716 # 10000, 775946 # 10000));
   ("Mumbai", (190760 # 10000, 728777 # 10000));
   ("Delhi", (287041 # 10000, 771025 # 10000));
   ("Gurgaon", (284595 # 10000, 770266 # 10000));
   ("Hyderabad", (173850 # 10000, 784867 # 10000));
   ("Chennai", (130827 # 10000, 802707 # 10000));
   ("Pune", (185204 # 10000, 738567 # 10000));
   ("Kolkata", (225726 # 10000, 883639 # 10000));
   ("Jaipur", (269124 # 10000, 757873 # 10000));
   ("Ahmedabad", (230225 # 10000, 725714 # 10000))].

(** [coords.get(x, (None, None))] *)
Fixpoint get (x : string) (d : list (string * (Q * Q)))
  : option Q * option Q :=
  match d with
  | [] => (None, None)
  | (k, (lat, lon)) :: rest =>
      if String.eqb x k then (Some lat, Some lon) else get x rest
  end.

Record CityRow := mkcity {
  City : string;
  Count : nat;
  lat : Q;
  lon : Q
}.

(** The rows with [lat] and [lon] added, those without either dropped. *)
Definition located (city_counts : list (string * nat)) : list CityRow :=
  omap (fun cn : string * nat =>
          match (get cn.1 coords).1, (get cn.1 coords).2 with
          | Some lat, Some lon => Some (mkcity cn.1 cn.2 lat lon)
          | _, _ => None
          end) city_counts.

(** The text of a cell, as [value_counts] keys it; nan has none. *)
Definition text (c : cell) : option string :=
  match c with
  | Str s => Some s
  | _ => None
  end.

Section Map.
Variable sort_values : list (string * nat) -> list (string * nat).

Definition top_loc (filtered : list (gmap string cell))
  : list (string * nat) :=
  Analyze.nlargest Nat.leb 10
    (Analyze.value_counts sort_values
       (map text (column "Location" filtered))).

Definition city_counts (filtered : list (gmap string cell))
  : list CityRow :=
  located (top_loc filtered).
End Map.

(** Three rounds, two of them in a city of the map. *)
Definition three_rounds : list (gmap string cell) :=
  [ {[ "Startup" := Str "Acme"; "Location" := Str "Pune" ]};
    {[ "Startup" := Str "Acme"; "Location" := Str "Pune" ]};
    {[ "Startup" := Str "Beta"; "Location" := Str "Bengaluru" ]} ].

End Dashboard.

(** * Properties *)

(** ** The Record Cleaner *)

Module CleanDataFacts.
Import PyStr PyFloat Pandas CleanData Dates Cases Kept.

Lemma bind_assign {B} dst src f cols rws (k : DataFrame -> result B) :
  bind (assign dst src f (mkframe cols rws)) k =
  bind (assign_cols dst src cols)
       (fun cols' =>
          k (mkframe cols'
               (map (fun r => <[dst := f (cell_at r src)]> r) rws))).
Proof.
  unfold assign, assign_cols, has_column; simpl.
  destruct (bool_decide (src ∈ cols)); reflexivity.
Qed.

Lemma bind_dropna {B} subset cols rws (k : DataFrame -> result B) :
  bind (dropna subset (mkframe cols rws)) k =
  bind (dropna_cols subset cols)
       (fun cols' =>
          k (mkframe cols' (List.filter (complete subset) rws))).
Proof.
  unfold dropna, dropna_cols, has_column; simpl.
  destruct (List.filter _ subset); reflexivity.
Qed.

Lemma cell_at_insert_eq (r : gmap string cell) c v :
  cell_at (<[c := v]> r) c = v.
Proof. unfold cell_at. by rewrite lookup_insert_eq. Qed.

Lemma cell_at_insert_ne (r : gmap string cell) c c' v :
  c <> c' -> cell_at (<[c := v]> r) c' = cell_at r c'.
Proof. intros H. unfold cell_at. by rewrite lookup_insert_ne. Qed.

Lemma cell_at_unnamed_dropped (r : gmap string cell) c :
  startswith c "Unnamed" = false ->
  cell_at (unnamed_dropped r) c = cell_at r c.
Proof.
  intros H. unfold cell_at, unnamed_dropped.
  rewrite map_lookup_filter.
  destruct (r !! c) as [v|]; simpl; [|reflexivity].
  rewrite option_guard_True; [reflexivity | exact H].
Qed.

Lemma complete_cons c subset r :
  complete (c :: subset) r = negb (isna (cell_at r c)) && complete subset r.
Proof. reflexivity. Qed.

Lemma complete_true subset r c :
  complete subset r = true -> In c subset -> isna (cell_at r c) = false.
Proof.
  unfold complete. rewrite forallb_forall. intros Hall Hin.
  specialize (Hall c Hin). by destruct (isna (cell_at r c)).
Qed.

(** [read_csv] gives text or nan, nothing else. *)
Lemma read_cell_kind tok :
  (exists s, read_cell tok = Str s) \/ read_cell tok = Float Nan.
Proof. unfold read_cell. destruct (bool_decide _); eauto. Qed.

Lemma read_record_kind hdr toks c :
  (exists s, cell_at (read_record hdr toks) c = Str s)
  \/ cell_at (read_record hdr toks) c = Float Nan.
Proof.
  unfold cell_at, read_record.
  destruct (list_to_map _ !! c) as [v|] eqn:E; simpl; [|by right].
  apply elem_of_list_to_map_2, elem_of_zip_r in E.
  apply list_elem_of_In, in_map_iff in E as (tok & <- & _).
  apply read_cell_kind.
Qed.

Lemma isna_clean_amount c :
  isna (clean_amount c) = false ->
  exists f, clean_amount c = Float f /\ f <> Nan.
Proof.
  unfold clean_amount.
  destruct (clean_amount_try c) as [[q|n|]|]; simpl;
    try discriminate; eauto.
Qed.

Section Rows.
Variable to_datetime : string -> option date.

Lemma main_shape hdr recs :
  main to_datetime (mkcsv hdr recs) =
  bind (main_cols hdr)
       (fun cols => Ok (mkframe cols (cleaned_rows to_datetime hdr recs))).
Proof.
  unfold main, main_cols, read_csv, drop_unnamed.
  cbn [header records columns rows].
  repeat (first [rewrite bind_assign | rewrite bind_dropna];
          match goal with
          | |- bind ?c _ = _ =>
              destruct c as [?|?]; cbn [bind]; [|reflexivity]
          end).
  unfold cleaned_rows, standardized, prepared, unnamed_dropped.
  rewrite !map_map. reflexivity.
Qed.

Lemma prepared_Date r :
  cell_at (prepared to_datetime r) "Date" =
  to_datetime_cell to_datetime (cell_at r "Date").
Proof.
  unfold prepared.
  rewrite cell_at_insert_ne by discriminate.
  rewrite cell_at_insert_eq.
  by rewrite cell_at_unnamed_dropped.
Qed.

Lemma prepared_Amount r :
  cell_at (prepared to_datetime r) "Amount" =
  clean_amount (cell_at r "Amount").
Proof.
  unfold prepared.
  rewrite cell_at_insert_eq.
  rewrite cell_at_insert_ne by discriminate.
  by rewrite cell_at_unnamed_dropped.
Qed.

Lemma prepared_other r c :
  c <> "Date" -> c <> "Amount" -> startswith c "Unnamed" = false ->
  cell_at (prepared to_datetime r) c = cell_at r c.
Proof.
  intros H1 H2 H3. unfold prepared.
  rewrite !cell_at_insert_ne by congruence.
  by apply cell_at_unnamed_dropped.
Qed.

Lemma prepared_lookup_Date r :
  prepared to_datetime r !! "Date" =
  Some (cell_at (prepared to_datetime r) "Date").
Proof.
  unfold cell_at, prepared.
  rewrite lookup_insert_ne by discriminate.
  by rewrite lookup_insert_eq.
Qed.

Lemma prepared_lookup_Amount r :
  prepared to_datetime r !! "Amount" =
  Some (cell_at (prepared to_datetime r) "Amount").
Proof. unfold cell_at, prepared. by rewrite lookup_insert_eq. Qed.

Lemma standardized_lookup r c :
  c <> "Industry" -> c <> "Type" -> c <> "YearMonth" ->
  standardized r !! c = r !! c.
Proof.
  intros H1 H2 H3. unfold standardized.
  by rewrite !lookup_insert_ne by congruence.
Qed.

Lemma standardized_Industry r :
  standardized r !! "Industry" =
  Some (str_method title (str_method strip (cell_at r "Industry"))).
Proof.
  unfold standardized.
  rewrite !lookup_insert_ne by discriminate.
  by rewrite lookup_insert_eq.
Qed.

Lemma standardized_YearMonth r :
  standardized r !! "YearMonth" = Some (to_period_M (cell_at r "Date")).
Proof.
  unfold standardized. rewrite lookup_insert_eq.
  by rewrite !cell_at_insert_ne by discriminate.
Qed.

Lemma main_rows csv out :
  main to_datetime csv = Ok out ->
  rows out = cleaned_rows to_datetime (header csv) (records csv).
Proof.
  destruct csv as [hdr recs]. rewrite main_shape. simpl.
  destruct (main_cols hdr); simpl; [|discriminate].
  intros [= <-]. reflexivity.
Qed.

Lemma in_cleaned_rows hdr recs r :
  In r (cleaned_rows to_datetime hdr recs) <->
  exists rec, In rec recs /\
    complete critical (prepared to_datetime (read_record hdr rec)) = true /\
    r = standardized (prepared to_datetime (read_record hdr rec)).
Proof.
  unfold cleaned_rows. rewrite in_map_iff. split.
  - intros (p & <- & Hp). apply filter_In in Hp as [Hp Hc].
    rewrite map_map in Hp. apply in_map_iff in Hp as (rec & <- & Hrec).
    eauto.
  - intros (rec & Hrec & Hc & ->). eexists. split; [reflexivity|].
    apply filter_In. split; [|exact Hc].
    rewrite map_map. apply in_map_iff. eauto.
Qed.

Lemma isna_to_datetime_cell c :
  isna (to_datetime_cell to_datetime c) = false ->
  exists d, to_datetime_cell to_datetime c = Timestamp d.
Proof.
  destruct c as [s|f| |d| |y m]; simpl; try discriminate; eauto.
  destruct (to_datetime s); simpl; [eauto | discriminate].
Qed.

(** What it takes for a raw record to pass [dropna]. *)
Lemma complete_prepared raw :
  isna (to_datetime_cell to_datetime (cell_at raw "Date")) = false ->
  isna (cell_at raw "Startup") = false ->
  isna (cell_at raw "Industry") = false ->
  isna (cell_at raw "Location") = false ->
  isna (clean_amount (cell_at raw "Amount")) = false ->
  complete critical (prepared to_datetime raw) = true.
Proof.
  intros Hd Hs Hi Hl Ha.
  unfold critical. rewrite !complete_cons.
  rewrite prepared_Date, prepared_Amount, Hd, Ha.
  rewrite !prepared_other by (reflexivity || discriminate).
  by rewrite Hs, Hi, Hl.
Qed.
End Rows.

(** *** The rows of the result *)

Lemma filter_map_comm {A B} (f : A -> B) (p : B -> bool) l :
  List.filter p (map f l) = map f (List.filter (fun x => p (f x)) l).
Proof.
  induction l as [|x l IH]; simpl; [reflexivity|].
  destruct (p (f x)); simpl; by rewrite IH.
Qed.

Section KeptRows.
Variable to_datetime : string -> option date.

Lemma complete_survives hdr rec :
  complete critical (prepared to_datetime (read_record hdr rec))
  = survives to_datetime hdr rec.
Proof.
  unfold critical, survives. rewrite !complete_cons.
  rewrite prepared_Date, prepared_Amount.
  rewrite !prepared_other by (reflexivity || discriminate).
  cbn [complete forallb].
  by rewrite andb_true_r, !andb_assoc.
Qed.

(** One row per surviving record, in the order of the input. *)
Lemma main_rows_kept csv out :
  main to_datetime csv = Ok out ->
  rows out =
  map (fun rec => standardized
                    (prepared to_datetime (read_record (header csv) rec)))
      (kept_records to_datetime csv).
Proof.
  intros H. rewrite (main_rows _ _ _ H). unfold cleaned_rows, kept_records.
  rewrite map_map, filter_map_comm, map_map. f_equal.
  apply List.filter_ext. intros rec. apply complete_survives.
Qed.

Lemma Forall2_map_r_self {A B} (f : A -> B) (P : A -> B -> Prop) l :
  (forall x, In x l -> P x (f x)) -> Forall2 P l (map f l).
Proof.
  induction l as [|x l IH]; simpl; intros H; constructor.
  - apply H. by left.
  - apply IH. intros y Hy. apply H. by right.
Qed.

Lemma main_rows_Forall2 csv out (P : list string -> gmap string cell -> Prop) :
  main to_datetime csv = Ok out ->
  (forall rec,
      In rec (records csv) ->
      survives to_datetime (header csv) rec = true ->
      P rec (standardized
               (prepared to_datetime (read_record (header csv) rec)))) ->
  Forall2 P (kept_records to_datetime csv) (rows out).
Proof.
  intros H HP. rewrite (main_rows_kept _ _ H).
  apply Forall2_map_r_self. intros rec Hrec.
  unfold kept_records in Hrec. apply filter_In in Hrec as [Hin Hs].
  by apply HP.
Qed.

End KeptRows.

(** C2 (as the code has it).  Every record of the cleaned set has a date
    that parsed and an amount that is a number, not a missing value; the
    cleaner checks no sign, so a raw record with a parsed date, a startup,
    an industry and a location is kept with whatever number its amount
    normalizes to, a negative one included. *)
Theorem cleaned_date_and_amount to_datetime csv out :
  main to_datetime csv = Ok out ->
  Forall (fun r : gmap string cell =>
            (exists d, r !! "Date" = Some (Timestamp d)) /\
            (exists f, r !! "Amount" = Some (Float f) /\ f <> Nan))
         (rows out) /\
  (forall rec f,
      In rec (records csv) ->
      isna (to_datetime_cell to_datetime
              (cell_at (read_record (header csv) rec) "Date")) = false ->
      isna (cell_at (read_record (header csv) rec) "Startup") = false ->
      isna (cell_at (read_record (header csv) rec) "Industry") = false ->
      isna (cell_at (read_record (header csv) rec) "Location") = false ->
      clean_amount (cell_at (read_record (header csv) rec) "Amount")
        = Float f ->
      f <> Nan ->
      exists r, In r (rows out) /\ r !! "Amount" = Some (Float f)).
Proof.
  intros Hmain. apply main_rows in Hmain. rewrite Hmain. split.
  - apply List.Forall_forall. intros r Hr.
    apply in_cleaned_rows in Hr as (rec & _ & Hc & ->).
    set (p := prepared to_datetime (read_record (header csv) rec)) in *.
    split.
    + pose proof (complete_true _ _ "Date" Hc) as Hd.
      unfold p in Hd. rewrite prepared_Date in Hd.
      destruct (isna_to_datetime_cell to_datetime _ (Hd ltac:(simpl; tauto)))
        as [d Hts].
      exists d. rewrite standardized_lookup by discriminate.
      unfold p. by rewrite prepared_lookup_Date, prepared_Date, Hts.
    + pose proof (complete_true _ _ "Amount" Hc) as Ha.
      unfold p in Ha. rewrite prepared_Amount in Ha.
      destruct (isna_clean_amount _ (Ha ltac:(simpl; tauto)))
        as (f & Hf & Hnan).
      exists f. split; [|exact Hnan].
      rewrite standardized_lookup by discriminate.
      unfold p. by rewrite prepared_lookup_Amount, prepared_Amount, Hf.
  - intros rec f Hrec Hd Hs Hi Hl Ha Hnan.
    exists (standardized (prepared to_datetime
                            (read_record (header csv) rec))).
    split.
    + apply in_cleaned_rows. exists rec. split; [exact Hrec|].
      split; [|reflexivity].
      apply complete_prepared; try assumption.
      rewrite Ha. by destruct f.
    + rewrite standardized_lookup by discriminate.
      by rewrite prepared_lookup_Amount, prepared_Amount, Ha.
Qed.

Lemma cleaned_date_and_amount_witness :
  exists out,
    main to_datetime_dayfirst negative_amount_csv = Ok out /\
    Forall (fun r : gmap string cell =>
              (exists d, r !! "Date" = Some (Timestamp d)) /\
              (exists f, r !! "Amount" = Some (Float f) /\ f <> Nan))
           (rows out) /\
    exists r, In r (rows out) /\
              r !! "Amount" = Some (Float (Fin (-5 # 1))).
Proof.
  eexists. split; [vm_compute; reflexivity|].
  destruct (cleaned_date_and_amount to_datetime_dayfirst
              negative_amount_csv _ eq_refl) as [Hall Hkept].
  split; [exact Hall|].
  apply (Hkept ["05/01/2020"; "Acme"; "Fintech"; "Pune"; "-5"; "Seed"]);
    first [ left; reflexivity | discriminate | vm_compute; reflexivity ].
Defined.

(** C2 as stated fails: the record of [negative_amount_csv] is cleaned
    and kept with its amount of -5. *)
Lemma negative_amount_kept :
  exists out,
    main to_datetime_dayfirst negative_amount_csv = Ok out /\
    ~ amounts_nonnegative out.
Proof.
  eexists. split; [vm_compute; reflexivity|].
  unfold amounts_nonnegative. intros H.
  apply Forall_inv in H. destruct H as (q & Hq & Hle).
  vm_compute in Hq. injection Hq as <-.
  revert Hle. vm_compute. intros Hle. apply Hle. reflexivity.
Qed.

(** A token of blanks only is text for [read_csv], not a missing value. *)
Lemma read_cell_blank tok :
  strip tok = EmptyString -> tok <> EmptyString -> read_cell tok = Str tok.
Proof.
  intros Hs Hne. unfold read_cell.
  case_bool_decide as Hin; [|reflexivity].
  exfalso. unfold STR_NA_VALUES in Hin.
  repeat (apply elem_of_cons in Hin as [->|Hin];
          [first [congruence | vm_compute in Hs; discriminate]|]).
  by apply elem_of_nil in Hin.
Qed.

(** C3 (as the code has it).  The rows of the cleaned set are those of
    the kept records, one for one and in order, and a raw record whose
    startup, industry or location is missing, as an empty field is, is not
    kept: every record of the cleaned set has text in these three columns,
    the startup and the location as they were read and the industry
    stripped and in title case.  A field of blanks only is text, not a
    missing value: it does not make the cleaner drop the record, and the
    industry is then stored trimmed, that is empty. *)
Theorem missing_category_dropped to_datetime csv out :
  main to_datetime csv = Ok out ->
  Forall2
    (fun rec (r : gmap string cell) =>
       forall c, In c categories ->
         exists s,
           cell_at (read_record (header csv) rec) c = Str s /\
           r !! c = Some (if String.eqb c "Industry"
                          then Str (title (strip s)) else Str s))
    (kept_records to_datetime csv) (rows out) /\
  (forall rec c,
      In c categories ->
      isna (cell_at (read_record (header csv) rec) c) = true ->
      ~ In rec (kept_records to_datetime csv)) /\
  isna (read_cell EmptyString) = true /\
  (forall tok,
      strip tok = EmptyString -> tok <> EmptyString ->
      isna (read_cell tok) = false /\
      str_method title (str_method strip (read_cell tok))
        = Str EmptyString) /\
  (forall rec,
      In rec (records csv) ->
      isna (to_datetime_cell to_datetime
              (cell_at (read_record (header csv) rec) "Date")) = false ->
      isna (clean_amount
              (cell_at (read_record (header csv) rec) "Amount")) = false ->
      (forall c, In c categories ->
         exists s, cell_at (read_record (header csv) rec) c = Str s) ->
      In rec (kept_records to_datetime csv)).
Proof.
  intros Hmain.
  assert (Hcat : forall hdr rec c,
             In c categories ->
             survives to_datetime hdr rec = true ->
             isna (cell_at (read_record hdr rec) c) = false).
  { intros hdr rec c Hc Hs. unfold survives in Hs.
    repeat (apply andb_prop in Hs as [Hs ?]).
    unfold categories in Hc. simpl in Hc.
    destruct Hc as [<-|[<-|[<-|[]]]]; by apply negb_true_iff. }
  split; [|split; [|split; [reflexivity|split]]].
  - apply (main_rows_Forall2 _ _ _ _ Hmain). intros rec _ Hs c Hc.
    pose proof (Hcat _ _ _ Hc Hs) as Hna.
    destruct (read_record_kind (header csv) rec c) as [[s E]|E];
      [|rewrite E in Hna; discriminate].
    exists s. split; [exact E|].
    unfold categories in Hc. simpl in Hc.
    destruct Hc as [<-|[<-|[<-|[]]]]; cbn [String.eqb Ascii.eqb Bool.eqb].
    + rewrite standardized_lookup by discriminate.
      unfold prepared. rewrite !lookup_insert_ne by discriminate.
      pose proof (cell_at_unnamed_dropped
                    (read_record (header csv) rec) "Startup" eq_refl) as H.
      rewrite E in H. unfold cell_at in H.
      destruct (unnamed_dropped _ !! "Startup") as [v|] eqn:Ev;
        simpl in H; congruence.
    + rewrite standardized_Industry.
      rewrite prepared_other by (reflexivity || discriminate).
      by rewrite E.
    + rewrite standardized_lookup by discriminate.
      unfold prepared. rewrite !lookup_insert_ne by discriminate.
      pose proof (cell_at_unnamed_dropped
                    (read_record (header csv) rec) "Location" eq_refl) as H.
      rewrite E in H. unfold cell_at in H.
      destruct (unnamed_dropped _ !! "Location") as [v|] eqn:Ev;
        simpl in H; congruence.
  - intros rec c Hc Hna Hin. unfold kept_records in Hin.
    apply filter_In in Hin as [_ Hs].
    rewrite (Hcat _ _ _ Hc Hs) in Hna. discriminate.
  - intros tok Hs Hne. rewrite (read_cell_blank tok Hs Hne). simpl.
    rewrite Hs. split; reflexivity.
  - intros rec Hrec Hd Ha Htext. unfold kept_records.
    apply filter_In. split; [exact Hrec|]. unfold survives.
    rewrite Hd, Ha.
    destruct (Htext "Startup") as [s1 ->]; [simpl; tauto|].
    destruct (Htext "Industry") as [s2 ->];
      [unfold categories; simpl; tauto|].
    destruct (Htext "Location") as [s3 ->];
      [unfold categories; simpl; tauto|].
    reflexivity.
Qed.

Lemma missing_category_dropped_witness :
  exists out,
    main to_datetime_dayfirst missing_industry_csv = Ok out /\
    ~ In ["06/01/2020"; "Beta"; ""; "Delhi"; "7"; "Seed"]
         (kept_records to_datetime_dayfirst missing_industry_csv) /\
    length (rows out) = 1%nat.
Proof.
  eexists. split; [vm_compute; reflexivity|].
  destruct (missing_category_dropped to_datetime_dayfirst
              missing_industry_csv _ ltac:(vm_compute; reflexivity))
    as (Hrows & Hdrop & _).
  split.
  - apply (Hdrop _ "Industry");
      [unfold categories; simpl; tauto | vm_compute; reflexivity].
  - apply Forall2_length in Hrows. rewrite <- Hrows. reflexivity.
Defined.

(** C3 as stated fails: the record of [blank_industry_csv], whose
    industry is blanks only, is kept, with an empty industry. *)
Lemma blank_industry_kept :
  exists out,
    main to_datetime_dayfirst blank_industry_csv = Ok out /\
    ~ categories_nonempty out.
Proof.
  eexists. split; [vm_compute; reflexivity|].
  unfold categories_nonempty. intros H.
  apply Forall_inv in H.
  destruct (H "Industry") as (s & Hs & Hne);
    [unfold categories; simpl; tauto|].
  vm_compute in Hs. injection Hs as <-.
  apply Hne. reflexivity.
Qed.

(** C7.  When what is left of an amount token after ['$'] and [','] are
    stripped is no number, [clean_amount] answers [pd.NA] (it is a total
    function: nothing is raised), the cell the cleaner computes for the
    token as [read_csv] reads it is a missing value, and the cleaner drops
    the record: it is not among the kept records, whose rows, one for one,
    make the cleaned set, each with the number its amount cleans to. *)
Theorem unparseable_amount_dropped tok :
  unparseable tok ->
  clean_amount (Str tok) = PdNA /\
  isna (clean_amount (read_cell tok)) = true /\
  (forall to_datetime csv out,
      main to_datetime csv = Ok out ->
      (forall rec,
          cell_at (read_record (header csv) rec) "Amount" = read_cell tok ->
          ~ In rec (kept_records to_datetime csv)) /\
      Forall2
        (fun rec (r : gmap string cell) =>
           exists f,
             clean_amount (cell_at (read_record (header csv) rec) "Amount")
             = Float f /\
             is_nan f = false /\
             r !! "Amount" = Some (Float f))
        (kept_records to_datetime csv) (rows out)).
Proof.
  intros Hun.
  assert (Hna : clean_amount (Str tok) = PdNA).
  { unfold clean_amount, clean_amount_try.
    unfold unparseable, remainder in Hun.
    destruct (endswith _ "M"); rewrite Hun; reflexivity. }
  assert (Hcell : isna (clean_amount (read_cell tok)) = true).
  { unfold read_cell. destruct (bool_decide _); [reflexivity|].
    by rewrite Hna. }
  split; [exact Hna|]. split; [exact Hcell|].
  intros to_datetime csv out Hmain.
  assert (Hamount : forall rec,
             survives to_datetime (header csv) rec = true ->
             isna (clean_amount
                     (cell_at (read_record (header csv) rec) "Amount"))
             = false).
  { intros rec Hs. unfold survives in Hs.
    repeat (apply andb_prop in Hs as [Hs ?]). by apply negb_true_iff. }
  split.
  - intros rec Hrec Hin. unfold kept_records in Hin.
    apply filter_In in Hin as [_ Hs]. apply Hamount in Hs.
    rewrite Hrec, Hcell in Hs. discriminate.
  - apply (main_rows_Forall2 _ _ _ _ Hmain). intros rec _ Hs.
    destruct (isna_clean_amount _ (Hamount rec Hs)) as (f & Hf & Hnan).
    exists f. split; [exact Hf|]. split; [by destruct f|].
    rewrite standardized_lookup by discriminate.
    by rewrite prepared_lookup_Amount, prepared_Amount, Hf.
Qed.

Lemma unparseable_amount_dropped_witness :
  unparseable "N/A" /\
  clean_amount (Str "N/A") = PdNA /\
  exists out,
    main to_datetime_dayfirst unparseable_amount_csv = Ok out /\
    ~ In ["06/01/2020"; "Beta"; "Health"; "Delhi"; "N/A"; "Seed"]
         (kept_records to_datetime_dayfirst unparseable_amount_csv) /\
    length (rows out) = 1%nat.
Proof.
  assert (H : unparseable "N/A") by (vm_compute; reflexivity).
  split; [exact H|].
  destruct (unparseable_amount_dropped "N/A" H) as (Hna & _ & Hrun).
  split; [exact Hna|].
  eexists. split; [vm_compute; reflexivity|].
  destruct (Hrun to_datetime_dayfirst unparseable_amount_csv _
              ltac:(vm_compute; reflexivity)) as [Hdrop Hrows].
  split.
  - apply Hdrop. vm_compute. reflexivity.
  - apply Forall2_length in Hrows. rewrite <- Hrows. reflexivity.
Defined.

(** The empty token and a token of letters are unparseable as well. *)
Example unparseable_empty : unparseable EmptyString /\ unparseable "abcM".
Proof. split; vm_compute; reflexivity. Qed.

(** The amounts the docstring of [clean_amount] names. *)
Example clean_amount_5M :
  clean_amount (Str "$5M") = Float (Fin (5000000 # 1)) /\
  clean_amount (Str "4.6E+08") = Float (Fin (460000000 # 1)).
Proof. split; vm_compute; reflexivity. Qed.





End CleanDataFacts.
(** ** The Aggregation Engine and the Investor Attribution Engine *)

Module AnalyzeFacts.
Import PyStr Analyze Cases.

(** *** Key order *)

Lemma ascii_compare_refl c : Ascii.compare c c = Eq.
Proof. unfold Ascii.compare. apply N.compare_refl. Qed.

Lemma ascii_compare_trans a b c :
  Ascii.compare a b = Lt -> Ascii.compare b c = Lt -> Ascii.compare a c = Lt.
Proof.
  unfold Ascii.compare. rewrite !N.compare_lt_iff. apply N.lt_trans.
Qed.

Lemma compare_refl s : String.compare s s = Eq.
Proof.
  induction s as [|c s IH]; simpl; [reflexivity|].
  by rewrite ascii_compare_refl.
Qed.

Lemma key_lt_irrefl k : ~ key_lt k k.
Proof. unfold key_lt. by rewrite compare_refl. Qed.

Lemma key_lt_trans a b c : key_lt a b -> key_lt b c -> key_lt a c.
Proof.
  unfold key_lt. revert b c.
  induction a as [|x a IH]; intros [|y b] [|z c]; simpl; try congruence.
  destruct (Ascii.compare x y) eqn:Exy; try discriminate;
    destruct (Ascii.compare y z) eqn:Eyz; try discriminate; intros H1 H2.
  - apply Ascii.compare_eq_iff in Exy, Eyz. subst.
    rewrite ascii_compare_refl. eauto.
  - apply Ascii.compare_eq_iff in Exy. subst. by rewrite Eyz.
  - apply Ascii.compare_eq_iff in Eyz. subst. by rewrite Exy.
  - by rewrite (ascii_compare_trans _ _ _ Exy Eyz).
Qed.

Lemma compare_Gt_lt a b : String.compare a b = Gt -> key_lt b a.
Proof.
  unfold key_lt. intros H. rewrite String.compare_antisym, H. reflexivity.
Qed.

Lemma eqb_compare a b : String.eqb a b = true <-> String.compare a b = Eq.
Proof.
  rewrite String.eqb_eq. split.
  - intros ->. apply compare_refl.
  - apply String.compare_eq_iff.
Qed.

Lemma key_lt_neq a b : key_lt a b -> String.eqb a b = false.
Proof.
  intros H. apply not_true_is_false. intros E.
  apply String.eqb_eq in E. subst. by apply key_lt_irrefl in H.
Qed.

(** *** groupby *)

Lemma add_to_group_keys k v tbl x :
  In x (map fst (add_to_group k v tbl)) <-> x = k \/ In x (map fst tbl).
Proof.
  induction tbl as [|[k' vs] rest IH]; simpl.
  - intuition.
  - destruct (String.compare k k') eqn:E; simpl.
    + apply String.compare_eq_iff in E. subst. intuition.
    + intuition.
    + rewrite IH. intuition.
Qed.

Lemma add_to_group_ascending k v tbl :
  ascending tbl -> ascending (add_to_group k v tbl).
Proof.
  unfold ascending.
  induction tbl as [|[k' vs] rest IH]; simpl; intros Hs.
  - repeat constructor.
  - apply StronglySorted_inv in Hs as [Hrest Hall].
    destruct (String.compare k k') eqn:E.
    + constructor; assumption.
    + constructor; [constructor; assumption|].
      constructor; [exact E|].
      eapply List.Forall_impl; [|exact Hall].
      intros [k2 s2] H2. simpl in *. eapply key_lt_trans; eauto.
    + constructor; [by apply IH|].
      apply List.Forall_forall. intros [k2 s2] Hin. simpl.
      assert (Hk : In k2 (map fst (add_to_group k v rest))).
      { apply in_map_iff. by exists (k2, s2). }
      apply add_to_group_keys in Hk as [->|Hk].
      * by apply compare_Gt_lt.
      * apply in_map_iff in Hk as ([k3 s3] & Heq & Hin3). simpl in Heq. subst.
        rewrite List.Forall_forall in Hall. exact (Hall _ Hin3).
Qed.

(** A row adds its value to the table, and nothing else. *)
Lemma add_to_group_entries k v tbl :
  Permutation (entries (add_to_group k v tbl)) (v :: entries tbl).
Proof.
  unfold entries. induction tbl as [|[k' vs] rest IH]; simpl.
  - reflexivity.
  - destruct (String.compare k k'); simpl.
    + rewrite <- app_assoc. simpl. symmetry. apply Permutation_middle.
    + reflexivity.
    + rewrite IH. symmetry. apply Permutation_middle.
Qed.

Lemma group_for_absent k (tbl : list (string * list Q)) :
  ~ In k (map fst tbl) -> group_for k tbl = [].
Proof.
  induction tbl as [|[k' vs] rest IH]; simpl; [reflexivity|].
  intros Hnot. destruct (String.eqb k k') eqn:E.
  - apply String.eqb_eq in E. subst. exfalso. tauto.
  - apply IH. tauto.
Qed.

Lemma ascending_head_absent {M} k (x : string * M) tbl :
  ascending (x :: tbl) -> key_lt k x.1 -> ~ In k (map fst (x :: tbl)).
Proof.
  intros Hs Hlt Hin. apply StronglySorted_inv in Hs as [_ Hall].
  simpl in Hin. destruct Hin as [<-|Hin].
  - by apply key_lt_irrefl in Hlt.
  - apply in_map_iff in Hin as (y & <- & Hy).
    rewrite List.Forall_forall in Hall. specialize (Hall _ Hy).
    apply (key_lt_irrefl y.1). eapply key_lt_trans; eauto.
Qed.

(** The value goes to the end of the group of its key. *)
Lemma group_for_add_to_group x k v tbl :
  ascending tbl ->
  group_for x (add_to_group k v tbl) =
  if String.eqb x k then group_for x tbl ++ [v] else group_for x tbl.
Proof.
  induction tbl as [|[k' vs] rest IH]; simpl; intros Hs.
  - by destruct (String.eqb x k).
  - destruct (String.compare k k') eqn:E; simpl.
    + apply String.compare_eq_iff in E. subst k'.
      by destruct (String.eqb x k).
    + destruct (String.eqb x k) eqn:Exk; [|reflexivity].
      apply String.eqb_eq in Exk. subst x.
      rewrite (key_lt_neq _ _ E).
      rewrite (group_for_absent k rest); [reflexivity|].
      intros Hin. apply (ascending_head_absent k (k', vs) rest Hs E).
      simpl. tauto.
    + destruct (String.eqb x k') eqn:Exk'.
      * apply String.eqb_eq in Exk'. subst x.
        apply compare_Gt_lt, key_lt_neq in E. by rewrite E.
      * apply IH. by apply StronglySorted_inv in Hs as [? _].
Qed.

Lemma add_row_ascending tbl kv : ascending tbl -> ascending (add_row tbl kv).
Proof.
  unfold add_row. destruct kv.1; [apply add_to_group_ascending | tauto].
Qed.

Lemma fold_add_row_ascending series tbl :
  ascending tbl -> ascending (fold_left add_row series tbl).
Proof.
  revert tbl. induction series as [|kv series IH]; simpl; intros tbl Hs.
  - exact Hs.
  - by apply IH, add_row_ascending.
Qed.

Lemma groups_ascending series : ascending (groups series).
Proof. apply fold_add_row_ascending. constructor. Qed.

Lemma fold_add_row_keys x series tbl :
  In x (map fst (fold_left add_row series tbl)) <->
  In x (map fst tbl) \/ In x (keys_of series).
Proof.
  revert tbl. induction series as [|[k v] series IH]; simpl; intros tbl.
  - unfold keys_of. simpl. intuition.
  - rewrite IH. unfold add_row, keys_of. simpl.
    destruct k as [k|]; simpl.
    + rewrite add_to_group_keys. intuition.
    + intuition.
Qed.

Lemma groups_keys x series :
  In x (map fst (groups series)) <-> In x (keys_of series).
Proof. unfold groups. rewrite fold_add_row_keys. simpl. intuition. Qed.

Lemma fold_add_row_group_for x series tbl :
  ascending tbl ->
  group_for x (fold_left add_row series tbl) =
  group_for x tbl ++ amounts_under x series.
Proof.
  revert tbl. induction series as [|[k v] series IH]; simpl; intros tbl Hs.
  - unfold amounts_under. simpl. by rewrite app_nil_r.
  - rewrite IH by (by apply add_row_ascending).
    unfold add_row, amounts_under, has_key. simpl.
    destruct k as [k|]; simpl; [|reflexivity].
    rewrite group_for_add_to_group by exact Hs.
    destruct (String.eqb x k); simpl; [|reflexivity].
    by rewrite <- app_assoc.
Qed.

(** The group of a key holds the amounts of the rows under that key, in
    row order. *)
Lemma groups_group_for x series :
  group_for x (groups series) = amounts_under x series.
Proof. unfold groups. by rewrite fold_add_row_group_for by constructor. Qed.

Lemma fold_add_row_entries series tbl :
  Permutation (entries (fold_left add_row series tbl))
              (entries tbl ++ map snd (List.filter keyed series)).
Proof.
  revert tbl. induction series as [|[k v] series IH]; simpl; intros tbl.
  - by rewrite app_nil_r.
  - rewrite IH. unfold add_row, keyed. simpl.
    destruct k as [k|]; simpl; [|reflexivity].
    rewrite add_to_group_entries. simpl. apply Permutation_middle.
Qed.

(** Grouping loses no row and invents none: the groups hold the amounts
    of the rows that have a key, each once. *)
Lemma groups_entries series :
  Permutation (entries (groups series))
              (map snd (List.filter keyed series)).
Proof. unfold groups. by rewrite fold_add_row_entries. Qed.

(** *** The exploded frame *)

Lemma split_nonempty sep s : split sep s <> [].
Proof.
  induction s as [|c s IH]; simpl; [discriminate|].
  destruct (Ascii.eqb c sep); [discriminate|].
  destruct (split sep s); [contradiction|discriminate].
Qed.

Lemma df_in_app l1 l2 : df_in (l1 ++ l2) = df_in l1 ++ df_in l2.
Proof.
  unfold df_in, explode.
  by rewrite map_app, flat_map_app, map_app.
Qed.

Lemma df_in_cons r l : df_in (r :: l) = df_in [r] ++ df_in l.
Proof. apply (df_in_app [r] l). Qed.

Lemma df_in_missing r : Investor r = None -> df_in [r] = [(r, None)].
Proof. intros H. unfold df_in, explode. simpl. by rewrite H. Qed.

Lemma df_in_listed r s :
  Investor r = Some s ->
  df_in [r] = map (fun n => (r, Some n)) (investor_names s).
Proof.
  intros H. unfold df_in, explode, investor_names. simpl. rewrite H. simpl.
  destruct (split "," s) as [|p ps] eqn:E.
  - by apply split_nonempty in E.
  - simpl. rewrite app_nil_r, !map_map. reflexivity.
Qed.

Lemma investor_series_app l1 l2 :
  investor_series (l1 ++ l2) = investor_series l1 ++ investor_series l2.
Proof. unfold investor_series. by rewrite df_in_app, map_app. Qed.

Lemma investor_series_cons r l :
  investor_series (r :: l) = investor_series [r] ++ investor_series l.
Proof. apply (investor_series_app [r] l). Qed.

Lemma investor_series_listed r s :
  Investor r = Some s ->
  investor_series [r] = map (fun n => (Some n, Amount r)) (investor_names s).
Proof.
  intros H. unfold investor_series. rewrite (df_in_listed r s H), map_map.
  reflexivity.
Qed.

Lemma amounts_under_app k s1 s2 :
  amounts_under k (s1 ++ s2) = amounts_under k s1 ++ amounts_under k s2.
Proof. unfold amounts_under. by rewrite List.filter_app, map_app. Qed.

Lemma total_app l1 l2 : (total (l1 ++ l2) == total l1 + total l2)%Q.
Proof.
  induction l1 as [|x l1 IH]; simpl; [ring|]. rewrite IH. ring.
Qed.



(** *** The sums of the groups *)

Lemma ascending_NoDup {M} (tbl : list (string * M)) :
  ascending tbl -> List.NoDup (map fst tbl).
Proof.
  induction tbl as [|x tbl IH]; simpl; intros Hs; [constructor|].
  pose proof Hs as Hs'. apply StronglySorted_inv in Hs' as [Hrest Hall].
  constructor; [|by apply IH].
  intros Hin. apply in_map_iff in Hin as (y & Heq & Hy).
  rewrite List.Forall_forall in Hall. specialize (Hall _ Hy).
  rewrite Heq in Hall. by apply key_lt_irrefl in Hall.
Qed.

Lemma ascending_fst {M N} (t1 : list (string * M))
  (t2 : list (string * N)) :
  map fst t1 = map fst t2 -> ascending t1 -> ascending t2.
Proof.
  unfold ascending. revert t2.
  induction t1 as [|x t1 IH]; intros [|y t2] Hk Hs; try discriminate;
    [constructor|].
  injection Hk as Hxy Hk. apply StronglySorted_inv in Hs as [Hs Hall].
  constructor; [by apply IH|].
  rewrite List.Forall_forall in *. intros z Hz.
  assert (Hin : In z.1 (map fst t1)) by (rewrite Hk; by apply in_map).
  apply in_map_iff in Hin as (w & Hw & Hin).
  rewrite <- Hxy, <- Hw. by apply Hall.
Qed.

Lemma group_for_In k vs (tbl : list (string * list Q)) :
  List.NoDup (map fst tbl) -> In (k, vs) tbl -> group_for k tbl = vs.
Proof.
  induction tbl as [|[k' vs'] rest IH]; simpl; [tauto|].
  intros Hnd Hin. apply List.NoDup_cons_iff in Hnd as [Hk Hnd].
  destruct Hin as [[= -> ->]|Hin].
  - by rewrite String.eqb_refl.
  - destruct (String.eqb k k') eqn:E; [|by apply IH].
    apply String.eqb_eq in E. subst k'.
    exfalso. apply Hk. apply in_map_iff. by exists (k, vs).
Qed.

Lemma groups_row k vs series :
  In (k, vs) (groups series) -> vs = amounts_under k series.
Proof.
  intros Hin. rewrite <- groups_group_for. symmetry.
  apply group_for_In; [|exact Hin].
  apply ascending_NoDup, groups_ascending.
Qed.

Lemma total_perm l1 l2 :
  Permutation l1 l2 -> (total l1 == total l2)%Q.
Proof.
  induction 1 as [|x l l' _ IH|x y l|l l' l'' _ IH1 _ IH2]; simpl.
  - reflexivity.
  - by rewrite IH.
  - ring.
  - by rewrite IH1.
Qed.

Section Sum.
Variable sum : list Q -> Q.

Lemma groupby_sum_fst series :
  map fst (groupby_sum sum series) = map fst (groups series).
Proof. unfold groupby_sum. rewrite map_map. reflexivity. Qed.

Lemma groupby_sum_ascending series : ascending (groupby_sum sum series).
Proof.
  apply (ascending_fst (groups series)); [|apply groups_ascending].
  symmetry. apply groupby_sum_fst.
Qed.

Lemma groupby_sum_keys x series :
  In x (map fst (groupby_sum sum series)) <-> In x (keys_of series).
Proof. rewrite groupby_sum_fst. apply groups_keys. Qed.

(** A row of the table holds what [sum] makes of the amounts of the rows
    under its key, in row order. *)
Lemma groupby_sum_row series k s :
  In (k, s) (groupby_sum sum series) -> s = sum (amounts_under k series).
Proof.
  unfold groupby_sum. intros Hin.
  apply in_map_iff in Hin as ([k' vs] & [= <- <-] & Hg). simpl.
  by rewrite (groups_row _ _ _ Hg).
Qed.

Lemma groupby_sum_In series k :
  In k (keys_of series) ->
  In (k, sum (amounts_under k series)) (groupby_sum sum series).
Proof.
  intros Hk. apply groups_keys in Hk.
  apply in_map_iff in Hk as ([k' vs] & Hfst & Hg). simpl in Hfst. subst k'.
  unfold groupby_sum. apply in_map_iff. exists (k, vs).
  split; [|exact Hg]. simpl. by rewrite (groups_row _ _ _ Hg).
Qed.

(** Where no sum rounds, the table adds up to the rows that have a
    key. *)
Lemma groupby_sum_total series :
  (forall k, In k (keys_of series) -> exact sum (amounts_under k series)) ->
  (total (map snd (groupby_sum sum series)) ==
   total (map snd (List.filter keyed series)))%Q.
Proof.
  intros Hexact. rewrite <- (total_perm _ _ (groups_entries series)).
  unfold groupby_sum, entries. rewrite map_map. cbn [snd].
  assert (Hg : forall g, In g (groups series) ->
                         (sum g.2 == total g.2)%Q).
  { intros [k vs] Hin. simpl. rewrite (groups_row _ _ _ Hin).
    apply Hexact, groups_keys, in_map_iff. by exists (k, vs). }
  induction (groups series) as [|g gs IH]; [reflexivity|].
  cbn [map concat total fold_right].
  change (fold_right Qplus 0%Q ?l) with (total l).
  rewrite total_app, Hg by (by left).
  rewrite IH; [reflexivity|]. intros g' Hg'. apply Hg. by right.
Qed.

End Sum.

Lemma keys_of_In {A} k (series : list (option string * A)) :
  In k (keys_of series) <-> exists v, In (Some k, v) series.
Proof.
  unfold keys_of. rewrite <- list_elem_of_In, list_elem_of_omap. split.
  - intros ([k' v] & Hin & Hk). simpl in Hk. subst.
    exists v. by apply list_elem_of_In.
  - intros [v Hin]. exists (Some k, v). split; [|reflexivity].
    by apply list_elem_of_In.
Qed.

Lemma by_ym_series_keyed df :
  List.filter keyed (map (fun r => (Some (YearMonth r), Amount r)) df) =
  map (fun r => (Some (YearMonth r), Amount r)) df.
Proof. induction df as [|r df IH]; simpl; [reflexivity|]. by rewrite IH. Qed.

Lemma amounts_under_by_ym k df :
  amounts_under k (map (fun r => (Some (YearMonth r), Amount r)) df) =
  map Amount (List.filter (fun r => String.eqb k (YearMonth r)) df).
Proof.
  unfold amounts_under. induction df as [|r df IH]; simpl; [reflexivity|].
  unfold has_key at 1. simpl.
  destruct (String.eqb k (YearMonth r)); simpl; by rewrite IH.
Qed.

(** *** The credit of an investor *)






(** The example of the specification: 100 to X, 100 to Y. *)
Example investor_sums_two_investors :
  investor_sums sample_sum [two_investors]
  = [("X", 100 # 1); ("Y", 100 # 1)].
Proof. reflexivity. Qed.

(** *** The by-period table *)

(** C10.  Grouping by period loses no amount: every record falls under
    the row of its period, the table has one row per period, the groups
    hold the amounts of the records, each once, and a row holds the sum
    pandas takes of the amounts of its period.  Where these sums do not
    round, the rows add up to the amounts of the records. *)
Theorem by_period_loses_nothing sum df :
  List.NoDup (map fst (by_ym sum df)) /\
  (forall r, In r df -> In (YearMonth r) (map fst (by_ym sum df))) /\
  Permutation
    (entries (groups (map (fun r => (Some (YearMonth r), Amount r)) df)))
    (map Amount df) /\
  (forall k s, In (k, s) (by_ym sum df) ->
     s = sum (map Amount
                (List.filter (fun r => String.eqb k (YearMonth r)) df))) /\
  ((forall k, In k (map fst (by_ym sum df)) ->
      exact sum
        (map Amount
           (List.filter (fun r => String.eqb k (YearMonth r)) df))) ->
   (total (map snd (by_ym sum df)) == total (map Amount df))%Q).
Proof.
  unfold by_ym. split; [|split; [|split; [|split]]].
  - apply ascending_NoDup, groupby_sum_ascending.
  - intros r Hr. apply groupby_sum_keys, keys_of_In.
    exists (Amount r). apply in_map_iff. by exists r.
  - rewrite groups_entries, by_ym_series_keyed, map_map. reflexivity.
  - intros k s Hin. apply groupby_sum_row in Hin.
    by rewrite amounts_under_by_ym in Hin.
  - intros Hexact. rewrite groupby_sum_total.
    + rewrite by_ym_series_keyed, map_map. reflexivity.
    + intros k Hk. rewrite amounts_under_by_ym.
      by apply Hexact, groupby_sum_keys.
Qed.

Lemma by_period_loses_nothing_witness :
  by_ym sample_sum unordered_months =
  [(period_str 2019 12, 5 # 1); (period_str 2020 11, 8 # 1)] /\
  (total (map snd (by_ym sample_sum unordered_months)) ==
   total (map Amount unordered_months))%Q.
Proof.
  split; [reflexivity|].
  apply (by_period_loses_nothing sample_sum unordered_months).
  intros k _. unfold exact, sample_sum. reflexivity.
Defined.

(** *** The investor names *)

Lemma rstrip_nonspace c s :
  isspace c = false -> rstrip (String c s) = String c (rstrip s).
Proof. intros H. simpl. rewrite H. by destruct (rstrip s). Qed.


Lemma lstrip_head s :
  lstrip s = EmptyString \/
  exists c t, lstrip s = String c t /\ isspace c = false.
Proof.
  induction s as [|c s IH]; simpl; [by left|].
  destruct (isspace c) eqn:Hc; [exact IH|].
  right. eauto.
Qed.


Lemma count_key_keys k tbl x :
  In x (map fst (count_key k tbl)) <-> x = k \/ In x (map fst tbl).
Proof.
  induction tbl as [|[k' n] rest IH]; simpl; [intuition|].
  destruct (String.eqb_spec k k') as [->|Hne]; simpl.
  - intuition.
  - rewrite IH. intuition.
Qed.

Lemma count_key_NoDup k tbl :
  List.NoDup (map fst tbl) -> List.NoDup (map fst (count_key k tbl)).
Proof.
  induction tbl as [|[k' n] rest IH]; simpl; intros Hnd.
  - repeat constructor. simpl. tauto.
  - apply List.NoDup_cons_iff in Hnd as [Hk Hnd].
    destruct (String.eqb_spec k k') as [->|Hne]; simpl.
    + by constructor.
    + constructor; [|by apply IH].
      rewrite count_key_keys. intros [->|Hin]; congruence.
Qed.

Lemma fold_count_cell_keys x column tbl :
  In x (map fst (fold_left count_cell column tbl)) <->
  In x (map fst tbl) \/ In x (keys_in column).
Proof.
  revert tbl. induction column as [|[k|] column IH]; simpl; intros tbl.
  - unfold keys_in. simpl. intuition.
  - rewrite IH, count_key_keys. unfold keys_in. simpl. intuition.
  - rewrite IH. unfold keys_in. simpl. intuition.
Qed.

Lemma fold_count_cell_NoDup column tbl :
  List.NoDup (map fst tbl) ->
  List.NoDup (map fst (fold_left count_cell column tbl)).
Proof.
  revert tbl. induction column as [|[k|] column IH]; simpl; intros tbl Hnd.
  - exact Hnd.
  - by apply IH, count_key_NoDup.
  - by apply IH.
Qed.

Lemma counts_keys x column :
  In x (map fst (counts column)) <-> In x (keys_in column).
Proof. unfold counts. rewrite fold_count_cell_keys. simpl. intuition. Qed.

Lemma counts_NoDup column : List.NoDup (map fst (counts column)).
Proof. apply fold_count_cell_NoDup. constructor. Qed.

Lemma fold_count_cell_app c1 c2 tbl :
  fold_left count_cell (c1 ++ c2) tbl =
  fold_left count_cell c2 (fold_left count_cell c1 tbl).
Proof. apply fold_left_app. Qed.

Lemma keys_in_In k column : In k (keys_in column) <-> In (Some k) column.
Proof.
  unfold keys_in. rewrite <- !list_elem_of_In, list_elem_of_omap. split.
  - intros (x & Hin & Hx). simpl in Hx. by subst.
  - intros Hin. by exists (Some k).
Qed.

Lemma keys_of_series {A} (key : FundingRecord -> option string)
  (val : FundingRecord -> A) df :
  keys_of (map (fun r => (key r, val r)) df) = keys_in (map key df).
Proof.
  unfold keys_of, keys_in.
  induction df as [|r df IH]; [reflexivity|].
  cbn. destruct (key r); cbn; [f_equal|]; exact IH.
Qed.

Lemma keys_of_investor_series df :
  keys_of (investor_series df) = keys_in (map InvestorName (df_in df)).
Proof.
  unfold investor_series, keys_of, keys_in.
  induction (df_in df) as [|rn l IH]; [reflexivity|].
  cbn. destruct (InvestorName rn); cbn; [f_equal|]; exact IH.
Qed.




(** *** nlargest *)

Lemma in_firstn {A} n (l : list A) x : In x (firstn n l) -> In x l.
Proof.
  revert l. induction n as [|n IH]; intros [|y l]; simpl; try tauto.
  intros [->|H]; [by left | right; by apply IH].
Qed.

Section Sorting.
Context {M : Type} (le : M -> M -> bool).
Hypothesis le_total : forall a b, le a b = true \/ le b a = true.
Hypothesis le_trans :
  forall a b c, le a b = true -> le b c = true -> le a c = true.

Lemma insert_desc_perm x l : Permutation (insert_desc le x l) (x :: l).
Proof.
  induction l as [|y l IH]; simpl; [reflexivity|].
  destruct (le y.2 x.2); [reflexivity|].
  rewrite IH. apply perm_swap.
Qed.

Lemma sort_desc_perm l : Permutation (sort_desc le l) l.
Proof.
  induction l as [|x l IH]; simpl; [reflexivity|].
  rewrite insert_desc_perm. by constructor.
Qed.

Lemma insert_desc_In x l y :
  In y (insert_desc le x l) <-> y = x \/ In y l.
Proof.
  split; intros H.
  - apply (Permutation_in _ (insert_desc_perm x l)) in H.
    simpl in H. intuition.
  - apply (Permutation_in _ (Permutation_sym (insert_desc_perm x l))).
    simpl. intuition.
Qed.

Lemma insert_desc_descending x l :
  descending le l -> descending le (insert_desc le x l).
Proof.
  unfold descending.
  induction l as [|y l IH]; simpl; intros Hs.
  - repeat constructor.
  - pose proof Hs as Hs'. apply StronglySorted_inv in Hs' as [Hl Hall].
    destruct (le y.2 x.2) eqn:E.
    + constructor; [exact Hs|]. constructor; [exact E|].
      eapply List.Forall_impl; [|exact Hall].
      intros z Hz. simpl in *. eapply le_trans; eauto.
    + constructor; [by apply IH|].
      apply List.Forall_forall. intros z Hz.
      apply insert_desc_In in Hz as [->|Hz].
      * destruct (le_total x.2 y.2) as [H|H]; [exact H | congruence].
      * rewrite List.Forall_forall in Hall. by apply Hall.
Qed.

Lemma sort_desc_descending l : descending le (sort_desc le l).
Proof.
  induction l as [|x l IH]; simpl; [constructor|].
  by apply insert_desc_descending.
Qed.

(** An entry whose key is below the keys of a table is put before the
    entries it ties with. *)
Lemma insert_desc_ties x l :
  (forall y, In y l -> key_lt x.1 y.1) ->
  ties_by_key le l -> ties_by_key le (insert_desc le x l).
Proof.
  unfold ties_by_key.
  induction l as [|y l IH]; simpl; intros Hx Hs.
  - repeat constructor.
  - pose proof Hs as Hs'. apply StronglySorted_inv in Hs' as [Hl Hall].
    destruct (le y.2 x.2) eqn:E.
    + constructor; [exact Hs|].
      apply List.Forall_forall. intros z Hz _ _. by apply Hx.
    + constructor; [apply IH; [|exact Hl]; intros z Hz; apply Hx; tauto|].
      apply List.Forall_forall. intros z Hz.
      apply insert_desc_In in Hz as [->|Hz].
      * intros H. congruence.
      * rewrite List.Forall_forall in Hall. by apply Hall.
Qed.

(** Sorting a table that is in ascending key order leaves equal metrics
    in ascending key order. *)
Lemma sort_desc_ties l : ascending l -> ties_by_key le (sort_desc le l).
Proof.
  induction l as [|x l IH]; simpl; intros Hs; [constructor|].
  apply StronglySorted_inv in Hs as [Hl Hall].
  apply insert_desc_ties; [|by apply IH].
  intros y Hy. apply (Permutation_in _ (sort_desc_perm l)) in Hy.
  rewrite List.Forall_forall in Hall. by apply Hall.
Qed.

Lemma firstn_StronglySorted {A} (R : A -> A -> Prop) n l :
  StronglySorted R l -> StronglySorted R (firstn n l).
Proof.
  revert l. induction n as [|n IH]; intros [|x l] Hs; simpl;
    try constructor.
  - apply IH. by apply StronglySorted_inv in Hs as [? _].
  - apply StronglySorted_inv in Hs as [_ Hall].
    rewrite List.Forall_forall in *. intros y Hy.
    apply Hall. eapply in_firstn; eauto.
Qed.

Lemma NoDup_firstn {A} n (l : list A) :
  List.NoDup l -> List.NoDup (firstn n l).
Proof.
  revert l. induction n as [|n IH]; intros [|x l] Hnd; simpl;
    try constructor.
  - apply List.NoDup_cons_iff in Hnd as [Hx _].
    intros Hin. apply Hx. eapply in_firstn; eauto.
  - apply IH. by apply List.NoDup_cons_iff in Hnd as [_ ?].
Qed.

(** [nlargest] of a table with one row per key is a top-N table. *)
Lemma nlargest_top_n n src keys :
  List.NoDup (map fst src) ->
  (forall k, In k (map fst src) <-> In k keys) ->
  top_n le n keys (nlargest le n src).
Proof.
  intros Hnd Hkeys. unfold top_n, nlargest.
  pose proof (sort_desc_perm src) as Hperm.
  assert (Hpk : Permutation (map fst (sort_desc le src)) (map fst src))
    by (by apply Permutation_map).
  split; [|split; [|split; [|split]]].
  - apply firstn_le_length.
  - rewrite <- firstn_map. apply NoDup_firstn.
    eapply Permutation_NoDup; [symmetry; exact Hpk | exact Hnd].
  - intros k Hk. apply Hkeys. rewrite <- firstn_map in Hk.
    apply (Permutation_in _ Hpk). eapply in_firstn; eauto.
  - apply firstn_StronglySorted, sort_desc_descending.
  - intros distinct Hd Hmem Hlen.
    assert (Hpd : Permutation (map fst src) distinct).
    { apply Permutation.NoDup_Permutation; [exact Hnd | exact Hd|].
      intros k. rewrite Hkeys. symmetry. apply Hmem. }
    assert (Hl : length (sort_desc le src) = length distinct).
    { rewrite (Permutation_length Hperm), <- (length_map fst).
      by apply Permutation_length. }
    rewrite firstn_all2 by lia.
    split; [exact Hl|].
    intros k. rewrite Hmem, <- Hkeys. split; intros Hk.
    + by apply (Permutation_in _ (Permutation_sym Hpk)).
    + by apply (Permutation_in _ Hpk).
Qed.

Lemma nlargest_ties n src :
  ascending src -> ties_by_key le (nlargest le n src).
Proof. intros Hs. by apply firstn_StronglySorted, sort_desc_ties. Qed.

End Sorting.

Lemma Qle_bool_total a b : Qle_bool a b = true \/ Qle_bool b a = true.
Proof.
  rewrite !Qle_bool_iff. destruct (Qlt_le_dec a b) as [H|H]; [left|right].
  - by apply Qlt_le_weak.
  - exact H.
Qed.

Lemma Qle_bool_trans a b c :
  Qle_bool a b = true -> Qle_bool b c = true -> Qle_bool a c = true.
Proof. rewrite !Qle_bool_iff. apply Qle_trans. Qed.

Lemma leb_total a b : Nat.leb a b = true \/ Nat.leb b a = true.
Proof. rewrite !Nat.leb_le. lia. Qed.

Lemma leb_trans a b c :
  Nat.leb a b = true -> Nat.leb b c = true -> Nat.leb a c = true.
Proof. rewrite !Nat.leb_le. lia. Qed.

(** A by-sum rollup: a top-10 table with ties in ascending key order. *)
Lemma sum_rollup sum (key : FundingRecord -> option string) df :
  let tbl := nlargest Qle_bool 10
               (groupby_sum sum (map (fun r => (key r, Amount r)) df)) in
  top_n Qle_bool 10 (keys_in (map key df)) tbl /\ ties_by_key Qle_bool tbl.
Proof.
  split.
  - apply (nlargest_top_n _ Qle_bool_total Qle_bool_trans).
    + apply ascending_NoDup, groupby_sum_ascending.
    + intros k. by rewrite groupby_sum_keys, keys_of_series.
  - apply nlargest_ties, groupby_sum_ascending.
Qed.

(** A by-count rollup: a top-10 table. *)
Lemma count_rollup sort_values column :
  sorts_descending sort_values ->
  top_n Nat.leb 10 (keys_in column)
    (nlargest Nat.leb 10 (value_counts sort_values column)).
Proof.
  intros Hsort. unfold value_counts.
  destruct (Hsort (counts column)) as [Hperm _].
  assert (Hpk : Permutation (map fst (sort_values (counts column)))
                            (map fst (counts column)))
    by (by apply Permutation_map).
  apply (nlargest_top_n _ leb_total leb_trans).
  - eapply Permutation_NoDup; [symmetry; exact Hpk | apply counts_NoDup].
  - intros k. rewrite <- counts_keys. split; intros Hk.
    + by apply (Permutation_in _ Hpk).
    + by apply (Permutation_in _ (Permutation_sym Hpk)).
Qed.

Lemma stable_sort_values_sorts : sorts_descending stable_sort_values.
Proof.
  intros l. unfold stable_sort_values. split.
  - apply sort_desc_perm.
  - apply (sort_desc_descending _ leb_total leb_trans).
Qed.

(** C5 (as the code has it).  On a frame without records the script
    stops at the first top-N table, with only the by-period file written.
    On any other frame it writes the tables of industries, startups,
    types and locations, and each top-N table has at most 10 rows, one
    per key, in descending order of its metric, with a row for every key
    when there are at most 10 distinct keys, and no other row.  The two
    investor tables are written, and are such tables, when the frame has
    an investor column that holds text; when the column holds none the
    script stops before them.  In the tables of sums, rows of equal sum
    come in ascending key order, the order [groupby] leaves them in,
    whatever the order of the input.  In the tables of counts the order
    among equal counts is that of [sort_values]. *)
Theorem top_n_rollups sum sort_values investor_column df :
  sorts_descending sort_values ->
  (df = [] ->
   main sum sort_values investor_column df
   = ([funding_by_yearmonth []], Some TypeError)) /\
  (df <> [] ->
   exists investor_files end_,
     main sum sort_values investor_column df =
     (funding_by_yearmonth (by_ym sum df)
      :: top_industries (by_ind sum df)
      :: top_startups_csv (top_startups sum df)
      :: funding_counts_by_type (by_type sort_values df)
      :: top_locations (by_loc sort_values df)
      :: investor_files, end_) /\
     (top_n Qle_bool 10 (keys_in (map Industry df)) (by_ind sum df) /\
      ties_by_key Qle_bool (by_ind sum df)) /\
     (top_n Qle_bool 10 (keys_in (map Startup df)) (top_startups sum df) /\
      ties_by_key Qle_bool (top_startups sum df)) /\
     top_n Nat.leb 10 (keys_in (map Location df))
       (by_loc sort_values df) /\
     (investor_column = true -> has_text (map Investor df) = true ->
      investor_files =
      [top_investors_by_funding (inv_funding sum df);
       top_investors_by_rounds (inv_rounds sort_values df)] /\
      end_ = None /\
      top_n Qle_bool 10 (keys_in (map InvestorName (df_in df)))
        (inv_funding sum df) /\
      ties_by_key Qle_bool (inv_funding sum df) /\
      top_n Nat.leb 10 (keys_in (map InvestorName (df_in df)))
        (inv_rounds sort_values df)) /\
     (investor_column = true -> has_text (map Investor df) = false ->
      investor_files = [] /\ end_ = Some AttributeError) /\
     (investor_column = false -> investor_files = [] /\ end_ = None)).
Proof.
  intros Hsort.
  split; [intros ->; reflexivity|].
  intros Hne.
  assert (Hinv : top_n Qle_bool 10 (keys_in (map InvestorName (df_in df)))
                   (inv_funding sum df) /\
                 ties_by_key Qle_bool (inv_funding sum df) /\
                 top_n Nat.leb 10 (keys_in (map InvestorName (df_in df)))
                   (inv_rounds sort_values df)).
  { unfold inv_funding, investor_sums. split; [|split].
    - apply (nlargest_top_n _ Qle_bool_total Qle_bool_trans).
      + apply ascending_NoDup, groupby_sum_ascending.
      + intros k. by rewrite groupby_sum_keys, keys_of_investor_series.
    - apply nlargest_ties, groupby_sum_ascending.
    - by apply count_rollup. }
  destruct df as [|r df]; [congruence|].
  unfold main.
  destruct investor_column;
    [destruct (has_text (map Investor (r :: df)))|];
    eexists _, _; (split; [reflexivity|]);
    (split; [apply (sum_rollup sum Industry)|]);
    (split; [apply (sum_rollup sum Startup)|]);
    (split; [by apply count_rollup|]).
  - split; [|split]; [|intros _ [=] | intros [=]].
    intros _ _. split; [reflexivity|]. split; [reflexivity|]. exact Hinv.
  - split; [|split]; [intros _ [=] | | intros [=]].
    intros _ _. split; reflexivity.
  - split; [|split]; [intros [=] | intros [=] |].
    intros _. split; reflexivity.
Qed.

Lemma top_n_rollups_witness :
  main sample_sum stable_sort_values true backed_BAC =
  ([funding_by_yearmonth [("2020-01", 200 # 1); ("2020-02", 50 # 1)];
    top_industries [("A", 100 # 1); ("B", 100 # 1); ("C", 50 # 1)];
    top_startups_csv [("Acme", 250 # 1)];
    funding_counts_by_type [("Seed", 3%nat)];
    top_locations [("Pune", 3%nat)];
    top_investors_by_funding [("X", 200 # 1); ("Y", 100 # 1)];
    top_investors_by_rounds [("X", 2%nat); ("Y", 1%nat)]], None) /\
  top_n Qle_bool 10 (keys_in (map Industry backed_BAC))
    (by_ind sample_sum backed_BAC) /\
  ties_by_key Qle_bool (by_ind sample_sum backed_BAC) /\
  top_n Nat.leb 10 (keys_in (map Location backed_BAC))
    (by_loc stable_sort_values backed_BAC) /\
  top_n Qle_bool 10 (keys_in (map InvestorName (df_in backed_BAC)))
    (inv_funding sample_sum backed_BAC).
Proof.
  destruct (top_n_rollups sample_sum stable_sort_values true backed_BAC
              stable_sort_values_sorts) as [_ Hrun].
  destruct Hrun as (files & end_ & _ & (Htop & Hties) & _ & Hloc & Hinv & _);
    [discriminate|].
  split; [reflexivity|]. split; [exact Htop|]. split; [exact Hties|].
  split; [exact Hloc|].
  by destruct (Hinv eq_refl eq_refl) as (_ & _ & Hfund & _).
Defined.

(** C5 as stated fails on the tie order: with B met before A and equal
    sums, the rollup lists A before B. *)
Lemma ties_not_by_first_seen :
  ~ ties_by_first_seen Qle_bool (map Industry industries_BAC)
      (by_ind sample_sum industries_BAC).
Proof.
  unfold ties_by_first_seen. intros H.
  change (by_ind sample_sum industries_BAC)
    with [("A", 100 # 1); ("B", 100 # 1); ("C", 50 # 1)] in H.
  apply StronglySorted_inv in H as [_ Hall].
  apply Forall_inv in Hall.
  specialize (Hall eq_refl eq_refl). vm_compute in Hall. lia.
Qed.

(** *** Periods in key order *)

Lemma digit_char_compare i j :
  (0 <= i <= 9)%Z -> (0 <= j <= 9)%Z ->
  Ascii.compare (digit_char i) (digit_char j) = (i ?= j)%Z.
Proof.
  intros Hi Hj.
  assert (Ei : (i = 0 \/ i = 1 \/ i = 2 \/ i = 3 \/ i = 4 \/ i = 5
                \/ i = 6 \/ i = 7 \/ i = 8 \/ i = 9)%Z) by lia.
  assert (Ej : (j = 0 \/ j = 1 \/ j = 2 \/ j = 3 \/ j = 4 \/ j = 5
                \/ j = 6 \/ j = 7 \/ j = 8 \/ j = 9)%Z) by lia.
  clear Hi Hj.
  destruct Ei as [->|[->|[->|[->|[->|[->|[->|[->|[->| ->]]]]]]]]];
    destruct Ej as [->|[->|[->|[->|[->|[->|[->|[->|[->| ->]]]]]]]]];
    reflexivity.
Qed.

Lemma decimal4 y :
  (0 <= y <= 9999)%Z ->
  (y = 1000 * (y / 1000) + 100 * (y / 100 mod 10) + 10 * (y / 10 mod 10)
       + y mod 10 /\
   0 <= y / 1000 <= 9 /\ 0 <= y / 100 mod 10 <= 9 /\
   0 <= y / 10 mod 10 <= 9 /\ 0 <= y mod 10 <= 9)%Z.
Proof. intros H. Z.div_mod_to_equations. lia. Qed.

Lemma decimal2 m :
  (0 <= m <= 99)%Z ->
  (m = 10 * (m / 10) + m mod 10 /\ 0 <= m / 10 <= 9 /\ 0 <= m mod 10 <= 9)%Z.
Proof. intros H. Z.div_mod_to_equations. lia. Qed.

Lemma period_str_key6 y m :
  period_str y m =
  key6 (y / 1000) (y / 100 mod 10) (y / 10 mod 10) (y mod 10)
       (m / 10) (m mod 10).
Proof. reflexivity. Qed.

(** Keys of digits compare as the numbers they write. *)
Lemma key6_compare a b c d e f a' b' c' d' e' f' :
  digit a -> digit b -> digit c -> digit d -> digit e -> digit f ->
  digit a' -> digit b' -> digit c' -> digit d' -> digit e' -> digit f' ->
  (1000 * a + 100 * b + 10 * c + d < 1000 * a' + 100 * b' + 10 * c' + d'
   \/ (1000 * a + 100 * b + 10 * c + d
        = 1000 * a' + 100 * b' + 10 * c' + d'
       /\ 10 * e + f < 10 * e' + f'))%Z ->
  key_lt (key6 a b c d e f) (key6 a' b' c' d' e' f').
Proof.
  unfold digit.
  intros Ha Hb Hc Hd He Hf Ha' Hb' Hc' Hd' He' Hf' Hlt.
  unfold key_lt, key6. cbn [String.compare].
  rewrite !digit_char_compare by assumption.
  change (Ascii.compare "-" "-") with Eq. cbn iota.
  destruct (Z.compare_spec a a'); [|reflexivity|exfalso; lia].
  destruct (Z.compare_spec b b'); [|reflexivity|exfalso; lia].
  destruct (Z.compare_spec c c'); [|reflexivity|exfalso; lia].
  destruct (Z.compare_spec d d'); [|reflexivity|exfalso; lia].
  destruct (Z.compare_spec e e'); [|reflexivity|exfalso; lia].
  destruct (Z.compare_spec f f'); [|reflexivity|exfalso; lia].
  exfalso. lia.
Qed.

Lemma period_key_mono p q :
  valid_period p -> valid_period q -> earlier p q ->
  key_lt (period_key p) (period_key q).
Proof.
  destruct p as [y m], q as [y' m'].
  unfold valid_period, earlier, period_key. cbn [fst snd].
  intros [Hy Hm] [Hy' Hm'] Hlt.
  rewrite !period_str_key6.
  pose proof (decimal4 y ltac:(lia)) as Dy.
  pose proof (decimal4 y' ltac:(lia)) as Dy'.
  pose proof (decimal2 m ltac:(lia)) as Dm.
  pose proof (decimal2 m' ltac:(lia)) as Dm'.
  set (a := (y / 1000)%Z) in *. set (b := (y / 100 mod 10)%Z) in *.
  set (c := (y / 10 mod 10)%Z) in *. set (d := (y mod 10)%Z) in *.
  set (e := (m / 10)%Z) in *. set (f := (m mod 10)%Z) in *.
  set (a' := (y' / 1000)%Z) in *. set (b' := (y' / 100 mod 10)%Z) in *.
  set (c' := (y' / 10 mod 10)%Z) in *. set (d' := (y' mod 10)%Z) in *.
  set (e' := (m' / 10)%Z) in *. set (f' := (m' mod 10)%Z) in *.
  clearbody a b c d e f a' b' c' d' e' f'.
  apply key6_compare; unfold digit; lia.
Qed.

(** Key order between two period keys is calendar order. *)
Lemma period_key_reflect p q :
  valid_period p -> valid_period q ->
  key_lt (period_key p) (period_key q) -> earlier p q.
Proof.
  intros Hp Hq Hlt.
  assert (Hcases : earlier p q \/ p = q \/ earlier q p).
  { destruct p as [y m], q as [y' m']. unfold earlier. simpl.
    destruct (Z.lt_trichotomy y y') as [?|[->|?]]; [tauto| |tauto].
    destruct (Z.lt_trichotomy m m') as [?|[->|?]]; tauto. }
  destruct Hcases as [H|[->|H]]; [exact H| |].
  - by apply key_lt_irrefl in Hlt.
  - exfalso. apply (key_lt_irrefl (period_key p)).
    eapply key_lt_trans; [exact Hlt|]. by apply period_key_mono.
Qed.

Lemma period_keys_chronological (keys : list string) :
  (forall k, In k keys -> exists p, valid_period p /\ k = period_key p) ->
  StronglySorted key_lt keys ->
  exists periods,
    keys = map period_key periods /\
    StronglySorted earlier periods /\
    Forall valid_period periods.
Proof.
  induction keys as [|k keys IH]; intros Hkeys Hs.
  - exists []. repeat constructor.
  - apply StronglySorted_inv in Hs as [Hs Hall].
    destruct IH as (periods & -> & Hsorted & Hvalid);
      [intros k' Hk'; apply Hkeys; by right | exact Hs |].
    destruct (Hkeys k) as (p & Hp & ->); [by left|].
    exists (p :: periods). split; [reflexivity|].
    split; [|by constructor].
    constructor; [exact Hsorted|].
    rewrite List.Forall_forall in *. intros q Hq.
    apply period_key_reflect; [exact Hp | by apply Hvalid |].
    apply Hall. by apply in_map.
Qed.

(** *** The periods do not depend on the order of the rows *)

Lemma ascending_same_keys {M N} (t1 : list (string * M))
  (t2 : list (string * N)) :
  ascending t1 -> ascending t2 ->
  (forall k, In k (map fst t1) <-> In k (map fst t2)) ->
  map fst t1 = map fst t2.
Proof.
  revert t2. induction t1 as [|x t1 IH]; intros [|y t2] H1 H2 Hk.
  - reflexivity.
  - exfalso. apply (Hk y.1). simpl. by left.
  - exfalso. apply (Hk x.1). simpl. by left.
  - pose proof H1 as H1'. pose proof H2 as H2'.
    apply StronglySorted_inv in H1' as [Ht1 Hall1].
    apply StronglySorted_inv in H2' as [Ht2 Hall2].
    rewrite List.Forall_forall in Hall1, Hall2.
    assert (Hbelow1 : forall k, In k (map fst t1) -> key_lt x.1 k).
    { intros k Hin. apply in_map_iff in Hin as (z & <- & Hz).
      by apply Hall1. }
    assert (Hbelow2 : forall k, In k (map fst t2) -> key_lt y.1 k).
    { intros k Hin. apply in_map_iff in Hin as (z & <- & Hz).
      by apply Hall2. }
    assert (Hxy : x.1 = y.1).
    { destruct (proj1 (Hk x.1) (or_introl eq_refl)) as [E|Hx];
        [by symmetry|].
      destruct (proj2 (Hk y.1) (or_introl eq_refl)) as [E|Hy];
        [exact E|].
      exfalso. apply (key_lt_irrefl x.1).
      eapply key_lt_trans; [apply Hbelow1, Hy | apply Hbelow2, Hx]. }
    simpl. f_equal; [exact Hxy|].
    apply IH; [exact Ht1 | exact Ht2|].
    intros k. split; intros Hin.
    + destruct (proj1 (Hk k) (or_intror Hin)) as [E|H]; [|exact H].
      exfalso. apply (key_lt_irrefl k).
      rewrite <- E, <- Hxy at 1. by apply Hbelow1.
    + destruct (proj2 (Hk k) (or_intror Hin)) as [E|H]; [|exact H].
      exfalso. apply (key_lt_irrefl k).
      rewrite <- E, Hxy at 1. by apply Hbelow2.
Qed.

(** C6.  The by-period table has one row for every year-month of the
    records and no other, holding the sum pandas takes of the amounts of
    that period, and its rows are in calendar order, earliest first,
    whatever the order of the records: a reordering of the records gives
    the same periods in the same order. *)
Theorem by_period_chronological sum df :
  (forall r, In r df ->
     exists p, valid_period p /\ YearMonth r = period_key p) ->
  (exists periods,
      map fst (by_ym sum df) = map period_key periods /\
      StronglySorted earlier periods /\
      Forall valid_period periods) /\
  List.NoDup (map fst (by_ym sum df)) /\
  (forall k, In k (map fst (by_ym sum df)) <->
             exists r, In r df /\ YearMonth r = k) /\
  (forall k s, In (k, s) (by_ym sum df) ->
     s = sum (map Amount
                (List.filter (fun r => String.eqb k (YearMonth r)) df))) /\
  (forall df', Permutation df df' ->
     map fst (by_ym sum df) = map fst (by_ym sum df')).
Proof.
  intros Hperiods.
  assert (Hkeys : forall l k,
             In k (map fst (by_ym sum l)) <->
             exists r, In r l /\ YearMonth r = k).
  { intros l k. unfold by_ym. rewrite groupby_sum_keys, keys_of_In. split.
    - intros [v Hin]. apply in_map_iff in Hin as (r & [= <- _] & Hr).
      eauto.
    - intros (r & Hr & <-). exists (Amount r).
      apply in_map_iff. by exists r. }
  split; [|split; [|split; [|split]]].
  - apply period_keys_chronological.
    + intros k Hk. apply Hkeys in Hk as (r & Hr & <-). by apply Hperiods.
    + pose proof (groupby_sum_ascending sum
                    (map (fun r => (Some (YearMonth r), Amount r)) df))
        as Hs.
      unfold by_ym. unfold ascending in Hs.
      induction Hs as [|x l Hl IH Hall]; simpl; constructor.
      * exact IH.
      * rewrite List.Forall_forall in *. intros k Hk.
        apply in_map_iff in Hk as (z & <- & Hz). by apply Hall.
  - unfold by_ym. apply ascending_NoDup, groupby_sum_ascending.
  - apply Hkeys.
  - intros k s Hin. unfold by_ym in Hin. apply groupby_sum_row in Hin.
    by rewrite amounts_under_by_ym in Hin.
  - intros df' Hperm.
    apply ascending_same_keys;
      [unfold by_ym; apply groupby_sum_ascending ..|].
    intros k. rewrite !Hkeys.
    split; intros (r & Hr & E); exists r; (split; [|exact E]).
    + by apply (Permutation_in _ Hperm).
    + by apply (Permutation_in _ (Permutation_sym Hperm)).
Qed.

Lemma by_period_chronological_witness :
  (exists periods,
      map fst (by_ym sample_sum unordered_months) = map period_key periods /\
      StronglySorted earlier periods /\
      Forall valid_period periods) /\
  by_ym sample_sum unordered_months =
  [(period_str 2019 12, 5 # 1); (period_str 2020 11, 8 # 1)].
Proof.
  split; [|reflexivity].
  apply (by_period_chronological sample_sum unordered_months).
  intros r Hr. simpl in Hr.
  destruct Hr as [<-|[<-|[<-|[]]]];
    [exists (2020, 11)%Z | exists (2019, 12)%Z | exists (2020, 11)%Z];
    (split; [unfold valid_period; simpl; lia | reflexivity]).
Defined.

End AnalyzeFacts.

(** ** The upload path and missing columns *)

Module AppFacts.
Import PyStr PyFloat Pandas Dates Cases App.

Lemma issubset_In s cols c :
  issubset s cols = true -> In c s -> In c cols.
Proof.
  unfold issubset. rewrite forallb_forall. intros H Hc.
  specialize (H c Hc). apply bool_decide_eq_true in H.
  by apply list_elem_of_In.
Qed.

Lemma assign_present c f cols rws :
  In c cols ->
  assign c c f (mkframe cols rws) =
  Ok (mkframe cols (map (fun r => <[c := f (cell_at r c)]> r) rws)).
Proof.
  intros H. apply list_elem_of_In in H.
  unfold assign, has_column. cbn [columns rows].
  by rewrite !bool_decide_true by exact H.
Qed.

Lemma assign_absent dst src f df :
  ~ In src (columns df) -> assign dst src f df = KeyError src.
Proof.
  intros H. unfold assign, has_column.
  rewrite bool_decide_false; [reflexivity|]. by rewrite list_elem_of_In.
Qed.

Lemma dropna_present subset cols rws :
  (forall c, In c subset -> In c cols) ->
  dropna subset (mkframe cols rws) =
  Ok (mkframe cols (List.filter (complete subset) rws)).
Proof.
  intros H. unfold dropna, has_column. cbn [columns rows].
  assert (E : List.filter (fun c => negb (bool_decide (c ∈ cols))) subset
              = []).
  { induction subset as [|c subset IH]; [reflexivity|]. simpl.
    rewrite bool_decide_true
      by (apply list_elem_of_In, H; by left).
    simpl. apply IH. intros c' Hc'. apply H. by right. }
  by rewrite E.
Qed.

Section Load.
Variable to_datetime : string -> option date.
Variable to_numeric : string -> option pyfloat.

(** How the prefix of the script ends, case by case. *)
Lemma load_cases csv :
  (~ In "Date" (header csv) /\
   load to_datetime to_numeric csv = ([], Raised "Date")) \/
  (In "Date" (header csv) /\
   load to_datetime to_numeric csv
   = ([DateParsing; ErrorShown NoParsableDate], Stopped)) \/
  (In "Date" (header csv) /\ ~ In "Amount" (header csv) /\
   load to_datetime to_numeric csv = ([DateParsing], Raised "Amount")) \/
  (In "Date" (header csv) /\ In "Amount" (header csv) /\
   issubset required_cols (header csv) = false /\
   load to_datetime to_numeric csv
   = ([DateParsing; AmountCoercion; RowDropping;
       ErrorShown MissingColumns], Stopped)) \/
  (issubset required_cols (header csv) = true /\
   exists df, load to_datetime to_numeric csv
              = ([DateParsing; AmountCoercion; RowDropping], Continue df)).
Proof.
  destruct csv as [hdr recs]. cbn [header].
  unfold load, read_csv. cbn [header records].
  destruct (in_dec string_dec "Date" hdr) as [HD|HD].
  2:{ left. split; [exact HD|].
      rewrite assign_absent by exact HD. reflexivity. }
  right. rewrite (assign_present _ _ _ _ HD).
  cbn [attempt App.bind rows].
  destruct (forallb _ _) eqn:Hall.
  { left. split; [exact HD | reflexivity]. }
  right. cbn [ret App.bind].
  destruct (in_dec string_dec "Amount" hdr) as [HA|HA].
  2:{ left. split; [exact HD|]. split; [exact HA|].
      rewrite assign_absent by exact HA. reflexivity. }
  right. rewrite (assign_present _ _ _ _ HA).
  cbn [attempt App.bind].
  rewrite dropna_present
    by (intros c [<-|[<-|[]]]; assumption).
  cbn [attempt App.bind columns].
  destruct (issubset required_cols hdr) eqn:Hsub.
  - right. split; [reflexivity|]. eexists. reflexivity.
  - left. split; [exact HD|]. split; [exact HA|]. split; reflexivity.
Qed.

End Load.




End AppFacts.

(** ** More on the Record Cleaner *)

Module CleanDataMore.
Import PyStr PyFloat Pandas CleanData Dates Cases Kept CleanDataFacts.

(** *** Amount tokens *)

Lemma append_cons x (a b : string) :
  (String x a ++ b)%string = String x (a ++ b)%string.
Proof. reflexivity. Qed.

Lemma append_assoc (a b c : string) :
  ((a ++ b) ++ c = a ++ (b ++ c))%string.
Proof.
  induction a as [|x a IH]; [reflexivity|].
  by rewrite !append_cons, IH.
Qed.

Lemma replace_app old new s1 s2 :
  replace old new (s1 ++ s2) =
  (replace old new s1 ++ replace old new s2)%string.
Proof.
  induction s1 as [|c s1 IH]; [reflexivity|].
  rewrite append_cons. cbn [replace].
  destruct (Ascii.eqb c old); rewrite IH.
  - by rewrite append_assoc.
  - by rewrite append_cons.
Qed.

Lemma remainder_app s1 s2 :
  remainder (s1 ++ s2) = (remainder s1 ++ remainder s2)%string.
Proof. unfold remainder. by rewrite !replace_app. Qed.

Lemma upper_app s1 s2 : upper (s1 ++ s2) = (upper s1 ++ upper s2)%string.
Proof.
  induction s1 as [|c s1 IH]; [reflexivity|].
  rewrite append_cons. cbn [upper]. by rewrite IH, append_cons.
Qed.

Lemma endswith_app s suffix : endswith (s ++ suffix)%string suffix = true.
Proof.
  induction s as [|c s IH].
  - change (EmptyString ++ suffix)%string with suffix.
    destruct suffix; cbn [endswith]; by rewrite String.eqb_refl.
  - rewrite append_cons. cbn [endswith]. rewrite IH.
    by destruct (String.eqb _ _).
Qed.

Lemma drop_last_app s c :
  drop_last (s ++ String c EmptyString)%string = s.
Proof.
  induction s as [|x s IH]; [reflexivity|].
  rewrite append_cons. cbn [drop_last]. rewrite IH.
  destruct s; [reflexivity|]. by rewrite append_cons.
Qed.

(** X1.  Commas and dollar signs are ignored wherever they stand in the
    token. *)
Theorem separators_ignored s1 s2 :
  clean_amount (Str (s1 ++ "," ++ s2)%string)
  = clean_amount (Str (s1 ++ s2)%string) /\
  clean_amount (Str (s1 ++ "$" ++ s2)%string)
  = clean_amount (Str (s1 ++ s2)%string).
Proof.
  assert (H : forall sep,
             remainder sep = EmptyString ->
             clean_amount (Str (s1 ++ sep ++ s2)%string)
             = clean_amount (Str (s1 ++ s2)%string)).
  { intros sep Hsep. unfold clean_amount, clean_amount_try.
    fold (remainder (s1 ++ sep ++ s2)%string).
    fold (remainder (s1 ++ s2)%string).
    by rewrite !remainder_app, Hsep. }
  split; apply H; reflexivity.
Qed.

(** X2.  A final M, in either case, multiplies what precedes it by a
    million. *)
Theorem millions_suffix s f :
  float (remainder s) = Some f ->
  clean_amount (Str (s ++ "M")%string) = Float (scale f (1000000 # 1)) /\
  clean_amount (Str (s ++ "m")%string) = Float (scale f (1000000 # 1)).
Proof.
  intros Hf.
  assert (H : forall c, upper (String c EmptyString) = "M" ->
                        remainder (String c EmptyString)
                        = String c EmptyString ->
             clean_amount (Str (s ++ String c EmptyString)%string)
             = Float (scale f (1000000 # 1))).
  { intros c Hup Hrem. unfold clean_amount, clean_amount_try.
    fold (remainder (s ++ String c EmptyString)%string).
    rewrite remainder_app, Hrem, upper_app, Hup, endswith_app.
    by rewrite drop_last_app, Hf. }
  split; apply H; reflexivity.
Qed.

Lemma millions_suffix_witness :
  clean_amount (Str ("$1,250.5" ++ "M")%string)
  = Float (scale (Fin (12505 # 10)) (1000000 # 1)) /\
  clean_amount (Str ("$1,250.5" ++ "m")%string)
  = Float (scale (Fin (12505 # 10)) (1000000 # 1)).
Proof. apply (millions_suffix "$1,250.5"). vm_compute. reflexivity. Defined.

(** *** The columns [main] ends with *)

Lemma cleaner_column_named c :
  In c cleaner_columns -> startswith c "Unnamed" = false.
Proof.
  unfold cleaner_columns. simpl.
  intros [<-|[<-|[<-|[<-|[<-|[<-|[]]]]]]]; reflexivity.
Qed.

Lemma in_named_columns c hdr :
  startswith c "Unnamed" = false ->
  (c ∈ List.filter (fun c => negb (startswith c "Unnamed")) hdr <-> In c hdr).
Proof.
  intros H. rewrite list_elem_of_In, filter_In, H. simpl. tauto.
Qed.

(** The column side of [main], check by check. *)
Lemma main_cols_cases hdr :
  let cols := List.filter (fun c => negb (startswith c "Unnamed")) hdr in
  (main_cols hdr =
   Ok (if bool_decide ("YearMonth" ∈ cols) then cols
       else cols ++ ["YearMonth"]) /\
   forall c, In c cleaner_columns -> In c hdr) \/
  (exists k, main_cols hdr = KeyError k /\
             In k cleaner_columns /\ ~ In k hdr).
Proof.
  intros cols.
  assert (Hin : forall c, In c cleaner_columns -> (c ∈ cols <-> In c hdr)).
  { intros c Hc. by apply in_named_columns, cleaner_column_named. }
  assert (HD := Hin "Date" ltac:(unfold cleaner_columns; simpl; tauto)).
  assert (HS := Hin "Startup" ltac:(unfold cleaner_columns; simpl; tauto)).
  assert (HI := Hin "Industry" ltac:(unfold cleaner_columns; simpl; tauto)).
  assert (HL := Hin "Location" ltac:(unfold cleaner_columns; simpl; tauto)).
  assert (HA := Hin "Amount" ltac:(unfold cleaner_columns; simpl; tauto)).
  assert (HT := Hin "Type" ltac:(unfold cleaner_columns; simpl; tauto)).
  unfold main_cols. fold cols.
  unfold assign_cols, dropna_cols, critical.
  destruct (bool_decide ("Date" ∈ cols)) eqn:ED; cbn [bind].
  2:{ right. exists "Date". apply bool_decide_eq_false in ED.
      split; [reflexivity|].
      split; [unfold cleaner_columns; simpl; tauto | tauto]. }
  rewrite ?ED.
  destruct (bool_decide ("Amount" ∈ cols)) eqn:EA; cbn [bind].
  2:{ right. exists "Amount". apply bool_decide_eq_false in EA.
      split; [reflexivity|].
      split; [unfold cleaner_columns; simpl; tauto | tauto]. }
  rewrite ?EA. cbn [List.filter]. rewrite ?ED, ?EA. cbn [negb].
  destruct (bool_decide ("Startup" ∈ cols)) eqn:ES; cbn [bind negb].
  2:{ right. exists "Startup". apply bool_decide_eq_false in ES.
      split; [reflexivity|].
      split; [unfold cleaner_columns; simpl; tauto | tauto]. }
  destruct (bool_decide ("Industry" ∈ cols)) eqn:EI; cbn [bind negb].
  2:{ right. exists "Industry". apply bool_decide_eq_false in EI.
      split; [reflexivity|].
      split; [unfold cleaner_columns; simpl; tauto | tauto]. }
  destruct (bool_decide ("Location" ∈ cols)) eqn:EL; cbn [bind negb].
  2:{ right. exists "Location". apply bool_decide_eq_false in EL.
      split; [reflexivity|].
      split; [unfold cleaner_columns; simpl; tauto | tauto]. }
  rewrite ?EI. cbn [bind].
  destruct (bool_decide ("Type" ∈ cols)) eqn:ET; cbn [bind negb].
  2:{ right. exists "Type". apply bool_decide_eq_false in ET.
      split; [reflexivity|].
      split; [unfold cleaner_columns; simpl; tauto | tauto]. }
  rewrite ?ET, ?ED. cbn [bind].
  left. split; [reflexivity|].
  apply bool_decide_eq_true in ED, EA, ES, EI, EL, ET.
  intros c Hc. unfold cleaner_columns in Hc. simpl in Hc.
  destruct Hc as [<-|[<-|[<-|[<-|[<-|[<-|[]]]]]]]; tauto.
Qed.

(** *** The rows [main] returns *)

(** X3.  The cleaned set has one record per raw record whose date parses,
    whose startup, industry and location are present and whose amount cleans
    to a number, in the order of the input; each carries the parsed date,
    the cleaned amount and the year and month of the date. *)
Theorem kept_in_order to_datetime csv out :
  main to_datetime csv = Ok out ->
  Forall2
    (fun rec (r : gmap string cell) =>
       exists d f,
         to_datetime_cell to_datetime
           (cell_at (read_record (header csv) rec) "Date") = Timestamp d /\
         clean_amount (cell_at (read_record (header csv) rec) "Amount")
           = Float f /\
         r !! "Date" = Some (Timestamp d) /\
         r !! "Amount" = Some (Float f) /\
         r !! "YearMonth" = Some (Period (year d) (month d)))
    (kept_records to_datetime csv) (rows out).
Proof.
  intros H. apply (main_rows_Forall2 _ _ _ _ H). intros rec _ Hs.
  unfold survives in Hs.
  repeat (apply andb_prop in Hs as [Hs ?]).
  destruct (isna_to_datetime_cell to_datetime
              (cell_at (read_record (header csv) rec) "Date")) as [d Hd];
    [by apply negb_true_iff|].
  destruct (isna_clean_amount
              (cell_at (read_record (header csv) rec) "Amount"))
    as (f & Hf & _); [by apply negb_true_iff|].
  exists d, f. split; [exact Hd|]. split; [exact Hf|].
  rewrite !standardized_lookup by discriminate.
  rewrite standardized_YearMonth.
  rewrite prepared_lookup_Date, prepared_lookup_Amount.
  rewrite prepared_Date, prepared_Amount, Hd, Hf.
  repeat split; reflexivity.
Qed.

Lemma kept_in_order_witness :
  exists out,
    main to_datetime_dayfirst unparseable_amount_csv = Ok out /\
    kept_records to_datetime_dayfirst unparseable_amount_csv
    = [["05/01/2020"; "Acme"; "Fintech"; "Pune"; "$5M"; "Seed"]] /\
    Forall2
      (fun rec (r : gmap string cell) =>
         exists d f,
           to_datetime_cell to_datetime_dayfirst
             (cell_at (read_record (header unparseable_amount_csv) rec)
                      "Date") = Timestamp d /\
           clean_amount
             (cell_at (read_record (header unparseable_amount_csv) rec)
                      "Amount") = Float f /\
           r !! "Date" = Some (Timestamp d) /\
           r !! "Amount" = Some (Float f) /\
           r !! "YearMonth" = Some (Period (year d) (month d)))
      (kept_records to_datetime_dayfirst unparseable_amount_csv) (rows out).
Proof.
  eexists. split; [vm_compute; reflexivity|]. split; [reflexivity|].
  apply (kept_in_order to_datetime_dayfirst unparseable_amount_csv).
  vm_compute. reflexivity.
Defined.

Lemma standardized_other r c :
  ~ In c rewritten -> standardized r !! c = r !! c.
Proof.
  intros H. apply standardized_lookup; intros ->; apply H;
    unfold rewritten; simpl; tauto.
Qed.

Lemma prepared_lookup_other to_datetime r c :
  ~ In c rewritten -> prepared to_datetime r !! c = unnamed_dropped r !! c.
Proof.
  intros H. unfold prepared.
  rewrite !lookup_insert_ne; [reflexivity| |]; intros <-; apply H;
    unfold rewritten; simpl; tauto.
Qed.

Lemma unnamed_dropped_lookup (r : gmap string cell) c :
  unnamed_dropped r !! c =
  if startswith c "Unnamed" then None else r !! c.
Proof.
  unfold unnamed_dropped. rewrite map_lookup_filter.
  destruct (r !! c) as [v|]; simpl.
  - destruct (startswith c "Unnamed") eqn:E.
    + by rewrite option_guard_False by (simpl; congruence).
    + by rewrite option_guard_True.
  - by destruct (startswith c "Unnamed").
Qed.

(** X4.  [main] leaves every column it does not write to as [read_csv] read
    it, the investor column among them, and drops the columns whose name
    starts with Unnamed: the frame has the other columns of the header, and
    YearMonth after them when the header does not have it. *)
Theorem other_columns_untouched to_datetime csv out :
  main to_datetime csv = Ok out ->
  columns out =
    (let cols := List.filter (fun c => negb (startswith c "Unnamed"))
                             (header csv) in
     if bool_decide ("YearMonth" ∈ cols) then cols
     else cols ++ ["YearMonth"]) /\
  Forall2
    (fun rec (r : gmap string cell) =>
       forall c,
         ~ In c rewritten ->
         r !! c = if startswith c "Unnamed" then None
                  else read_record (header csv) rec !! c)
    (kept_records to_datetime csv) (rows out).
Proof.
  intros H. split.
  - destruct csv as [hdr recs]. cbn [header]. rewrite main_shape in H.
    destruct (main_cols_cases hdr) as [[E _]|(k & E & _)];
      rewrite E in H; cbn [bind] in H; [|discriminate].
    by injection H as <-.
  - apply (main_rows_Forall2 _ _ _ _ H). intros rec _ _ c Hc.
    rewrite standardized_other, prepared_lookup_other by exact Hc.
    apply unnamed_dropped_lookup.
Qed.

Lemma other_columns_untouched_witness :
  exists out,
    main to_datetime_dayfirst indexed_csv = Ok out /\
    columns out = ["Date"; "Startup"; "Industry"; "Location"; "Amount";
                   "Type"; "Investor"; "YearMonth"] /\
    Forall2
      (fun rec (r : gmap string cell) =>
         forall c,
           ~ In c rewritten ->
           r !! c = if startswith c "Unnamed" then None
                    else read_record (header indexed_csv) rec !! c)
      (kept_records to_datetime_dayfirst indexed_csv) (rows out).
Proof.
  eexists. split; [vm_compute; reflexivity|].
  apply (other_columns_untouched to_datetime_dayfirst indexed_csv).
  vm_compute. reflexivity.
Defined.

(** X5.  The type of a kept record is Other when the raw type is exactly
    Unknown, the raw type in title case otherwise, and missing when the raw
    type is missing: the replacement comes before the title-casing and is
    case-sensitive, so unknown becomes Unknown. *)
Theorem type_standardized to_datetime csv out :
  main to_datetime csv = Ok out ->
  Forall2
    (fun rec (r : gmap string cell) =>
       r !! "Type" =
       Some (standard_type (cell_at (read_record (header csv) rec) "Type")))
    (kept_records to_datetime csv) (rows out) /\
  standard_type (Str "Unknown") = Str "Other" /\
  standard_type (Str "unknown") = Str "Unknown" /\
  standard_type (Float Nan) = Float Nan.
Proof.
  intros H.
  split; [|split; [reflexivity|split; reflexivity]].
  apply (main_rows_Forall2 _ _ _ _ H). intros rec _ _.
  unfold standardized.
  rewrite lookup_insert_ne by discriminate. rewrite lookup_insert_eq.
  rewrite cell_at_insert_ne by discriminate.
  rewrite prepared_other by (reflexivity || discriminate).
  destruct (cell_at (read_record (header csv) rec) "Type")
    as [s|f| |d| |y m]; try reflexivity.
  simpl. destruct (String.eqb s "Unknown"); reflexivity.
Qed.

Lemma type_standardized_witness :
  exists out,
    main to_datetime_dayfirst indexed_csv = Ok out /\
    map (fun r : gmap string cell => r !! "Type") (rows out)
    = [Some (Str "Unknown"); Some (Float Nan)] /\
    Forall2
      (fun rec (r : gmap string cell) =>
         r !! "Type" =
         Some (standard_type
                 (cell_at (read_record (header indexed_csv) rec) "Type")))
      (kept_records to_datetime_dayfirst indexed_csv) (rows out).
Proof.
  eexists. split; [vm_compute; reflexivity|].
  split; [vm_compute; reflexivity|].
  apply (type_standardized to_datetime_dayfirst indexed_csv).
  vm_compute. reflexivity.
Defined.

(** *** Standardizing the industry *)

Lemma case_char_facts c :
  lower_char (lower_char c) = lower_char c /\
  upper_char (upper_char c) = upper_char c /\
  isalpha (lower_char c) = isalpha c /\
  isalpha (upper_char c) = isalpha c /\
  isspace (lower_char c) = isspace c /\
  isspace (upper_char c) = isspace c.
Proof.
  destruct c as [[] [] [] [] [] [] [] []]; vm_compute; repeat split.
Qed.

Lemma title_from_idem b s : title_from b (title_from b s) = title_from b s.
Proof.
  revert b. induction s as [|c s IH]; intros b; [reflexivity|].
  cbn [title_from].
  destruct (case_char_facts c) as (Hl & Hu & Hal & Hau & _ & _).
  destruct b.
  - by rewrite Hl, Hal, IH.
  - by rewrite Hu, Hau, IH.
Qed.

Lemma title_from_head b c s :
  exists c' s', title_from b (String c s) = String c' s' /\
                isspace c' = isspace c.
Proof.
  destruct (case_char_facts c) as (_ & _ & _ & _ & Hsl & Hsu).
  cbn [title_from]. destruct b; eauto.
Qed.

Lemma ends_nonspace_title b s :
  ends_nonspace (title_from b s) = ends_nonspace s.
Proof.
  revert b. induction s as [|c s IH]; intros b; [reflexivity|].
  destruct (case_char_facts c) as (_ & _ & _ & _ & Hsl & Hsu).
  cbn [title_from]. destruct s as [|d s].
  - cbn. destruct b; by rewrite ?Hsl, ?Hsu.
  - specialize (IH (isalpha c)). cbn [title_from] in IH |- *.
    exact IH.
Qed.

Lemma rstrip_ends s : ends_nonspace (rstrip s) = true.
Proof.
  induction s as [|c s IH]; [reflexivity|].
  cbn [rstrip]. destruct (rstrip s) as [|d r] eqn:E.
  - destruct (isspace c) eqn:Hc; [reflexivity|]. cbn. by rewrite Hc.
  - exact IH.
Qed.

Lemma rstrip_fixed s : ends_nonspace s = true -> rstrip s = s.
Proof.
  induction s as [|c s IH]; [reflexivity|].
  destruct s as [|d s].
  - cbn. intros H. apply negb_true_iff in H. by rewrite H.
  - intros H. change (ends_nonspace (String d s) = true) in H.
    specialize (IH H). cbn [rstrip] in IH |- *.
    by rewrite IH.
Qed.

Lemma strip_head s :
  strip s = EmptyString \/
  exists c r, strip s = String c r /\ isspace c = false.
Proof.
  unfold strip. destruct (AnalyzeFacts.lstrip_head s) as [->|(c & t & -> & Hc)].
  - by left.
  - right. rewrite (AnalyzeFacts.rstrip_nonspace c t Hc). eauto.
Qed.

(** Title-casing a stripped text leaves it stripped. *)
Lemma strip_title_strip s : strip (title (strip s)) = title (strip s).
Proof.
  assert (Hends : ends_nonspace (title (strip s)) = true).
  { unfold title. rewrite ends_nonspace_title. unfold strip.
    apply rstrip_ends. }
  unfold strip at 1.
  destruct (strip_head s) as [E|(c & r & E & Hc)].
  - rewrite E. reflexivity.
  - rewrite E in Hends |- *. unfold title in *.
    destruct (title_from_head false c r) as (c' & r' & Et & Hs).
    rewrite Et in Hends |- *. cbn [lstrip]. rewrite Hs, Hc.
    by apply rstrip_fixed.
Qed.

(** X6.  The industry of a kept record is the raw industry stripped and in
    title case, and standardizing it once more changes nothing. *)
Theorem industry_standardized to_datetime csv out :
  main to_datetime csv = Ok out ->
  Forall2
    (fun rec (r : gmap string cell) =>
       exists s,
         cell_at (read_record (header csv) rec) "Industry" = Str s /\
         r !! "Industry" = Some (Str (title (strip s))) /\
         title (strip (title (strip s))) = title (strip s))
    (kept_records to_datetime csv) (rows out).
Proof.
  intros H. apply (main_rows_Forall2 _ _ _ _ H). intros rec _ Hs.
  unfold survives in Hs. repeat (apply andb_prop in Hs as [Hs ?]).
  destruct (read_record_kind (header csv) rec "Industry") as [[s E]|E].
  - exists s. split; [exact E|]. split.
    + rewrite standardized_Industry.
      rewrite prepared_other by (reflexivity || discriminate).
      by rewrite E.
    + rewrite strip_title_strip. apply title_from_idem.
  - exfalso. rewrite E in *. discriminate.
Qed.

Lemma industry_standardized_witness :
  exists out,
    main to_datetime_dayfirst blank_industry_csv = Ok out /\
    Forall2
      (fun rec (r : gmap string cell) =>
         exists s,
           cell_at (read_record (header blank_industry_csv) rec) "Industry"
             = Str s /\
           r !! "Industry" = Some (Str (title (strip s))) /\
           title (strip (title (strip s))) = title (strip s))
      (kept_records to_datetime_dayfirst blank_industry_csv) (rows out).
Proof.
  eexists. split; [vm_compute; reflexivity|].
  apply (industry_standardized to_datetime_dayfirst blank_industry_csv).
  vm_compute. reflexivity.
Defined.

End CleanDataMore.

(** ** More on the rollups of the analysis *)

Module AnalyzeMore.
Import PyStr Analyze Cases Tally AnalyzeFacts.

(** *** What [nlargest] keeps *)

Lemma nlargest_In {M} (le : M -> M -> bool) n l x :
  In x (nlargest le n l) -> In x l.
Proof.
  intros H. apply in_firstn in H.
  by apply (Permutation_in _ (sort_desc_perm le l)).
Qed.

Lemma StronglySorted_app_inv {A} (R : A -> A -> Prop) l1 l2 x y :
  StronglySorted R (l1 ++ l2) -> In x l1 -> In y l2 -> R x y.
Proof.
  induction l1 as [|a l1 IH]; simpl; [tauto|].
  intros Hs Hx Hy. apply StronglySorted_inv in Hs as [Hs Hall].
  destruct Hx as [->|Hx]; [|by apply IH].
  rewrite List.Forall_forall in Hall. apply Hall.
  apply in_or_app. by right.
Qed.

Lemma nlargest_largest {M} (le : M -> M -> bool) n l x y :
  (forall a b, le a b = true \/ le b a = true) ->
  (forall a b c, le a b = true -> le b c = true -> le a c = true) ->
  In x (nlargest le n l) -> In y l -> ~ In y (nlargest le n l) ->
  le y.2 x.2 = true.
Proof.
  intros Htot Htrans Hx Hy Hnot. unfold nlargest in *.
  pose proof (sort_desc_descending le Htot Htrans l) as Hs.
  unfold descending in Hs.
  rewrite <- (firstn_skipn n (sort_desc le l)) in Hs.
  apply (StronglySorted_app_inv _ _ _ x y Hs Hx).
  apply (Permutation_in _ (Permutation_sym (sort_desc_perm le l))) in Hy.
  rewrite <- (firstn_skipn n (sort_desc le l)) in Hy.
  apply in_app_or in Hy as [Hy|Hy]; [contradiction | exact Hy].
Qed.

(** *** The sums *)

Lemma amounts_under_key (key : FundingRecord -> option string) k df :
  amounts_under k (map (fun r => (key r, Amount r)) df) =
  map Amount (List.filter (under key k) df).
Proof.
  unfold amounts_under. induction df as [|r df IH]; [reflexivity|].
  cbn [map List.filter]. unfold has_key at 1, under at 1. cbn [fst].
  destruct (key r) as [k'|]; [destruct (String.eqb k k')|];
    cbn [map snd]; by rewrite IH.
Qed.

Lemma amounts_under_names k a names :
  amounts_under k (map (fun n => (Some n, a)) names)
  = repeat a (length (List.filter (String.eqb k) names)).
Proof.
  unfold amounts_under. induction names as [|n names IH]; [reflexivity|].
  cbn [map List.filter]. unfold has_key at 1. cbn [fst].
  destruct (String.eqb k n); cbn [map snd length repeat]; by rewrite IH.
Qed.

Lemma investor_series_record r :
  investor_series [r] =
  match Investor r with
  | Some field => map (fun n => (Some n, Amount r)) (investor_names field)
  | None => [(None, Amount r)]
  end.
Proof.
  destruct (Investor r) as [field|] eqn:E.
  - by apply investor_series_listed.
  - unfold investor_series. by rewrite (df_in_missing r E).
Qed.

Lemma amounts_under_investor k df :
  amounts_under k (investor_series df) = credits k df.
Proof.
  unfold credits. induction df as [|r df IH]; [reflexivity|].
  rewrite investor_series_cons, amounts_under_app, IH.
  cbn [flat_map]. f_equal.
  rewrite investor_series_record. unfold times_listed, names_of.
  destruct (Investor r) as [field|]; [apply amounts_under_names|].
  reflexivity.
Qed.

(** X7.  A row of a table of sums holds the sum pandas takes of the
    amounts of its key, in row order: for an industry, or a startup, the
    amounts of the records that name it, and for an investor the amount of
    each record, once per time the record lists the investor. *)
Theorem top_sums_exact sum df k s :
  (In (k, s) (by_ind sum df) ->
   s = sum (map Amount (List.filter (under Industry k) df))) /\
  (In (k, s) (top_startups sum df) ->
   s = sum (map Amount (List.filter (under Startup k) df))) /\
  (In (k, s) (inv_funding sum df) -> s = sum (credits k df)).
Proof.
  split; [|split]; intros Hin; apply nlargest_In in Hin.
  - apply groupby_sum_row in Hin. by rewrite amounts_under_key in Hin.
  - apply groupby_sum_row in Hin. by rewrite amounts_under_key in Hin.
  - apply groupby_sum_row in Hin. by rewrite amounts_under_investor in Hin.
Qed.

Lemma top_sums_exact_witness :
  (200 # 1) = sample_sum (credits "X" backed_BAC).
Proof.
  apply (top_sums_exact sample_sum backed_BAC "X" (200 # 1)).
  vm_compute. tauto.
Defined.

(** *** The counts *)

Lemma count_for_count_key x k tbl :
  count_for x (count_key k tbl) =
  (count_for x tbl + (if String.eqb x k then 1 else 0))%nat.
Proof.
  induction tbl as [|[k' n] rest IH]; simpl.
  - destruct (String.eqb x k); reflexivity.
  - destruct (String.eqb k k') eqn:Ek; simpl.
    + apply String.eqb_eq in Ek. subst k'.
      destruct (String.eqb x k); lia.
    + destruct (String.eqb x k') eqn:Ex; [|exact IH].
      apply String.eqb_eq in Ex. subst k'.
      rewrite String.eqb_sym in Ek. rewrite Ek. lia.
Qed.

Lemma fold_count_cell_count_for x column tbl :
  count_for x (fold_left count_cell column tbl) =
  (count_for x tbl + occurrences x column)%nat.
Proof.
  revert tbl. unfold occurrences.
  induction column as [|[k|] column IH]; intros tbl;
    cbn [fold_left count_cell List.filter].
  - simpl. lia.
  - rewrite IH, count_for_count_key.
    destruct (String.eqb x k); simpl; lia.
  - apply IH.
Qed.

Lemma count_for_In k n (tbl : list (string * nat)) :
  List.NoDup (map fst tbl) -> In (k, n) tbl -> count_for k tbl = n.
Proof.
  induction tbl as [|[k' n'] rest IH]; simpl; [tauto|].
  intros Hnd Hin. apply List.NoDup_cons_iff in Hnd as [Hk Hnd].
  destruct Hin as [[= -> ->]|Hin].
  - by rewrite String.eqb_refl.
  - destruct (String.eqb k k') eqn:E; [|by apply IH].
    apply String.eqb_eq in E. subst k'.
    exfalso. apply Hk. apply in_map_iff. by exists (k, n).
Qed.

Lemma counts_row column k n :
  In (k, n) (counts column) -> n = occurrences k column.
Proof.
  intros Hin.
  rewrite <- (count_for_In k n _ (counts_NoDup column) Hin).
  unfold counts. by rewrite fold_count_cell_count_for.
Qed.

Lemma value_counts_row sort_values column k n :
  sorts_descending sort_values ->
  In (k, n) (value_counts sort_values column) ->
  n = occurrences k column.
Proof.
  intros Hsort Hin. apply counts_row.
  destruct (Hsort (counts column)) as [Hperm _].
  by apply (Permutation_in _ Hperm).
Qed.

Lemma occurrences_app k c1 c2 :
  occurrences k (c1 ++ c2) = (occurrences k c1 + occurrences k c2)%nat.
Proof. unfold occurrences. by rewrite List.filter_app, length_app. Qed.

Lemma occurrences_names k (names : list string) :
  occurrences k (map Some names) =
  length (List.filter (String.eqb k) names).
Proof.
  unfold occurrences. induction names as [|n names IH]; [reflexivity|].
  cbn [map List.filter]. destruct (String.eqb k n); simpl; by rewrite IH.
Qed.

Lemma occurrences_investor k df :
  occurrences k (map InvestorName (df_in df)) =
  list_sum (map (times_listed k) df).
Proof.
  induction df as [|r df IH]; [reflexivity|].
  rewrite df_in_cons, map_app, occurrences_app, IH.
  cbn [map list_sum fold_right]. f_equal.
  unfold times_listed, names_of.
  destruct (Investor r) as [field|] eqn:E.
  - rewrite (df_in_listed r field E), map_map. cbn [InvestorName snd].
    apply occurrences_names.
  - by rewrite (df_in_missing r E).
Qed.

(** X8.  A row of a table of counts holds the number of records of its key:
    a type or a location holds the number of records that name it, and an
    investor the number of times the records list the investor, a name
    listed twice in one record counting twice. *)
Theorem top_counts_exact sort_values df k n :
  sorts_descending sort_values ->
  (In (k, n) (by_type sort_values df) ->
   n = length (List.filter (under Type_ k) df)) /\
  (In (k, n) (by_loc sort_values df) ->
   n = length (List.filter (under Location k) df)) /\
  (In (k, n) (inv_rounds sort_values df) ->
   n = list_sum (map (times_listed k) df)).
Proof.
  intros Hsort.
  assert (Hcol : forall key : FundingRecord -> option string,
             occurrences k (map key df)
             = length (List.filter (under key k) df)).
  { intros key. unfold occurrences, under.
    induction df as [|r df IH]; [reflexivity|].
    cbn [map List.filter]. destruct (key r) as [k'|];
      [destruct (String.eqb k k')|]; simpl; by rewrite IH. }
  split; [|split]; intros Hin.
  - rewrite <- Hcol. by apply (value_counts_row sort_values).
  - apply nlargest_In in Hin. rewrite <- Hcol.
    by apply (value_counts_row sort_values).
  - apply nlargest_In in Hin. rewrite <- occurrences_investor.
    by apply (value_counts_row sort_values).
Qed.

Lemma top_counts_exact_witness :
  2%nat = list_sum (map (times_listed "X") [two_investors; two_investors]).
Proof.
  apply (top_counts_exact stable_sort_values
           [two_investors; two_investors] "X" 2).
  - exact stable_sort_values_sorts.
  - vm_compute. tauto.
Defined.

(** *** The largest are kept *)

(** X9.  A row that [nlargest] leaves out of a top-10 table is not larger
    than any row of the table. *)
Theorem top_rows_are_largest sum sort_values df :
  (forall x y,
      In x (by_ind sum df) ->
      In y (groupby_sum sum (map (fun r => (Industry r, Amount r)) df)) ->
      ~ In y (by_ind sum df) -> (y.2 <= x.2)%Q) /\
  (forall x y,
      In x (top_startups sum df) ->
      In y (groupby_sum sum (map (fun r => (Startup r, Amount r)) df)) ->
      ~ In y (top_startups sum df) -> (y.2 <= x.2)%Q) /\
  (forall x y,
      In x (inv_funding sum df) ->
      In y (investor_sums sum df) ->
      ~ In y (inv_funding sum df) -> (y.2 <= x.2)%Q) /\
  (forall x y,
      In x (by_loc sort_values df) ->
      In y (value_counts sort_values (map Location df)) ->
      ~ In y (by_loc sort_values df) -> (y.2 <= x.2)%nat) /\
  (forall x y,
      In x (inv_rounds sort_values df) ->
      In y (value_counts sort_values (map InvestorName (df_in df))) ->
      ~ In y (inv_rounds sort_values df) -> (y.2 <= x.2)%nat).
Proof.
  repeat split; intros x y Hx Hy Hnot;
    try (apply Qle_bool_iff;
         exact (nlargest_largest Qle_bool 10 _ x y
                  Qle_bool_total Qle_bool_trans Hx Hy Hnot));
    apply Nat.leb_le;
    exact (nlargest_largest Nat.leb 10 _ x y leb_total leb_trans
             Hx Hy Hnot).
Qed.

(** *** The table of types *)

Lemma list_sum_perm l1 l2 :
  Permutation l1 l2 -> list_sum l1 = list_sum l2.
Proof. induction 1; simpl; lia. Qed.

Lemma count_key_sum k tbl :
  list_sum (map snd (count_key k tbl)) = S (list_sum (map snd tbl)).
Proof.
  induction tbl as [|[k' n] rest IH]; simpl; [reflexivity|].
  destruct (String.eqb k k'); simpl; [reflexivity|].
  rewrite IH. lia.
Qed.

Lemma fold_count_cell_sum column tbl :
  list_sum (map snd (fold_left count_cell column tbl)) =
  (list_sum (map snd tbl) + length (keys_in column))%nat.
Proof.
  revert tbl. unfold keys_in.
  induction column as [|[k|] column IH]; intros tbl;
    cbn [fold_left count_cell].
  - simpl. lia.
  - rewrite IH, count_key_sum. cbn. lia.
  - rewrite IH. cbn. lia.
Qed.

(** X10.  The table of funding types is not cut: it has one row for every
    type of the records, however many there are, in descending order of the
    counts, and the counts add up to the number of records that have a type. *)
Theorem by_type_complete sort_values df :
  sorts_descending sort_values ->
  List.NoDup (map fst (by_type sort_values df)) /\
  (forall k, In k (map fst (by_type sort_values df)) <->
             In (Some k) (map Type_ df)) /\
  descending Nat.leb (by_type sort_values df) /\
  list_sum (map snd (by_type sort_values df)) =
  length (keys_in (map Type_ df)).
Proof.
  intros Hsort. unfold by_type, value_counts.
  destruct (Hsort (counts (map Type_ df))) as [Hperm Hdesc].
  assert (Hpk : Permutation
                  (map fst (sort_values (counts (map Type_ df))))
                  (map fst (counts (map Type_ df))))
    by (by apply Permutation_map).
  split; [|split; [|split]].
  - eapply Permutation_NoDup; [symmetry; exact Hpk | apply counts_NoDup].
  - intros k. rewrite <- keys_in_In, <- counts_keys. split; intros Hk.
    + by apply (Permutation_in _ Hpk).
    + by apply (Permutation_in _ (Permutation_sym Hpk)).
  - exact Hdesc.
  - rewrite (list_sum_perm _ _ (Permutation_map snd Hperm)).
    unfold counts. by rewrite fold_count_cell_sum.
Qed.

Lemma by_type_complete_witness :
  List.NoDup (map fst (by_type stable_sort_values industries_ABC)) /\
  (forall k, In k (map fst (by_type stable_sort_values industries_ABC)) <->
             In (Some k) (map Type_ industries_ABC)) /\
  descending Nat.leb (by_type stable_sort_values industries_ABC) /\
  list_sum (map snd (by_type stable_sort_values industries_ABC)) =
  length (keys_in (map Type_ industries_ABC)).
Proof.
  apply (by_type_complete stable_sort_values industries_ABC).
  exact stable_sort_values_sorts.
Defined.

(** *** Records without a key *)

Lemma groups_nan s1 a s2 :
  groups (s1 ++ (None, a) :: s2) = groups (s1 ++ s2).
Proof. unfold groups. by rewrite !fold_left_app. Qed.

Lemma counts_nan c1 c2 : counts (c1 ++ None :: c2) = counts (c1 ++ c2).
Proof. unfold counts. by rewrite !fold_left_app. Qed.

(** X11.  A record whose industry is missing changes nothing in the table
    of industries, and likewise for the startup, the type and the
    location; its amount is still among those summed in the row of its
    period, between the amounts of the records before it and those of the
    records after it. *)
Theorem nan_key_left_out sum sort_values l1 r l2 :
  (Industry r = None ->
   by_ind sum (l1 ++ r :: l2) = by_ind sum (l1 ++ l2)) /\
  (Startup r = None ->
   top_startups sum (l1 ++ r :: l2) = top_startups sum (l1 ++ l2)) /\
  (Type_ r = None ->
   by_type sort_values (l1 ++ r :: l2) = by_type sort_values (l1 ++ l2)) /\
  (Location r = None ->
   by_loc sort_values (l1 ++ r :: l2) = by_loc sort_values (l1 ++ l2)) /\
  In (YearMonth r,
      sum (map Amount (List.filter (under (fun x => Some (YearMonth x))
                                          (YearMonth r)) l1)
           ++ Amount r
              :: map Amount (List.filter (under (fun x => Some (YearMonth x))
                                                (YearMonth r)) l2)))
     (by_ym sum (l1 ++ r :: l2)).
Proof.
  repeat split.
  - intros H. unfold by_ind, groupby_sum. rewrite !map_app. cbn [map].
    rewrite H. by rewrite groups_nan.
  - intros H. unfold top_startups, groupby_sum. rewrite !map_app. cbn [map].
    rewrite H. by rewrite groups_nan.
  - intros H. unfold by_type, value_counts. rewrite !map_app. cbn [map].
    rewrite H. by rewrite counts_nan.
  - intros H. unfold by_loc, value_counts. rewrite !map_app. cbn [map].
    rewrite H. by rewrite counts_nan.
  - unfold by_ym.
    assert (E : amounts_under (YearMonth r)
                  (map (fun x => (Some (YearMonth x), Amount x))
                       (l1 ++ r :: l2))
                = map Amount
                    (List.filter (under (fun x => Some (YearMonth x))
                                        (YearMonth r)) l1)
                  ++ Amount r
                     :: map Amount
                          (List.filter (under (fun x => Some (YearMonth x))
                                              (YearMonth r)) l2)).
    { rewrite (amounts_under_key (fun x => Some (YearMonth x))).
      rewrite List.filter_app. cbn [List.filter].
      unfold under at 2. rewrite String.eqb_refl.
      by rewrite map_app. }
    rewrite <- E. apply groupby_sum_In, keys_of_In.
    exists (Amount r). apply in_map_iff. exists r.
    split; [reflexivity|]. apply in_or_app. right. by left.
Qed.

Lemma nan_key_left_out_witness :
  by_ind sample_sum ([two_investors] ++ bare_record :: [])
  = by_ind sample_sum ([two_investors] ++ [])
  /\ by_type stable_sort_values ([two_investors] ++ bare_record :: [])
     = by_type stable_sort_values ([two_investors] ++ []).
Proof.
  destruct (nan_key_left_out sample_sum stable_sort_values [two_investors]
              bare_record []) as (Hind & _ & Htype & _).
  split; [apply Hind | apply Htype]; reflexivity.
Defined.

End AnalyzeMore.

(** ** More on the upload path *)

Module AppMore.
Import PyStr PyFloat Pandas Dates Cases App Upload AppFacts.

Section Load.
Variable to_datetime : string -> option date.
Variable to_numeric : string -> option pyfloat.

Lemma forallb_undated hdr recs :
  forallb (fun r => isna (cell_at r "Date"))
    (map (fun r => <["Date" := to_datetime_cell to_datetime
                                 (cell_at r "Date")]> r)
         (map (read_record hdr) recs))
  = forallb (fun rec => negb (dated to_datetime hdr rec)) recs.
Proof.
  induction recs as [|rec recs IH]; [reflexivity|].
  cbn [map forallb]. rewrite IH. f_equal.
  unfold dated, cell_at at 1. rewrite lookup_insert_eq. cbn [default].
  by rewrite negb_involutive.
Qed.

Lemma complete_converted hdr rec :
  complete ["Date"; "Amount"]
    (converted to_datetime to_numeric (read_record hdr rec))
  = accepted to_datetime to_numeric hdr rec.
Proof.
  unfold complete, converted, accepted, dated. cbn [forallb].
  unfold cell_at at 1 5.
  rewrite lookup_insert_ne by discriminate.
  rewrite !lookup_insert_eq. cbn [default].
  unfold cell_at at 2. rewrite lookup_insert_ne by discriminate.
  fold (cell_at (read_record hdr rec) "Amount").
  by rewrite andb_true_r.
Qed.

(** The frame the dashboard goes on with. *)
Lemma load_frame csv events df :
  load to_datetime to_numeric csv = (events, Continue df) ->
  events = [DateParsing; AmountCoercion; RowDropping] /\
  columns df = header csv /\
  issubset required_cols (header csv) = true /\
  rows df =
  map (fun rec => converted to_datetime to_numeric
                    (read_record (header csv) rec))
      (accepted_records to_datetime to_numeric csv).
Proof.
  destruct csv as [hdr recs]. cbn [header].
  unfold load, read_csv, accepted_records. cbn [header records].
  destruct (in_dec string_dec "Date" hdr) as [HD|HD].
  2:{ rewrite assign_absent by exact HD. discriminate. }
  rewrite (assign_present _ _ _ _ HD).
  cbn [attempt App.bind rows].
  destruct (forallb _ _) eqn:Hall; [discriminate|].
  cbn [ret App.bind].
  destruct (in_dec string_dec "Amount" hdr) as [HA|HA].
  2:{ rewrite assign_absent by exact HA. discriminate. }
  rewrite (assign_present _ _ _ _ HA).
  cbn [attempt App.bind].
  rewrite dropna_present
    by (intros c [<-|[<-|[]]]; assumption).
  cbn [attempt App.bind columns].
  destruct (issubset required_cols hdr) eqn:Hsub; [|discriminate].
  cbn [negb ret App.bind app]. intros [= <- <-]. cbn [columns rows].
  repeat split.
  rewrite !map_map.
  rewrite (CleanDataFacts.filter_map_comm
             (fun rec => converted to_datetime to_numeric
                           (read_record hdr rec))).
  f_equal. apply List.filter_ext. intros rec. apply complete_converted.
Qed.

End Load.

(** The row of an accepted record. *)
Lemma accepted_row to_datetime to_numeric hdr rec :
  accepted to_datetime to_numeric hdr rec = true ->
  let r := converted to_datetime to_numeric (read_record hdr rec) in
  (exists d, r !! "Date" = Some (Timestamp d)) /\
  (exists f, r !! "Amount" = Some (Float f) /\ is_nan f = false) /\
  forall c, c <> "Date" -> c <> "Amount" ->
            r !! c = read_record hdr rec !! c.
Proof.
  intros Hacc r. unfold r. clear r.
  unfold accepted, dated in Hacc. apply andb_prop in Hacc as [Hd Ha].
  unfold converted. split; [|split].
  - rewrite lookup_insert_ne by discriminate. rewrite lookup_insert_eq.
    unfold to_datetime_cell in *.
    destruct (cell_at (read_record hdr rec) "Date") as [s|f| |d| |y m];
      try discriminate; [|by eauto].
    destruct (to_datetime s); [by eauto | discriminate].
  - rewrite lookup_insert_eq.
    unfold cell_at at 1. rewrite lookup_insert_ne by discriminate.
    fold (cell_at (read_record hdr rec) "Amount").
    unfold to_numeric_cell in *.
    destruct (cell_at (read_record hdr rec) "Amount")
      as [s|f| |d| |y m]; try discriminate.
    + destruct (to_numeric s) as [f|]; [|discriminate].
      exists f. split; [reflexivity|]. by destruct f.
    + exists f. split; [reflexivity|]. by destruct f.
  - intros c HcD HcA. by rewrite !lookup_insert_ne by congruence.
Qed.

(** X13.  The dashboard goes on with one row per record of the upload whose
    date parses and whose amount is a number, in the order of the upload:
    each row holds the parsed date and the number, and every other column as
    it was read. Nothing but parsing, coercion and dropping has happened,
    and the header has every required column. *)
Theorem upload_rows_kept to_datetime to_numeric csv events df :
  load to_datetime to_numeric csv = (events, Continue df) ->
  events = [DateParsing; AmountCoercion; RowDropping] /\
  columns df = header csv /\
  (forall c, In c required_cols -> In c (header csv)) /\
  Forall2
    (fun rec (r : gmap string cell) =>
       (exists d, r !! "Date" = Some (Timestamp d)) /\
       (exists f, r !! "Amount" = Some (Float f) /\ is_nan f = false) /\
       forall c, c <> "Date" -> c <> "Amount" ->
                 r !! c = read_record (header csv) rec !! c)
    (accepted_records to_datetime to_numeric csv) (rows df).
Proof.
  intros H. apply load_frame in H as (-> & Hcols & Hsub & ->).
  split; [reflexivity|]. split; [exact Hcols|].
  split; [intros c Hc; eapply issubset_In; eauto|].
  apply CleanDataFacts.Forall2_map_r_self. intros rec Hrec.
  unfold accepted_records in Hrec. apply filter_In in Hrec as [_ Hacc].
  by apply accepted_row.
Qed.

Lemma upload_rows_kept_witness :
  exists events df,
    load to_datetime_default to_numeric_sample cleaned_csv
    = (events, Continue df) /\
    events = [DateParsing; AmountCoercion; RowDropping] /\
    length (rows df) = 1%nat.
Proof.
  eexists _, _. split; [vm_compute; reflexivity|].
  destruct (upload_rows_kept to_datetime_default to_numeric_sample
              cleaned_csv _ _ ltac:(vm_compute; reflexivity))
    as (Hev & _ & _ & Hrows).
  split; [exact Hev|].
  apply Forall2_length in Hrows. rewrite <- Hrows. reflexivity.
Defined.

(** X14.  With a date column, the run stops on the message that no date
    could be parsed exactly when no record has a date that parses; an upload
    without records is such a one. *)
Theorem no_date_stops to_datetime to_numeric csv :
  In "Date" (header csv) ->
  (load to_datetime to_numeric csv
   = ([DateParsing; ErrorShown NoParsableDate], Stopped) <->
   forall rec, In rec (records csv) ->
               dated to_datetime (header csv) rec = false).
Proof.
  intros HD.
  assert (Hall : forallb (fun rec => negb (dated to_datetime (header csv) rec))
                   (records csv) = true <->
                 forall rec, In rec (records csv) ->
                             dated to_datetime (header csv) rec = false).
  { rewrite forallb_forall. split; intros H rec Hrec.
    - apply negb_true_iff. by apply H.
    - apply negb_true_iff. by apply H. }
  rewrite <- Hall. clear Hall.
  destruct csv as [hdr recs]. cbn [header records] in *.
  unfold load, read_csv. cbn [header records].
  rewrite (assign_present _ _ _ _ HD).
  cbn [attempt App.bind rows].
  rewrite forallb_undated.
  destruct (forallb _ recs) eqn:Hall.
  - split; reflexivity.
  - split; [|discriminate]. cbn [ret App.bind].
    destruct (in_dec string_dec "Amount" hdr) as [HA|HA].
    2:{ rewrite assign_absent by exact HA. discriminate. }
    rewrite (assign_present _ _ _ _ HA).
    cbn [attempt App.bind].
    rewrite dropna_present
      by (intros c [<-|[<-|[]]]; assumption).
    cbn [attempt App.bind columns].
    destruct (issubset required_cols hdr); discriminate.
Qed.

Lemma no_date_stops_witness :
  load to_datetime_default to_numeric_sample header_only
  = ([DateParsing; ErrorShown NoParsableDate], Stopped).
Proof.
  apply (no_date_stops to_datetime_default to_numeric_sample header_only).
  - simpl. tauto.
  - intros rec [].
Defined.

(** X15.  A run that ends on a [KeyError] shows no message: the column is
    Date or Amount, the header does not have it, and an upload without the
    date column always ends so, before anything is done. *)
Theorem key_error_unreported to_datetime to_numeric csv :
  (~ In "Date" (header csv) ->
   load to_datetime to_numeric csv = ([], Raised "Date")) /\
  (forall events c,
      load to_datetime to_numeric csv = (events, Raised c) ->
      (c = "Date" \/ c = "Amount") /\ ~ In c (header csv) /\
      forall msg, ~ In (ErrorShown msg) events).
Proof.
  split.
  - intros Hnot.
    destruct (load_cases to_datetime to_numeric csv)
      as [[_ E]|[[HD _]|[(HD & _)|[(HD & _)|[Hsub _]]]]];
      try contradiction; [exact E|].
    exfalso. apply Hnot. eapply issubset_In; [exact Hsub|].
    unfold required_cols. simpl. tauto.
  - intros events c Hload.
    destruct (load_cases to_datetime to_numeric csv)
      as [[HD E]|[[_ E]|[(_ & HA & E)|[(_ & _ & _ & E)|[_ [df E]]]]]];
      rewrite E in Hload; try discriminate; injection Hload as <- <-;
      (split; [tauto|]); (split; [assumption|]);
      intros msg Hin; simpl in Hin; intuition discriminate.
Qed.

Lemma key_error_unreported_witness :
  load to_datetime_default to_numeric_sample undated_csv
  = ([], Raised "Date").
Proof.
  apply (key_error_unreported to_datetime_default to_numeric_sample
           undated_csv).
  simpl. intuition discriminate.
Defined.

(** X16.  What the cleaner returns has every column the dashboard requires:
    an upload with the columns of a cleaned frame is never refused for its
    columns, and never ends on a [KeyError]. *)
Theorem cleaned_file_accepted clean_to_datetime to_datetime to_numeric
  csv out upload :
  CleanData.main clean_to_datetime csv = Ok out ->
  header upload = columns out ->
  (forall c, In c required_cols -> In c (columns out)) /\
  (load to_datetime to_numeric upload
   = ([DateParsing; ErrorShown NoParsableDate], Stopped) \/
   exists df, load to_datetime to_numeric upload
              = ([DateParsing; AmountCoercion; RowDropping], Continue df)).
Proof.
  intros Hmain Hhdr.
  assert (Hreq : forall c, In c required_cols -> In c (columns out)).
  { destruct csv as [hdr recs]. rewrite CleanDataFacts.main_shape in Hmain.
    destruct (CleanDataMore.main_cols_cases hdr)
      as [[E Hall]|(k & E & _)];
      rewrite E in Hmain; cbn [Pandas.bind] in Hmain; [|discriminate].
    injection Hmain as <-. cbn [columns].
    intros c Hc.
    assert (Hcases : c = "YearMonth" \/ In c CleanData.cleaner_columns).
    { unfold required_cols in Hc. unfold CleanData.cleaner_columns.
      simpl in Hc |- *. intuition. }
    destruct Hcases as [->|Hcl].
    - case_bool_decide as Hym.
      + by apply list_elem_of_In.
      + apply in_or_app. right. by left.
    - assert (Hin : In c (List.filter
                            (fun c => negb (startswith c "Unnamed")) hdr)).
      { apply list_elem_of_In, CleanDataMore.in_named_columns.
        - by apply CleanDataMore.cleaner_column_named.
        - by apply Hall. }
      case_bool_decide; [exact Hin | apply in_or_app; by left]. }
  split; [exact Hreq|].
  rewrite <- Hhdr in Hreq.
  assert (HD : In "Date" (header upload))
    by (apply Hreq; unfold required_cols; simpl; tauto).
  assert (HA : In "Amount" (header upload))
    by (apply Hreq; unfold required_cols; simpl; tauto).
  assert (Hsub : issubset required_cols (header upload) = true).
  { unfold issubset. apply forallb_forall. intros c Hc.
    apply bool_decide_eq_true, list_elem_of_In. by apply Hreq. }
  destruct (load_cases to_datetime to_numeric upload)
    as [[HD' E]|[[_ E]|[(_ & HA' & E)|[(_ & _ & Hsub' & E)|[_ [df E]]]]]].
  - contradiction.
  - by left.
  - contradiction.
  - congruence.
  - right. eauto.
Qed.

Lemma cleaned_file_accepted_witness :
  exists out,
    CleanData.main to_datetime_dayfirst Kept.indexed_csv = Ok out /\
    (forall c, In c required_cols -> In c (columns out)) /\
    (load to_datetime_default to_numeric_sample cleaned_csv
     = ([DateParsing; ErrorShown NoParsableDate], Stopped) \/
     exists df, load to_datetime_default to_numeric_sample cleaned_csv
                = ([DateParsing; AmountCoercion; RowDropping],
                   Continue df)).
Proof.
  eexists. split; [vm_compute; reflexivity|].
  apply (cleaned_file_accepted to_datetime_dayfirst to_datetime_default
           to_numeric_sample Kept.indexed_csv _ cleaned_csv).
  - vm_compute. reflexivity.
  - vm_compute. reflexivity.
Defined.

End AppMore.

(** ** The filters, the indicators and the map *)

Module DashboardFacts.
Import PyStr PyFloat Pandas Dates Cases App Upload Dashboard.

(** *** The same value *)

Lemma same_cell_refl c : same_cell c c = true.
Proof.
  destruct c as [s|[q|b|]| |d| |y m]; simpl;
    rewrite ?String.eqb_refl, ?Z.eqb_refl; try reflexivity.
  - apply Qeq_bool_iff. reflexivity.
  - by destruct b.
Qed.

Lemma same_cell_sym a b : same_cell a b = same_cell b a.
Proof.
  destruct a as [s|[q|b1|]| |d| |y m], b as [s'|[q'|b2|]| |d'| |y' m'];
    simpl; try reflexivity.
  - apply String.eqb_sym.
  - destruct (Qeq_bool q q') eqn:E, (Qeq_bool q' q) eqn:E';
      try reflexivity.
    + apply Qeq_bool_iff in E. symmetry in E. apply Qeq_bool_iff in E.
      congruence.
    + apply Qeq_bool_iff in E'. symmetry in E'. apply Qeq_bool_iff in E'.
      congruence.
  - by destruct b1, b2.
  - by rewrite (Z.eqb_sym (year d)), (Z.eqb_sym (month d)),
      (Z.eqb_sym (day d)).
  - by rewrite (Z.eqb_sym y), (Z.eqb_sym m).
Qed.

Lemma same_cell_trans a b c :
  same_cell a b = true -> same_cell b c = true -> same_cell a c = true.
Proof.
  destruct a as [s|[q|b1|]| |d| |y m], b as [s'|[q'|b2|]| |d'| |y' m'];
    simpl; try discriminate;
    destruct c as [s''|[q''|b3|]| |d''| |y'' m'']; simpl;
    try discriminate; try reflexivity.
  - rewrite !String.eqb_eq. congruence.
  - rewrite !Qeq_bool_iff. intros H1 H2. by rewrite H1.
  - destruct b1, b2, b3; simpl; congruence.
  - rewrite !andb_true_iff, !Z.eqb_eq. intuition congruence.
  - rewrite !andb_true_iff, !Z.eqb_eq. intuition congruence.
Qed.

Lemma isin_In c values :
  isin c values = true <-> exists x, In x values /\ same_cell c x = true.
Proof. apply existsb_exists. Qed.

Lemma isin_unique c col : In c col -> isin c (unique col) = true.
Proof.
  induction col as [|a col IH]; simpl; [tauto|].
  intros [->|Hin].
  - by rewrite same_cell_refl.
  - destruct (same_cell c a) eqn:Eca; [reflexivity|]. simpl.
    apply isin_In. apply isin_In in IH as (x & Hx & Hcx); [|exact Hin].
    exists x. split; [|exact Hcx].
    apply filter_In. split; [exact Hx|].
    apply negb_true_iff. destruct (same_cell a x) eqn:Eax; [|reflexivity].
    rewrite same_cell_sym in Eax.
    by rewrite (same_cell_trans c x a Hcx Eax) in Eca.
Qed.

(** *** The year range *)

Lemma fold_min_le y ys x :
  In x (y :: ys) -> (fold_right Z.min y ys <= x)%Z.
Proof.
  induction ys as [|z ys IH]; simpl.
  - intros [->|[]]. lia.
  - intros [->|[->|Hin]].
    + etransitivity; [apply Z.le_min_r|]. apply IH. by left.
    + apply Z.le_min_l.
    + etransitivity; [apply Z.le_min_r|]. apply IH. by right.
Qed.

Lemma fold_max_ge y ys x :
  In x (y :: ys) -> (x <= fold_right Z.max y ys)%Z.
Proof.
  induction ys as [|z ys IH]; simpl.
  - intros [->|[]]. lia.
  - intros [->|[->|Hin]].
    + etransitivity; [|apply Z.le_max_r]. apply IH. by left.
    + apply Z.le_max_l.
    + etransitivity; [|apply Z.le_max_r]. apply IH. by right.
Qed.

Lemma years_In rows r y :
  In r rows -> dt_year (cell_at r "Date") = Some y -> In y (years rows).
Proof.
  intros Hr Hy. unfold years, column.
  apply list_elem_of_In, list_elem_of_omap.
  exists (cell_at r "Date"). split; [|exact Hy].
  apply list_elem_of_In, in_map_iff. by exists r.
Qed.

Lemma filter_all {A} (p : A -> bool) l :
  (forall x, In x l -> p x = true) -> List.filter p l = l.
Proof.
  induction l as [|x l IH]; simpl; intros H; [reflexivity|].
  rewrite (H x) by (by left). f_equal. apply IH.
  intros y Hy. apply H. by right.
Qed.

(** With every date parsed, the default selection shows every row. *)
Lemma default_selection rows sel :
  (forall r, In r rows -> exists d, cell_at r "Date" = Timestamp d) ->
  year_bounds rows = Some sel ->
  (sel.1 <= sel.2)%Z /\
  apply_filters sel (unique (column "Industry" rows))
    (unique (column "Type" rows)) rows = rows.
Proof.
  intros Hdated Hsel. unfold year_bounds in Hsel.
  destruct (years rows) as [|y ys] eqn:Ey; [discriminate|].
  injection Hsel as <-. cbn [fst snd]. split.
  - etransitivity; [apply (fold_min_le y ys y) | apply (fold_max_ge y ys y)];
      by left.
  - apply filter_all. intros r Hr. cbn [fst snd].
    destruct (Hdated r Hr) as [d Hd].
    assert (Hy : In (year d) (y :: ys)).
    { rewrite <- Ey. apply (years_In rows r); [exact Hr|]. by rewrite Hd. }
    rewrite Hd. cbn [dt_year between].
    pose proof (fold_min_le y ys _ Hy). pose proof (fold_max_ge y ys _ Hy).
    rewrite !andb_true_iff. repeat split.
    + by apply Z.leb_le.
    + by apply Z.leb_le.
    + apply isin_unique, in_map_iff. by exists r.
    + apply isin_unique, in_map_iff. by exists r.
Qed.

Lemma years_dated rows :
  (forall r, In r rows -> exists d, cell_at r "Date" = Timestamp d) ->
  length (years rows) = length rows.
Proof.
  unfold years, column.
  induction rows as [|r rows IH]; intros H; [reflexivity|].
  destruct (H r) as [d Hd]; [by left|].
  cbn. rewrite Hd. cbn. f_equal. apply IH.
  intros r' Hr'. apply H. by right.
Qed.

(** X17.  After an upload that goes through, the bounds of the year slider
    cannot be computed exactly when no record was kept: the script then ends
    on the [ValueError] of the minimum of no year. Otherwise the filters at
    their defaults (the whole range of years, every industry and every type
    of the frame, the missing ones included) show every kept record. *)
Theorem default_view_is_whole to_datetime to_numeric csv events df :
  load to_datetime to_numeric csv = (events, Continue df) ->
  (year_bounds (rows df) = None <->
   accepted_records to_datetime to_numeric csv = []) /\
  (forall sel,
      year_bounds (rows df) = Some sel ->
      (sel.1 <= sel.2)%Z /\
      apply_filters sel (unique (column "Industry" (rows df)))
        (unique (column "Type" (rows df))) (rows df) = rows df).
Proof.
  intros H. apply AppMore.load_frame in H as (_ & _ & _ & Hrows).
  assert (Hdated : forall r, In r (rows df) ->
                             exists d, cell_at r "Date" = Timestamp d).
  { intros r Hr. rewrite Hrows in Hr.
    apply in_map_iff in Hr as (rec & <- & Hrec).
    unfold accepted_records in Hrec. apply filter_In in Hrec as [_ Hacc].
    destruct (AppMore.accepted_row to_datetime to_numeric _ _ Hacc)
      as [[d Hd] _].
    exists d. unfold cell_at. by rewrite Hd. }
  pose proof (years_dated _ Hdated) as Hlen.
  split; [|intros sel Hsel; by apply default_selection].
  assert (Hkept : length (rows df)
                  = length (accepted_records to_datetime to_numeric csv))
    by (rewrite Hrows; apply length_map).
  rewrite Hkept in Hlen. unfold year_bounds.
  destruct (years (rows df)) as [|y ys],
    (accepted_records to_datetime to_numeric csv) as [|rec recs];
    try discriminate; split; (reflexivity || discriminate).
Qed.

Lemma default_view_is_whole_witness :
  exists events df sel,
    load to_datetime_default to_numeric_sample cleaned_csv
    = (events, Continue df) /\
    year_bounds (rows df) = Some sel /\
    apply_filters sel (unique (column "Industry" (rows df)))
      (unique (column "Type" (rows df))) (rows df) = rows df.
Proof.
  eexists _, _, _. split; [vm_compute; reflexivity|].
  split; [vm_compute; reflexivity|].
  eapply (default_view_is_whole to_datetime_default to_numeric_sample
            cleaned_csv).
  - vm_compute. reflexivity.
  - vm_compute. reflexivity.
Defined.

(** *** The indicators *)

Lemma unique_length col : (length (unique col) <= length col)%nat.
Proof.
  induction col as [|c col IH]; simpl; [lia|].
  pose proof (List.filter_length_le
                (fun x => negb (same_cell c x)) (unique col)).
  lia.
Qed.

Lemma unique_snoc col c :
  unique (col ++ [c]) =
  if isin c col then unique col else unique col ++ [c].
Proof.
  induction col as [|a col IH]; [reflexivity|].
  cbn [app unique isin existsb]. rewrite IH.
  fold (isin c col). destruct (isin c col).
  - by rewrite orb_true_r.
  - rewrite orb_false_r, List.filter_app. cbn [List.filter].
    rewrite (same_cell_sym a c).
    destruct (same_cell c a); cbn [negb]; [by rewrite app_nil_r|].
    reflexivity.
Qed.

Lemma isin_present c col :
  isna c = false ->
  isin c (List.filter (fun x => negb (isna x)) col) = isin c col.
Proof.
  intros Hc. unfold isin. induction col as [|x col IH]; [reflexivity|].
  cbn [List.filter existsb].
  destruct (isna x) eqn:Ex; cbn [negb existsb]; rewrite IH; [|reflexivity].
  assert (E : same_cell c x = false).
  { destruct c as [s|[q|b1|]| |d| |y m], x as [s'|[q'|b2|]| |d'| |y' m'];
      try reflexivity; discriminate. }
  by rewrite E.
Qed.

(** X18.  The dashboard never shows more startups than rounds. One more
    round adds one to the rounds; it adds one to the startups when its
    startup is present and was not seen before, and nothing otherwise. *)
Theorem startups_counted_once filtered r :
  (num_startups filtered <= num_rounds filtered)%nat /\
  num_rounds (filtered ++ [r]) = S (num_rounds filtered) /\
  num_startups (filtered ++ [r]) =
  if isna (cell_at r "Startup")
     || isin (cell_at r "Startup") (column "Startup" filtered)
  then num_startups filtered
  else S (num_startups filtered).
Proof.
  unfold num_startups, num_rounds, nunique, column. split; [|split].
  - etransitivity; [apply unique_length|].
    etransitivity; [apply List.filter_length_le|].
    by rewrite length_map.
  - rewrite length_app. simpl. lia.
  - rewrite map_app, List.filter_app. cbn [map List.filter].
    destruct (isna (cell_at r "Startup")) eqn:Ena; cbn [negb orb].
    + by rewrite app_nil_r.
    + rewrite unique_snoc, (isin_present _ _ Ena).
      destruct (isin _ _); [reflexivity|].
      rewrite length_app. simpl. lia.
Qed.

(** *** The map *)

Lemma get_both x d :
  get x d = (None, None) \/
  exists la lo, get x d = (Some la, Some lo) /\ In (x, (la, lo)) d.
Proof.
  induction d as [|[k [la lo]] d IH]; simpl; [by left|].
  destruct (String.eqb x k) eqn:E.
  - apply String.eqb_eq in E. subst k. right. eauto.
  - destruct IH as [->|(la' & lo' & -> & Hin)]; [by left|].
    right. eauto.
Qed.

Lemma get_In x la lo d :
  List.NoDup (map fst d) -> In (x, (la, lo)) d ->
  get x d = (Some la, Some lo).
Proof.
  induction d as [|[k [la' lo']] d IH]; simpl; [tauto|].
  intros Hnd Hin. apply List.NoDup_cons_iff in Hnd as [Hk Hnd].
  destruct Hin as [[= -> -> ->]|Hin].
  - by rewrite String.eqb_refl.
  - destruct (String.eqb x k) eqn:E; [|by apply IH].
    apply String.eqb_eq in E. subst k. exfalso. apply Hk.
    apply in_map_iff. by exists (x, (la, lo)).
Qed.

Lemma coords_NoDup : List.NoDup (map fst coords).
Proof.
  unfold coords. cbn [map fst].
  repeat (constructor; [cbn [In]; intuition discriminate|]).
  constructor.
Qed.

Lemma located_In row top :
  In row (located top) <->
  In (City row, Count row) top /\
  In (City row, (lat row, lon row)) coords.
Proof.
  unfold located. rewrite <- list_elem_of_In, list_elem_of_omap. split.
  - intros ([c n] & Hin & Hrow). apply list_elem_of_In in Hin.
    cbn [fst snd] in Hrow.
    destruct (get_both c coords) as [E|(la & lo & E & Hc)];
      rewrite E in Hrow; cbn [fst snd] in Hrow; [discriminate|].
    injection Hrow as <-. cbn [City Count lat lon]. tauto.
  - intros [Htop Hc]. exists (City row, Count row).
    split; [by apply list_elem_of_In|]. cbn [fst snd].
    rewrite (get_In _ _ _ _ coords_NoDup Hc). cbn [fst snd].
    by destruct row.
Qed.

Lemma omap_length_le {A B} (f : A -> option B) l :
  (length (omap f l) <= length l)%nat.
Proof.
  induction l as [|x l IH]; [reflexivity|].
  cbn. destruct (f x); cbn; lia.
Qed.

Lemma located_length top : (length (located top) <= length top)%nat.
Proof. apply omap_length_le. Qed.

(** X19.  The map shows at most ten cities: those of the ten top locations
    that are among the ten cities with known coordinates, under the exact
    spelling of the table, each with its coordinates and with the number of
    shown rounds of that location. *)
Theorem map_shows_known_cities sort_values filtered :
  Analyze.sorts_descending sort_values ->
  (length (city_counts sort_values filtered) <= 10)%nat /\
  (forall row,
      In row (city_counts sort_values filtered) <->
      In (City row, Count row) (top_loc sort_values filtered) /\
      In (City row, (lat row, lon row)) coords) /\
  (forall row,
      In row (city_counts sort_values filtered) ->
      Count row =
      Tally.occurrences (City row) (map text (column "Location" filtered))).
Proof.
  intros Hsort. unfold city_counts. split; [|split].
  - etransitivity; [apply located_length|].
    unfold top_loc, Analyze.nlargest. apply firstn_le_length.
  - intros row. apply located_In.
  - intros row Hrow. apply located_In in Hrow as [Htop _].
    unfold top_loc in Htop. apply AnalyzeMore.nlargest_In in Htop.
    by apply (AnalyzeMore.value_counts_row sort_values).
Qed.

Lemma map_shows_known_cities_witness :
  city_counts Analyze.stable_sort_values three_rounds
  = [mkcity "Pune" 2 (185204 # 10000) (738567 # 10000)] /\
  (forall row,
      In row (city_counts Analyze.stable_sort_values three_rounds) ->
      Count row =
      Tally.occurrences (City row)
        (map text (column "Location" three_rounds))).
Proof.
  split; [vm_compute; reflexivity|].
  apply (map_shows_known_cities Analyze.stable_sort_values three_rounds).
  exact AnalyzeFacts.stable_sort_values_sorts.
Defined.

End DashboardFacts.
